(** * terraform-provider-mongodb: connection resolver, identifier codec,
      value translators and the resource state machines

    A shallow embedding of [internal/provider]: [provider.go]
    (provider [Configure]), [utils.go] (translators, [parseIndexId],
    [addArgs], TLS and proxy helpers; [proxyDialer] in its two
    revisions), [database_resource.go] and [collection_resource.go].
    The index resource, registered by [provider.go], is modelled from
    the specification.

    Go strings are [string]; a Go [error] is the message [Error()] returns;
    a Go result pair [(v, err)] is a pair of options, [None] standing for
    [nil].  Methods that mutate their response and leave by an early
    [return] are written in a small state monad with an early exit; what
    a method does on the server and on the state is kept in a trace. *)

From Stdlib Require Import ZArith Ascii String List Bool Lia.
From stdpp Require Import base option strings list gmap.

Import ListNotations.
Local Open Scope string_scope.
Local Open Scope list_scope.

Set Default Proof Using "Type".

(* ================================================================== *)
(** * Go runtime pieces used by the package *)
(* ================================================================== *)

(** A Go [error], observed through its message. *)
Definition error := string.

(** A Go result pair [(v, err)]. *)
Definition result (A : Type) : Type := (option A * option error)%type.

(** Values of type [interface{}], by dynamic type. *)
Inductive GoValue : Type :=
| GoNil
| GoBool (b : bool)
| GoInt (n : Z)
| GoInt32 (n : Z)
| GoInt64 (n : Z)
| GoFloat64 (mantissa exponent : Z)
| GoString (s : string).

(** [strconv.FormatBool]. *)
Definition FormatBool (b : bool) : string := if b then "true" else "false".

(** [strings.Contains s (string c)] for a single byte [c]. *)
Fixpoint contains_byte (c : ascii) (s : string) : bool :=
  match s with
  | EmptyString => false
  | String x r => Ascii.eqb x c || contains_byte c r
  end.

(** [strings.Split s sep] for a one-byte separator: the substrings between
    the separators, in order; a string without the separator (the empty
    string too) gives a slice of length one. *)
Fixpoint Split (s : string) (sep : ascii) : list string :=
  match s with
  | EmptyString => [EmptyString]
  | String x r =>
      if Ascii.eqb x sep then EmptyString :: Split r sep
      else match Split r sep with
           | h :: t => String x h :: t
           | [] => [String x EmptyString]
           end
  end.

Definition dot : ascii := "."%char.

(** [strings.Join]. *)
Fixpoint Join (elems : list string) (sep : string) : string :=
  match elems with
  | [] => ""
  | [e] => e
  | e :: rest => e +:+ sep +:+ Join rest sep
  end.

(* ================================================================== *)
(** * utils.go *)
(* ================================================================== *)

(** Convert an index type declared in terraform as string into a type and
    value expected by Mongo's client.  The untyped constants [1] and [-1]
    are boxed as Go [int]. *)
Definition convertToMongoIndexType (indexType : string) : GoValue :=
  if String.eqb indexType "asc" then GoInt 1
  else if String.eqb indexType "desc" then GoInt (-1)
  else GoString indexType.

Definition err_int_value : error :=
  "if typeIndex is int, it MUST have value 1 ou -1".
Definition err_int_or_string : error :=
  "typeIndex MUST be int32 or string".

(** Convert an index type returned by Mongo's client into a string
    understood by terraform.  The Go function returns [(string, error)];
    the string is [""] next to an error. *)
Definition convertToTfIndexType (indexType : GoValue) : string * option error :=
  match indexType with
  | GoInt32 intValue =>
      if Z.eqb intValue 1 then ("asc", None)
      else if Z.eqb intValue (-1) then ("desc", None)
      else ("", Some err_int_value)
  | GoString strValue => (strValue, None)
  | _ => ("", Some err_int_or_string)
  end.

Record indexId : Type := mkIndexId {
  idx_database : string;
  idx_collection : string;
  idx_indexName : string
}.

Definition err_index_id : error :=
  "Index id's format must be <database>.<collection>.<index_name>".

Definition parseIndexId (path : string) : result indexId :=
  match Split path dot with
  | [p0; p1; p2] => (Some (mkIndexId p0 p1 p2), None)
  | _ => (None, Some err_index_id)
  end.

Definition addArgs (arguments newArg : string) : string :=
  if negb (String.eqb arguments "") then arguments +:+ "&" +:+ newArg
  else "/?" +:+ newArg.

(* ================================================================== *)
(** * collection_resource.go: the collection identifier *)
(* ================================================================== *)

Record collectionId : Type := mkCollectionId {
  col_database : string;
  col_collection : string
}.

(** [fmt.Errorf("invalid id format: %s", id)]. *)
Definition err_collection_id (id : string) : error :=
  "invalid id format: " +:+ id.

Definition parseCollectionId (id : string) : result collectionId :=
  match Split id dot with
  | [p0; p1] => (Some (mkCollectionId p0 p1), None)
  | _ => (None, Some (err_collection_id id))
  end.

(** [fmt.Sprintf("%s.%s", database, collection)], the identifier the
    collection resource stores. *)
Definition collectionIdString (database collection : string) : string :=
  database +:+ "." +:+ collection.

(* ================================================================== *)
(** * terraform-plugin-framework: values, diagnostics, state *)
(* ================================================================== *)

(** [types.String]: null, unknown or a known value; [ValueString] is [""]
    unless the value is known. *)
Inductive types_String : Type :=
| StringNull
| StringUnknown
| StringValue (s : string).

Definition ValueString (v : types_String) : string :=
  match v with StringValue s => s | _ => "" end.

(** [types.Bool]; [ValueBool] is [false] unless the value is known. *)
Inductive types_Bool : Type :=
| BoolNull
| BoolUnknown
| BoolValue (b : bool).

Definition ValueBool (v : types_Bool) : bool :=
  match v with BoolValue b => b | _ => false end.

Inductive Severity : Type := SeverityError | SeverityWarning.

(** A diagnostic: a short title ([Summary]), a long description
    ([Detail]) and, for an attribute diagnostic, the attribute's root path. *)
Record Diagnostic : Type := mkDiagnostic {
  Severity_of : Severity;
  Summary : string;
  Detail : string;
  AttributePath : option string
}.

#[global] Instance Severity_eq_dec : EqDecision Severity.
Proof. solve_decision. Defined.
#[global] Instance Diagnostic_eq_dec : EqDecision Diagnostic.
Proof. solve_decision. Defined.

Definition Diagnostics := list Diagnostic.

Definition NewErrorDiagnostic (summary detail : string) : Diagnostic :=
  mkDiagnostic SeverityError summary detail None.

Definition NewAttributeErrorDiagnostic (path summary detail : string) : Diagnostic :=
  mkDiagnostic SeverityError summary detail (Some path).

Definition is_error (d : Diagnostic) : bool :=
  match Severity_of d with SeverityError => true | SeverityWarning => false end.

(** [Diagnostics.HasError]. *)
Definition HasError (ds : Diagnostics) : bool := existsb is_error ds.

(** [Diagnostics.Contains]. *)
Definition Contains (ds : Diagnostics) (d : Diagnostic) : bool :=
  existsb (fun x => bool_decide (x = d)) ds.

(** [Diagnostics.Append]: adds the diagnostics that are not already there. *)
Definition Append (ds new : Diagnostics) : Diagnostics :=
  fold_left (fun acc d => if Contains acc d then acc else acc ++ [d]) new ds.

(** An attribute value of the state: a string, or an object whose fields
    are strings. *)
Inductive attrValue : Type :=
| AUnknown
| AString (s : string)
| AObject (fields : list (string * string)).

(** [tfsdk.State]: the attributes that are not null, by name. *)
Abbreviation tfState := (gmap string attrValue).

Definition attr_of_String (v : types_String) : option attrValue :=
  match v with
  | StringNull => None
  | StringUnknown => Some AUnknown
  | StringValue s => Some (AString s)
  end.

(** Write one attribute of an object under its [tfsdk] tag; a null value
    leaves the attribute out. *)
Definition put (tag : string) (v : option attrValue) (st : tfState) : tfState :=
  match v with
  | Some a => <[tag := a]> st
  | None => delete tag st
  end.

(* ================================================================== *)
(** * The mongo driver, as the resources use it *)
(* ================================================================== *)

(** The calls the resources make on [*mongo.Client]. *)
Inductive Call : Type :=
| CallCreateCollection (database name : string) (validator : option string)
| CallDropCollection (database name : string)
| CallDropDatabase (database : string)
| CallListDatabaseNames (name : string)
| CallListCollectionNames (database name : string)
| CallCreateIndex (database collection : string)
    (keys : list (string * GoValue)) (name : option string)
    (settings : list (string * attrValue))
| CallListIndexes (database collection name : string).

(** What a call returns: the names of a listing (the name of the index
    for [CallCreateIndex]) and the error. *)
Record Reply : Type := mkReply {
  reply_names : list string;
  reply_err : option error
}.

(** A server behind the client: each call answers and moves it on. *)
Class MongoClient (R : Type) : Type :=
  invoke : Call -> R -> Reply * R.

(** What a resource method does, in order. *)
Inductive Event : Type :=
| Remote (c : Call) (r : Reply)
| StateSet (st : tfState)
| StateSetAttribute (path : string) (v : attrValue).

(** A call on the server that returned an error. *)
Definition remote_failed (e : Event) : bool :=
  match e with
  | Remote _ r => match reply_err r with Some _ => true | None => false end
  | _ => false
  end.

(** A write to the state of the response. *)
Definition writes_state (e : Event) : bool :=
  match e with
  | Remote _ _ => false
  | _ => true
  end.

Definition is_remote (e : Event) : bool :=
  match e with
  | Remote _ _ => true
  | _ => false
  end.

(* ================================================================== *)
(** * Methods with a mutable response and early [return] *)
(* ================================================================== *)

(** A method body over the mutable data [S]; [None] as result says the
    method has returned. *)
Definition M (S A : Type) : Type := S -> option A * S.

#[global] Instance M_ret {S} : MRet (M S) :=
  fun A a s => (Some a, s).

#[global] Instance M_bind {S} : MBind (M S) :=
  fun A B k m s =>
    match m s with
    | (Some a, s') => k a s'
    | (None, s') => (None, s')
    end.

(** Go's [return] in a method without results. *)
Definition Return {S A} : M S A := fun s => (None, s).

Definition gets {S A} (f : S -> A) : M S A := fun s => (Some (f s), s).
Definition modify {S} (f : S -> S) : M S unit := fun s => (Some tt, f s).

Definition when_ {S} (b : bool) (m : M S unit) : M S unit :=
  if b then m else mret tt.

(** The data left when the method is over. *)
Definition exec {S A} (m : M S A) (s : S) : S := snd (m s).

(** Responses carry [Diagnostics]. *)
Class Response (S : Type) : Type := {
  resp_Diagnostics : S -> Diagnostics;
  with_Diagnostics : Diagnostics -> S -> S
}.

Section ResponseOps.
Context {S : Type} `{!Response S}.

Definition Diagnostics_Append (ds : Diagnostics) : M S unit :=
  modify (fun s => with_Diagnostics (Append (resp_Diagnostics s) ds) s).

Definition Diagnostics_AddError (summary detail : string) : M S unit :=
  Diagnostics_Append [NewErrorDiagnostic summary detail].

Definition Diagnostics_AddAttributeError (path summary detail : string) : M S unit :=
  Diagnostics_Append [NewAttributeErrorDiagnostic path summary detail].

Definition Diagnostics_HasError : M S bool :=
  gets (fun s => HasError (resp_Diagnostics s)).

(** [if resp.Diagnostics.HasError() { return }]. *)
Definition return_if_error : M S unit :=
  has ← Diagnostics_HasError; when_ has Return.
End ResponseOps.

(** What [req.Plan.Get], [req.State.Get] and [req.Config.Get] give: the
    filled struct and the diagnostics of the conversion. *)
Record Decoded (A : Type) : Type := mkDecoded {
  target : A;
  decode_diags : Diagnostics
}.
Arguments mkDecoded {A} _ _.
Arguments target {A} _.
Arguments decode_diags {A} _.

(** A resource method's data: the response ([Diagnostics], [State]), the
    server behind the client and what has been done so far. *)
Record Exec (R : Type) : Type := mkExec {
  Diagnostics_of : Diagnostics;
  State : tfState;
  server : R;
  trace : list Event
}.
Arguments mkExec {R} _ _ _ _.
Arguments Diagnostics_of {R} _.
Arguments State {R} _.
Arguments server {R} _.
Arguments trace {R} _.

#[global] Instance Exec_Response {R} : Response (Exec R) := {|
  resp_Diagnostics := Diagnostics_of;
  with_Diagnostics ds s := mkExec ds (State s) (server s) (trace s)
|}.

(** The framework hands a method a fresh response: no diagnostics, the
    state [st] it starts from. *)
Definition start {R} (st : tfState) (r : R) : Exec R := mkExec [] st r [].

Section ResourceOps.
Context {R : Type} `{!MongoClient R}.

(** One call on the client. *)
Definition call (c : Call) : M (Exec R) Reply :=
  fun s =>
    let '(rep, r') := invoke c (server s) in
    (Some rep,
     mkExec (Diagnostics_of s) (State s) r' (trace s ++ [Remote c rep])).

(** [resp.State.Set(ctx, v)] for a struct that converts to [st]: the
    struct's fields are those of the schema, the conversion gives no
    diagnostics. *)
Definition State_Set (st : tfState) : M (Exec R) Diagnostics :=
  fun s =>
    (Some [],
     mkExec (Diagnostics_of s) st (server s) (trace s ++ [StateSet st])).

(** [resp.State.SetAttribute(ctx, path.Root(name), v)] for an attribute
    of the schema. *)
Definition State_SetAttribute (name : string) (v : attrValue)
  : M (Exec R) Diagnostics :=
  fun s =>
    (Some [],
     mkExec (Diagnostics_of s) (<[name := v]> (State s)) (server s)
            (trace s ++ [StateSetAttribute name v])).
End ResourceOps.

(** The line feed of ["\n"]. *)
Definition LF : string := String (ascii_of_nat 10) EmptyString.

(** The detail every remote failure is reported with: a first sentence,
    the advice, and the driver's error. *)
Definition unexpected_detail (first : string) (err : error) : string :=
  first +:+ "If the error is not clear, please contact the provider developers."
        +:+ LF +:+ LF +:+ "Error: " +:+ err.

(** [resource.UpdateRequest]: configuration, plan and prior state. *)
Record UpdateRequest : Type := mkUpdateRequest {
  upd_Config : tfState;
  upd_Plan : tfState;
  upd_State : tfState
}.

(** [resource.ImportStateRequest]. *)
Record ImportStateRequest : Type := mkImportStateRequest {
  ID : string
}.

(* ================================================================== *)
(** * database_resource.go *)
(* ================================================================== *)

Module databaseResource.

(** [databaseResourceModel], with its [tfsdk] tags [name] and [id]. *)
Record databaseResourceModel : Type := mkModel {
  Name : string;
  Id : types_String
}.

(** The state a model converts to. *)
Definition to_state (m : databaseResourceModel) : tfState :=
  put "id" (attr_of_String (Id m)) (<["name" := AString (Name m)]> ∅).

(** The collection created and dropped to make the database exist. *)
Definition marker : string := "_terraform_created".

(** The diagnostics of the two steps of [Create]. *)
Definition create_error (err : error) : Diagnostic :=
  NewErrorDiagnostic "Unable to create database"
    (unexpected_detail "An unexpected error occurred when creating database. " err).

Definition cleanup_error (err : error) : Diagnostic :=
  NewErrorDiagnostic "Unable to clean up dummy collection"
    (unexpected_detail "An unexpected error occurred when cleaning up. " err).

Section Methods.
Context {R : Type} `{!MongoClient R}.

(** Create creates the resource and sets the initial Terraform state. *)
Definition Create (req : Decoded databaseResourceModel) : M (Exec R) unit :=
  let plan := target req in
  Diagnostics_Append (decode_diags req);;
  return_if_error;;
  let databaseName := Name plan in
  rep ← call (CallCreateCollection databaseName marker None);
  match reply_err rep with
  | Some err =>
      Diagnostics_AddError "Unable to create database"
        (unexpected_detail
           "An unexpected error occurred when creating database. " err);;
      Return
  | None => mret tt
  end;;
  rep ← call (CallDropCollection databaseName marker);
  match reply_err rep with
  | Some err =>
      Diagnostics_AddError "Unable to clean up dummy collection"
        (unexpected_detail
           "An unexpected error occurred when cleaning up. " err);;
      Return
  | None => mret tt
  end;;
  let plan := mkModel (Name plan) (StringValue databaseName) in
  diags ← State_Set (to_state plan);
  Diagnostics_Append diags;;
  return_if_error.

(** Read refreshes the Terraform state with the latest data. *)
Definition Read (req : Decoded databaseResourceModel) : M (Exec R) unit :=
  let state := target req in
  Diagnostics_Append (decode_diags req);;
  return_if_error;;
  let databaseName := Name state in
  rep ← call (CallListDatabaseNames databaseName);
  match reply_err rep with
  | Some err =>
      Diagnostics_AddError "Unable to list databases"
        (unexpected_detail
           "An unexpected error occurred when listing databases. " err);;
      Return
  | None => mret tt
  end;;
  when_ (Nat.eqb (length (reply_names rep)) 0)
    (Diagnostics_AddError "Database not found"
       ("Database " +:+ databaseName +:+ " does not exist");;
     Return);;
  let state := mkModel (Name state) (StringValue databaseName) in
  diags ← State_Set (to_state state);
  Diagnostics_Append diags;;
  return_if_error.

(** Update updates the resource and sets the updated Terraform state
    on success. *)
Definition Update (req : UpdateRequest) : M (Exec R) unit :=
  Diagnostics_AddError "Updates not supported"
    "Database updates are not supported. Changes to database configuration require recreation.".

(** Delete deletes the resource and removes the Terraform state on
    success. *)
Definition Delete (req : Decoded databaseResourceModel) : M (Exec R) unit :=
  let state := target req in
  Diagnostics_Append (decode_diags req);;
  return_if_error;;
  let databaseName := Name state in
  rep ← call (CallDropDatabase databaseName);
  match reply_err rep with
  | Some err =>
      Diagnostics_AddError "Unable to drop database"
        (unexpected_detail
           "An unexpected error occurred when dropping database. " err);;
      Return
  | None => mret tt
  end.

(** ImportState imports an existing resource into Terraform state. *)
Definition ImportState (req : ImportStateRequest) : M (Exec R) unit :=
  diags ← State_SetAttribute "name" (AString (ID req));
  Diagnostics_Append diags.
End Methods.

End databaseResource.

(* ================================================================== *)
(** * collection_resource.go *)
(* ================================================================== *)

Module collectionResource.

Record validation : Type := mkValidation {
  Validator : string
}.

(** [collectionResourceModel], with its [tfsdk] tags [database], [name],
    [validation] and [id]; a nil [*validation] is [None]. *)
Record collectionResourceModel : Type := mkModel {
  Database : string;
  Name : string;
  Validation : option validation;
  Id : types_String
}.

(** The diagnostic of [ImportState] for an identifier that does not
    decode. *)
Definition invalid_id_error (err : error) : Diagnostic :=
  NewErrorDiagnostic "Invalid id format. Should be <database>.<collection>."
    (unexpected_detail
       "An unexpected error occurred when importing collection. " err).

Definition attr_of_validation (v : option validation) : option attrValue :=
  match v with
  | Some v => Some (AObject [("validator", Validator v)])
  | None => None
  end.

(** The state a model converts to. *)
Definition to_state (m : collectionResourceModel) : tfState :=
  put "id" (attr_of_String (Id m))
    (put "validation" (attr_of_validation (Validation m))
       (<["name" := AString (Name m)]>
          (<["database" := AString (Database m)]> ∅))).

Section Methods.
Context {R : Type} `{!MongoClient R}.

(** Create creates the resource and sets the initial Terraform state. *)
Definition Create (req : Decoded collectionResourceModel) : M (Exec R) unit :=
  let plan := target req in
  Diagnostics_Append (decode_diags req);;
  return_if_error;;
  let databaseName := Database plan in
  let collectionName := Name plan in
  let opts :=
    match Validation plan with
    | Some v => Some (Validator v)
    | None => None
    end in
  rep ← call (CallCreateCollection databaseName collectionName opts);
  match reply_err rep with
  | Some err =>
      Diagnostics_AddError "Unable to create collection"
        (unexpected_detail
           "An unexpected error occurred when creating collection. " err);;
      Return
  | None => mret tt
  end;;
  let plan :=
    mkModel (Database plan) (Name plan) (Validation plan)
      (StringValue (collectionIdString databaseName collectionName)) in
  diags ← State_Set (to_state plan);
  Diagnostics_Append diags;;
  return_if_error.

(** Read refreshes the Terraform state with the latest data. *)
Definition Read (req : Decoded collectionResourceModel) : M (Exec R) unit :=
  let state := target req in
  Diagnostics_Append (decode_diags req);;
  return_if_error;;
  let databaseName := Database state in
  let collectionName := Name state in
  rep ← call (CallListCollectionNames databaseName collectionName);
  match reply_err rep with
  | Some err =>
      Diagnostics_AddError "Unable to list collections"
        (unexpected_detail
           "An unexpected error occurred when listing collections. " err);;
      Return
  | None => mret tt
  end;;
  when_ (Nat.eqb (length (reply_names rep)) 0)
    (Diagnostics_AddError "Collection not found"
       ("Collection " +:+ collectionIdString databaseName collectionName
          +:+ " does not exist");;
     Return);;
  let state :=
    mkModel (Database state) (Name state) (Validation state)
      (StringValue (collectionIdString databaseName collectionName)) in
  diags ← State_Set (to_state state);
  Diagnostics_Append diags;;
  return_if_error.

(** Update updates the resource and sets the updated Terraform state
    on success. *)
Definition Update (req : UpdateRequest) : M (Exec R) unit :=
  Diagnostics_AddError "Updates not supported"
    "Collection updates are not supported. Changes to collection configuration require recreation.".

(** Delete deletes the resource and removes the Terraform state on
    success. *)
Definition Delete (req : Decoded collectionResourceModel) : M (Exec R) unit :=
  let state := target req in
  Diagnostics_Append (decode_diags req);;
  return_if_error;;
  let databaseName := Database state in
  let collectionName := Name state in
  rep ← call (CallDropCollection databaseName collectionName);
  match reply_err rep with
  | Some err =>
      Diagnostics_AddError "Unable to drop collection"
        (unexpected_detail
           "An unexpected error occurred when dropping collection. " err);;
      Return
  | None => mret tt
  end.

(** ImportState imports an existing resource into Terraform state. *)
Definition ImportState (req : ImportStateRequest) : M (Exec R) unit :=
  let '(id, err) := parseCollectionId (ID req) in
  match err with
  | Some err =>
      Diagnostics_AddError
        "Invalid id format. Should be <database>.<collection>."
        (unexpected_detail
           "An unexpected error occurred when importing collection. " err);;
      Return
  | None => mret tt
  end;;
  match id with
  | Some id =>
      diags ← State_SetAttribute "database" (AString (col_database id));
      Diagnostics_Append diags;;
      diags ← State_SetAttribute "name" (AString (col_collection id));
      Diagnostics_Append diags
  | None => Return (* a nil [id] next to a nil [err]: not returned by
                      [parseCollectionId] *)
  end.
End Methods.

End collectionResource.

(* ================================================================== *)
(** * The index resource *)
(* ================================================================== *)

Module indexResource.

(** Modelled from the spec: [index_resource.go] is not among the sources
    ([provider.go] only registers [NewIndexResource]).  The record holds
    the declared attributes of section 3: the parent container names, the
    optional name, the key specification (field name and direction
    token), the optional settings, and the computed identifier. *)
Record indexResourceModel : Type := mkModel {
  Database : string;
  Collection : string;
  Name : types_String;
  Keys : list (string * string);
  Settings : list (string * attrValue);
  Id : types_String
}.

(** Modelled from the spec: the identifier of an index,
    [<database>.<collection>.<indexName>]. *)
Definition indexIdString (database collection indexName : string) : string :=
  database +:+ "." +:+ collection +:+ "." +:+ indexName.

(** Modelled from the spec: the diagnostic of [ImportState] for an
    identifier that does not decode, an "invalid id format" message that
    names the expected pattern. *)
Definition invalid_id_error (err : error) : Diagnostic :=
  NewErrorDiagnostic
    "Invalid id format. Should be <database>.<collection>.<index_name>."
    (unexpected_detail
       "An unexpected error occurred when importing index. " err).

(** Modelled from the spec: the state an index record converts to. *)
Definition to_state (m : indexResourceModel) : tfState :=
  put "id" (attr_of_String (Id m))
    (put "name" (attr_of_String (Name m))
       (<["keys" := AObject (Keys m)]>
          (<["collection" := AString (Collection m)]>
             (<["database" := AString (Database m)]>
                (list_to_map (Settings m)))))).

Section Methods.
Context {R : Type} `{!MongoClient R}.

(** Modelled from the spec: section 4.3, Create of an index.  The key
    mapping must not be empty ([InvalidKeySpecError]); the directions
    are translated by [convertToMongoIndexType]; a remote failure is a
    [RemoteOperationError]; on success the identifier is built from
    the name the remote store assigned. *)
Definition Create (req : Decoded indexResourceModel) : M (Exec R) unit :=
  let plan := target req in
  Diagnostics_Append (decode_diags req);;
  return_if_error;;
  when_ (Nat.eqb (length (Keys plan)) 0)
    (Diagnostics_AddError "Invalid index keys"
       "The key specification of an index must not be empty.";;
     Return);;
  let keys := map (fun kv => (fst kv, convertToMongoIndexType (snd kv))) (Keys plan) in
  let name := match Name plan with StringValue n => Some n | _ => None end in
  rep ← call (CallCreateIndex (Database plan) (Collection plan) keys name
                (Settings plan));
  match reply_err rep with
  | Some err =>
      Diagnostics_AddError "Unable to create index"
        (unexpected_detail
           "An unexpected error occurred when creating index. " err);;
      Return
  | None => mret tt
  end;;
  let indexName := List.hd (ValueString (Name plan)) (reply_names rep) in
  let plan :=
    mkModel (Database plan) (Collection plan) (StringValue indexName)
      (Keys plan) (Settings plan)
      (StringValue (indexIdString (Database plan) (Collection plan) indexName)) in
  diags ← State_Set (to_state plan);
  Diagnostics_Append diags;;
  return_if_error.

(** Modelled from the spec: section 4.3, Read of an index: the index
    list of the collection filtered by name; a query failure is a
    [RemoteOperationError], no match a [NotFoundError]. *)
Definition Read (req : Decoded indexResourceModel) : M (Exec R) unit :=
  let state := target req in
  Diagnostics_Append (decode_diags req);;
  return_if_error;;
  let indexName := ValueString (Name state) in
  rep ← call (CallListIndexes (Database state) (Collection state) indexName);
  match reply_err rep with
  | Some err =>
      Diagnostics_AddError "Unable to list indexes"
        (unexpected_detail
           "An unexpected error occurred when listing indexes. " err);;
      Return
  | None => mret tt
  end;;
  when_ (Nat.eqb (length (reply_names rep)) 0)
    (Diagnostics_AddError "Index not found"
       ("Index " +:+ indexIdString (Database state) (Collection state) indexName
          +:+ " does not exist");;
     Return);;
  let state :=
    mkModel (Database state) (Collection state) (Name state)
      (Keys state) (Settings state)
      (StringValue (indexIdString (Database state) (Collection state) indexName)) in
  diags ← State_Set (to_state state);
  Diagnostics_Append diags;;
  return_if_error.

(** Modelled from the spec: section 4.3, any Update call fails with
    [UnsupportedOperationError], as for the other two kinds. *)
Definition Update (req : UpdateRequest) : M (Exec R) unit :=
  Diagnostics_AddError "Updates not supported"
    "Index updates are not supported. Changes to index configuration require recreation.".

(** Modelled from the spec: section 4.3, Import of an index.  The
    identifier is decoded by [parseIndexId] for three segments; a decode
    error is surfaced as an "invalid id format" error that names the
    pattern, and nothing is written; on success the identity attributes
    [database], [collection] and [name] are seeded, and nothing else. *)
Definition ImportState (req : ImportStateRequest) : M (Exec R) unit :=
  let '(id, err) := parseIndexId (ID req) in
  match err with
  | Some err =>
      Diagnostics_AddError
        "Invalid id format. Should be <database>.<collection>.<index_name>."
        (unexpected_detail
           "An unexpected error occurred when importing index. " err);;
      Return
  | None => mret tt
  end;;
  match id with
  | Some id =>
      diags ← State_SetAttribute "database" (AString (idx_database id));
      Diagnostics_Append diags;;
      diags ← State_SetAttribute "collection" (AString (idx_collection id));
      Diagnostics_Append diags;;
      diags ← State_SetAttribute "name" (AString (idx_indexName id));
      Diagnostics_Append diags
  | None => Return
  end.
End Methods.

End indexResource.

(* ================================================================== *)
(** * The three resource kinds *)
(* ================================================================== *)

Inductive ResourceKind : Type := KindDatabase | KindCollection | KindIndex.

(** The number of segments of an identifier, by kind (specification,
    section 3): [<database>], [<database>.<collection>],
    [<database>.<collection>.<indexName>]. *)
Definition expected_segments (k : ResourceKind) : nat :=
  match k with
  | KindDatabase => 1
  | KindCollection => 2
  | KindIndex => 3
  end.

(** Create and Read of the three kinds, with their requests. *)
Inductive Operation : Type :=
| DatabaseCreate (req : Decoded databaseResource.databaseResourceModel)
| DatabaseRead (req : Decoded databaseResource.databaseResourceModel)
| CollectionCreate (req : Decoded collectionResource.collectionResourceModel)
| CollectionRead (req : Decoded collectionResource.collectionResourceModel)
| IndexCreate (req : Decoded indexResource.indexResourceModel)
| IndexRead (req : Decoded indexResource.indexResourceModel).

Section Dispatch.
Context {R : Type} `{!MongoClient R}.

(** The [Update] method behind the [resource.Resource] interface. *)
Definition Update (k : ResourceKind) (req : UpdateRequest) : M (Exec R) unit :=
  match k with
  | KindDatabase => databaseResource.Update req
  | KindCollection => collectionResource.Update req
  | KindIndex => indexResource.Update req
  end.

Definition perform (op : Operation) : M (Exec R) unit :=
  match op with
  | DatabaseCreate req => databaseResource.Create req
  | DatabaseRead req => databaseResource.Read req
  | CollectionCreate req => collectionResource.Create req
  | CollectionRead req => collectionResource.Read req
  | IndexCreate req => indexResource.Create req
  | IndexRead req => indexResource.Read req
  end.
End Dispatch.

(* ================================================================== *)
(** * The libraries behind the connection *)
(* ================================================================== *)

(** [net/url], [golang.org/x/net/proxy], [crypto/x509] and the mongo
    driver, as far as the provider calls them.  A library call that
    returns [(v, err)] gives exactly one of the two. *)
Class Libraries : Type := {
  URL : Type;
  Dialer : Type;
  Certificate_t : Type;
  Client : Type;
  (** [url.Parse]. *)
  url_Parse : string -> URL + error;
  (** [proxy.FromURL(u, proxy.Direct)], its dialer taken as an
      [options.ContextDialer]. *)
  proxy_FromURL : URL -> Dialer + error;
  (** The certificates [CertPool.AppendCertsFromPEM] parses out of a PEM
      bundle; it reports whether there is one. *)
  AppendCertsFromPEM : string -> list Certificate_t
}.

Section Connection.
Context `{!Libraries}.

(** [tls.Config], the fields the provider sets. *)
Record TLSConfig : Type := mkTLSConfig {
  tls_InsecureSkipVerify : bool;
  tls_RootCAs : list Certificate_t
}.

(** [options.Credential]. *)
Record Credential : Type := mkCredential {
  AuthSource : string;
  cred_Username : string;
  cred_Password : string
}.

(** [options.ClientOptions] after [ApplyURI], [SetServerAPIOptions],
    [SetAuth], [SetTLSConfig] and [SetDialer]. *)
Record ClientOptions : Type := mkClientOptions {
  opt_URI : string;
  opt_ServerAPIVersion : string;
  opt_Auth : Credential;
  opt_TLSConfig : option TLSConfig;
  opt_Dialer : option Dialer
}.

(** As of version 1.2.1, the MongoDB Go Driver will only use the first
    CA server certificate found in sslcertificateauthorityfile.  The
    code below addresses this limitation by manually appending all
    server certificates found in sslcertificateauthorityfile to a custom
    TLS configuration used during client creation.  (The revision of
    [utils.go] in which the function has two parameters, as in the call
    of [Configure]; it returns the configuration next to the error.) *)
Definition getTLSConfigWithAllServerCertificates (ca : string) (verify : bool)
  : result TLSConfig :=
  let certs := AppendCertsFromPEM ca in
  let tlsConfig := mkTLSConfig verify certs in
  let ok := negb (Nat.eqb (length certs) 0) in
  if negb ok then (Some tlsConfig, Some "Failed parsing pem file")
  else (Some tlsConfig, None).

(** [proxyDialer], in the same revision of [utils.go]: the proxy string
    is parsed and handed to [proxy.FromURL], whatever it is. *)
Definition proxyDialer (proxyUrlFromProvider : string) : result Dialer :=
  match url_Parse proxyUrlFromProvider with
  | inr err => (None, Some err)
  | inl proxyURL =>
      match proxy_FromURL proxyURL with
      | inr err => (None, Some err)
      | inl proxyDialer => (Some proxyDialer, None)
      end
  end.
End Connection.

Module Guarded.
Section Connection.
Context `{!Libraries}.

(** [proxyDialer], in the other revision of [utils.go] (the one whose TLS
    helper also takes a client certificate and key): the empty string is
    no proxy. *)
Definition proxyDialer (proxyUrlFromProvider : string) : result Dialer :=
  if negb (String.eqb proxyUrlFromProvider "") then
    match url_Parse proxyUrlFromProvider with
    | inr err => (None, Some err)
    | inl proxyURL =>
        match proxy_FromURL proxyURL with
        | inr err => (None, Some err)
        | inl proxyDialer => (Some proxyDialer, None)
        end
    end
  else (None, None).
End Connection.
End Guarded.

(* ================================================================== *)
(** * provider.go *)
(* ================================================================== *)

Module mongodbProvider.

Record mongodbProviderModel : Type := mkModel {
  Host : types_String;
  Port : types_String;
  Certificate : types_String;
  Username : types_String;
  Password : types_String;
  AuthDatabase : types_String;
  ReplicaSet : types_String;
  InsecureSkipVerify : types_Bool;
  SSL : types_Bool;
  Direct : types_Bool;
  RetryWrites : types_Bool;
  Proxy : types_String;
  Url : types_String
}.

(** Exactly one of [url] and [host] is set. *)
Definition one_of_host_and_url (config : mongodbProviderModel) : Prop :=
  ValueString (Url config) = "" <-> ValueString (Host config) <> "".


(** The connection URI of [Configure]: the [url] when there is one, else
    the host, the port and the arguments. *)
Definition connectionURI (config : mongodbProviderModel) : string :=
  if negb (String.eqb (ValueString (Url config)) "") then
    ValueString (Url config)
  else
    let arguments := "" in
    let arguments :=
      addArgs arguments ("retrywrites=" +:+ FormatBool (ValueBool (RetryWrites config))) in
    let arguments :=
      if ValueBool (SSL config) then addArgs arguments "ssl=true"
      else arguments in
    let arguments :=
      if negb (String.eqb (ValueString (ReplicaSet config)) "")
         && negb (ValueBool (Direct config))
      then addArgs arguments ("replicaSet=" +:+ ValueString (ReplicaSet config))
      else arguments in
    let arguments :=
      if ValueBool (Direct config) then addArgs arguments ("connect=" +:+ "direct")
      else arguments in
    "mongodb://" +:+ ValueString (Host config) +:+ ":"
      +:+ ValueString (Port config) +:+ arguments.

Definition missing_detail : string :=
  "The provider cannot create the MongoDB client as there is an unknown configuration value for the host. Please specify either host or url.".

Definition conflicting_detail : string :=
  "The provider cannot create the MongoDB client as there are conflicting configuration values for host and url. Please specify either host or url, but not both.".

(** The two diagnostics of the check on [host] and [url]. *)
Definition missing_host_or_url : Diagnostic :=
  NewAttributeErrorDiagnostic "host" "Missing host or url" missing_detail.

Definition conflicting_host_and_url : Diagnostic :=
  NewAttributeErrorDiagnostic "host" "Conflicting host and url" conflicting_detail.

(** A diagnostic with the title of one of the two. *)
Definition isConfigurationError (d : Diagnostic) : bool :=
  String.eqb (Summary d) "Missing host or url"
  || String.eqb (Summary d) "Conflicting host and url".

(** The diagnostic a failure of [proxyDialer] is reported with. *)
Definition proxy_dialer_error (err : error) : Diagnostic :=
  NewErrorDiagnostic "Unable to create proxy dialer"
    (unexpected_detail
       "An unexpected error occurred when creating the proxy dialer. " err).

Definition certificate_error (err : error) : Diagnostic :=
  NewErrorDiagnostic "Unable to read certificate"
    (unexpected_detail
       "An unexpected error occurred when reading the certificate. " err).

Definition client_error (err : error) : Diagnostic :=
  NewErrorDiagnostic "Unable to Create MongoDB Client"
    (unexpected_detail
       "An unexpected error occurred when creating the MongoDB client. " err).

Section Configure.
Context `{!Libraries}.

(** What [Configure] sets in motion, in order. *)
Inductive Step : Type :=
| StepProxyDialer (proxy : string)
| StepTLSConfig (ca : string) (verify : bool)
| StepConnect (opts : ClientOptions).

(** [provider.ConfigureResponse], and the steps taken. *)
Record ConfigureResponse : Type := mkResponse {
  Diagnostics_of : Diagnostics;
  DataSourceData : option Client;
  ResourceData : option Client;
  steps : list Step
}.

#[global] Instance ConfigureResponse_Response : Response ConfigureResponse := {|
  resp_Diagnostics := Diagnostics_of;
  with_Diagnostics ds s :=
    mkResponse ds (DataSourceData s) (ResourceData s) (steps s)
|}.

(** A fresh response. *)
Definition fresh : ConfigureResponse := mkResponse [] None None [].

Definition step {A} (st : Step) (a : A) : M ConfigureResponse A :=
  fun s =>
    (Some a,
     mkResponse (Diagnostics_of s) (DataSourceData s) (ResourceData s)
                (steps s ++ [st])).

Definition set_client (client : Client) : M ConfigureResponse unit :=
  modify (fun s =>
    mkResponse (Diagnostics_of s) (Some client) (Some client) (steps s)).

(** [options.ServerAPI(options.ServerAPIVersion1)]. *)
Definition serverAPI : string := "1".

(** [options.Client().ApplyURI(uri).SetServerAPIOptions(serverAPI)
    .SetAuth(options.Credential{...}).SetDialer(dialer)], the options of
    both branches of [Configure]. *)
Definition clientOptions (config : mongodbProviderModel) (uri : string)
  (dialer : option Dialer) : ClientOptions :=
  mkClientOptions uri serverAPI
    (mkCredential (ValueString (AuthDatabase config))
                  (ValueString (Username config))
                  (ValueString (Password config)))
    None dialer.

(** [SetTLSConfig]. *)
Definition SetTLSConfig (tlsConfig : option TLSConfig) (opts : ClientOptions)
  : ClientOptions :=
  mkClientOptions (opt_URI opts) (opt_ServerAPIVersion opts) (opt_Auth opts)
                  tlsConfig (opt_Dialer opts).

(** [mongo.Connect] *)
Variable mongo_Connect : ClientOptions -> Client + error.

(** The package's [proxyDialer], a parameter here: [utils.go] has two
    revisions of it, [proxyDialer] above and [Guarded.proxyDialer]. *)
Variable proxyDialer : string -> result Dialer.

Definition Configure (req : Decoded mongodbProviderModel)
  : M ConfigureResponse unit :=
  (* Retrieve provider data from configuration *)
  let config := target req in
  Diagnostics_Append (decode_diags req);;
  return_if_error;;
  (* If practitioner provided a configuration value for any of the
     attributes, it must be a known value. *)
  when_ (String.eqb (ValueString (Url config)) ""
         && String.eqb (ValueString (Host config)) "")
    (Diagnostics_AddAttributeError "host" "Missing host or url"
       missing_detail;;
     Return);;
  when_ (negb (String.eqb (ValueString (Url config)) "")
         && negb (String.eqb (ValueString (Host config)) ""))
    (Diagnostics_AddAttributeError "host" "Conflicting host and url"
       conflicting_detail;;
     Return);;
  return_if_error;;
  let uri := connectionURI config in
  (* Create a new client using the configuration values *)
  let proxy := ValueString (Proxy config) in
  '(dialer, dialerErr) ← step (StepProxyDialer proxy) (proxyDialer proxy);
  match dialerErr with
  | Some err =>
      Diagnostics_AddError "Unable to create proxy dialer"
        (unexpected_detail
           "An unexpected error occurred when creating the proxy dialer. " err);;
      Return
  | None => mret tt
  end;;
  let verify := false in
  let verify := if ValueBool (InsecureSkipVerify config) then true else verify in
  opts ←
    (if negb (String.eqb (ValueString (Certificate config)) "") then
       let ca := ValueString (Certificate config) in
       '(tlsConfig, err) ←
         step (StepTLSConfig ca verify)
              (getTLSConfigWithAllServerCertificates ca verify);
       match err with
       | Some err =>
           Diagnostics_AddError "Unable to read certificate"
             (unexpected_detail
                "An unexpected error occurred when reading the certificate. " err);;
           Return
       | None => mret (SetTLSConfig tlsConfig (clientOptions config uri dialer))
       end
     else mret (clientOptions config uri dialer));
  r ← step (StepConnect opts) (mongo_Connect opts);
  match r with
  | inr err =>
      Diagnostics_AddError "Unable to Create MongoDB Client"
        (unexpected_detail
           "An unexpected error occurred when creating the MongoDB client. " err);;
      Return
  | inl client =>
      (* Make the client available during DataSource and Resource type
         Configure methods. *)
      set_client client
  end.
End Configure.

End mongodbProvider.

(* ================================================================== *)
(** * The URI of the specification *)
(* ================================================================== *)

(** The query arguments in the order the specification gives them: always
    [retrywrites=<bool>]; then [ssl=true] if [ssl]; then
    [replicaSet=<value>] if [replica_set] is not empty and [direct] is
    false; then [connect=direct] if [direct]. *)
Definition spec_arguments (retrywrites ssl direct : bool) (replica_set : string)
  : list string :=
  ["retrywrites=" +:+ FormatBool retrywrites]
    ++ (if ssl then ["ssl=true"] else [])
    ++ (if negb (String.eqb replica_set "") && negb direct
        then ["replicaSet=" +:+ replica_set] else [])
    ++ (if direct then ["connect=direct"] else []).

(** The arguments joined with [&] after a leading [/?], behind the host
    and the port. *)
Definition spec_uri (host port : string) (arguments : list string) : string :=
  "mongodb://" +:+ host +:+ ":" +:+ port +:+ "/?" +:+ Join arguments "&".

(* ================================================================== *)
(** * Stand-ins to run the definitions on *)
(* ================================================================== *)

Module Fake.

(** A server: the collections it holds, by database, and the calls it
    refuses. *)
Record Server : Type := mkServer {
  collections : list (string * string);
  refuses : Call -> bool
}.

Definition holds (s : Server) (database name : string) : bool :=
  existsb (fun p => String.eqb (fst p) database && String.eqb (snd p) name)
          (collections s).

Definition has_database (s : Server) (database : string) : bool :=
  existsb (fun p => String.eqb (fst p) database) (collections s).

Definition answer (c : Call) (s : Server) : Reply * Server :=
  if refuses s c then (mkReply [] (Some "server unreachable"), s)
  else
    match c with
    | CallCreateCollection d n _ =>
        if holds s d n then (mkReply [] (Some "collection already exists"), s)
        else (mkReply [] None, mkServer ((d, n) :: collections s) (refuses s))
    | CallDropCollection d n =>
        (mkReply [] None,
         mkServer
           (filter (fun p => negb (String.eqb (fst p) d && String.eqb (snd p) n))
                   (collections s))
           (refuses s))
    | CallDropDatabase d =>
        (mkReply [] None,
         mkServer (filter (fun p => negb (String.eqb (fst p) d)) (collections s))
                  (refuses s))
    | CallListDatabaseNames n =>
        (mkReply (if has_database s n then [n] else []) None, s)
    | CallListCollectionNames d n =>
        (mkReply (if holds s d n then [n] else []) None, s)
    | CallCreateIndex _ _ _ name _ =>
        (mkReply [default "generated_1" name] None, s)
    | CallListIndexes _ _ n => (mkReply [n] None, s)
    end.

#[global] Instance Server_client : MongoClient Server := answer.

Definition up : Server := mkServer [] (fun _ => false).
Definition down : Server := mkServer [] (fun _ => true).
Definition no_drop : Server :=
  mkServer [] (fun c => match c with CallDropCollection _ _ => true | _ => false end).

(** Libraries that know the [socks5://] scheme and PEM blocks that open
    with the certificate banner. *)
#[global] Instance libraries : Libraries := {|
  URL := string;
  Dialer := string;
  Certificate_t := string;
  Client := string;
  url_Parse s :=
    if contains_byte " "%char s then inr "invalid character in host name"
    else inl s;
  proxy_FromURL u :=
    if String.prefix "socks5://" u then inl u
    else inr "proxy: unknown scheme";
  AppendCertsFromPEM ca :=
    if String.prefix "-----BEGIN CERTIFICATE-----" ca then [ca] else []
|}.

Definition connect (opts : ClientOptions) : Client + error :=
  inl (opt_URI opts).

Definition by_host : mongodbProvider.mongodbProviderModel :=
  mongodbProvider.mkModel
    (StringValue "localhost") (StringValue "27017") StringNull
    (StringValue "test") (StringValue "test") StringNull StringNull
    BoolNull BoolNull BoolNull BoolNull StringNull StringNull.

Definition by_url : mongodbProvider.mongodbProviderModel :=
  mongodbProvider.mkModel
    StringNull StringNull StringNull StringNull StringNull StringNull StringNull
    BoolNull BoolNull BoolNull BoolNull StringNull
    (StringValue "mongodb://localhost:27017").

Definition empty_config : mongodbProvider.mongodbProviderModel :=
  mongodbProvider.mkModel
    StringNull StringNull StringNull StringNull StringNull StringNull StringNull
    BoolNull BoolNull BoolNull BoolNull StringNull StringNull.

Definition with_proxy (proxy : string) : mongodbProvider.mongodbProviderModel :=
  mongodbProvider.mkModel
    (StringValue "localhost") (StringValue "27017") StringNull
    StringNull StringNull StringNull StringNull
    BoolNull BoolNull BoolNull BoolNull (StringValue proxy) StringNull.

Definition direct_with_replica_set : mongodbProvider.mongodbProviderModel :=
  mongodbProvider.mkModel
    (StringValue "localhost") (StringValue "27017") StringNull
    StringNull StringNull StringNull (StringValue "rs0")
    BoolNull (BoolValue true) (BoolValue true) (BoolValue true) StringNull StringNull.

Definition conflicting_config : mongodbProvider.mongodbProviderModel :=
  mongodbProvider.mkModel
    (StringValue "localhost") StringNull StringNull StringNull StringNull
    StringNull StringNull BoolNull BoolNull BoolNull BoolNull StringNull
    (StringValue "mongodb://localhost:27017").

Definition pem : string := "-----BEGIN CERTIFICATE-----MIIB-----END CERTIFICATE-----".

Definition with_certificate (ca : string) (skip : bool)
  : mongodbProvider.mongodbProviderModel :=
  mongodbProvider.mkModel
    (StringValue "localhost") (StringValue "27017") (StringValue ca)
    StringNull StringNull StringNull StringNull
    (BoolValue skip) BoolNull BoolNull BoolNull StringNull StringNull.

End Fake.

(* ================================================================== *)
(** * More of the package: counting separators *)
(* ================================================================== *)

(** [strings.Count s (string c)] for a single byte [c]. *)
Fixpoint count_byte (c : ascii) (s : string) : nat :=
  match s with
  | EmptyString => 0
  | String x r => (if Ascii.eqb x c then 1 else 0) + count_byte c r
  end.

(* ================================================================== *)
(** * utils.go: the collation translator *)
(* ================================================================== *)

Module collationOptions.

(** The receiver type of [toMongoCollation].  Its declaration is with the
    index resource; the fields are those the method reads: [Locale] is
    assigned as it is, every other field is tested against [nil] and
    dereferenced into the field of [options.Collation] of the same
    name. *)
Record collation : Type := mkCollation {
  Locale : string;
  CaseLevel : option bool;
  CaseFirst : option string;
  Strength : option Z;
  NumericOrdering : option bool;
  Alternate : option string;
  MaxVariable : option string;
  Normalization : option bool;
  Backwards : option bool
}.

(** [options.Collation] of the mongo driver. *)
Record options_Collation : Type := mkOptionsCollation {
  opt_Locale : string;
  opt_CaseLevel : bool;
  opt_CaseFirst : string;
  opt_Strength : Z;
  opt_NumericOrdering : bool;
  opt_Alternate : string;
  opt_MaxVariable : string;
  opt_Normalization : bool;
  opt_Backwards : bool
}.

(** [options.Collation{}]: every field at its zero value. *)
Definition zero_Collation : options_Collation :=
  mkOptionsCollation "" false "" 0%Z false "" "" false false.

Definition toMongoCollation (co : option collation) : option options_Collation :=
  match co with
  | None => None
  | Some co =>
      let res := zero_Collation in
      let res :=
        mkOptionsCollation (Locale co) (opt_CaseLevel res) (opt_CaseFirst res)
          (opt_Strength res) (opt_NumericOrdering res) (opt_Alternate res)
          (opt_MaxVariable res) (opt_Normalization res) (opt_Backwards res) in
      let res :=
        match CaseLevel co with
        | Some v =>
            mkOptionsCollation (opt_Locale res) v (opt_CaseFirst res)
              (opt_Strength res) (opt_NumericOrdering res) (opt_Alternate res)
              (opt_MaxVariable res) (opt_Normalization res) (opt_Backwards res)
        | None => res
        end in
      let res :=
        match CaseFirst co with
        | Some v =>
            mkOptionsCollation (opt_Locale res) (opt_CaseLevel res) v
              (opt_Strength res) (opt_NumericOrdering res) (opt_Alternate res)
              (opt_MaxVariable res) (opt_Normalization res) (opt_Backwards res)
        | None => res
        end in
      let res :=
        match Strength co with
        | Some v =>
            mkOptionsCollation (opt_Locale res) (opt_CaseLevel res) (opt_CaseFirst res)
              v (opt_NumericOrdering res) (opt_Alternate res)
              (opt_MaxVariable res) (opt_Normalization res) (opt_Backwards res)
        | None => res
        end in
      let res :=
        match NumericOrdering co with
        | Some v =>
            mkOptionsCollation (opt_Locale res) (opt_CaseLevel res) (opt_CaseFirst res)
              (opt_Strength res) v (opt_Alternate res)
              (opt_MaxVariable res) (opt_Normalization res) (opt_Backwards res)
        | None => res
        end in
      let res :=
        match Alternate co with
        | Some v =>
            mkOptionsCollation (opt_Locale res) (opt_CaseLevel res) (opt_CaseFirst res)
              (opt_Strength res) (opt_NumericOrdering res) v
              (opt_MaxVariable res) (opt_Normalization res) (opt_Backwards res)
        | None => res
        end in
      let res :=
        match MaxVariable co with
        | Some v =>
            mkOptionsCollation (opt_Locale res) (opt_CaseLevel res) (opt_CaseFirst res)
              (opt_Strength res) (opt_NumericOrdering res) (opt_Alternate res)
              v (opt_Normalization res) (opt_Backwards res)
        | None => res
        end in
      let res :=
        match Normalization co with
        | Some v =>
            mkOptionsCollation (opt_Locale res) (opt_CaseLevel res) (opt_CaseFirst res)
              (opt_Strength res) (opt_NumericOrdering res) (opt_Alternate res)
              (opt_MaxVariable res) v (opt_Backwards res)
        | None => res
        end in
      let res :=
        match Backwards co with
        | Some v =>
            mkOptionsCollation (opt_Locale res) (opt_CaseLevel res) (opt_CaseFirst res)
              (opt_Strength res) (opt_NumericOrdering res) (opt_Alternate res)
              (opt_MaxVariable res) (opt_Normalization res) v
        | None => res
        end in
      Some res
  end.

(** An optional field, taken for absent when it holds the zero value. *)
Definition unless_zero {A : Type} (is_zero : A -> bool) (v : option A) : option A :=
  match v with
  | Some x => if is_zero x then None else Some x
  | None => None
  end.

(** The collation with every optional field that holds a zero value
    ([false], [""], [0]) taken for absent. *)
Definition without_zeros (co : collation) : collation :=
  mkCollation (Locale co)
    (unless_zero negb (CaseLevel co))
    (unless_zero (String.eqb "") (CaseFirst co))
    (unless_zero (Z.eqb 0) (Strength co))
    (unless_zero negb (NumericOrdering co))
    (unless_zero (String.eqb "") (Alternate co))
    (unless_zero (String.eqb "") (MaxVariable co))
    (unless_zero negb (Normalization co))
    (unless_zero negb (Backwards co)).

End collationOptions.

(* ================================================================== *)
(** * utils.go: the TLS helper with a client certificate *)
(* ================================================================== *)

Module ClientCertificates.

(** [crypto/tls]: the client certificates. *)
Class KeyPairs : Type := {
  KeyPair : Type;
  (** [tls.X509KeyPair]. *)
  X509KeyPair : string -> string -> KeyPair + error
}.

Section TLS.
Context `{!Libraries} `{!KeyPairs}.

(** [tls.Config], the fields this revision sets; a nil [RootCAs] is
    [None]. *)
Record TLSConfig : Type := mkTLSConfig {
  cfg_InsecureSkipVerify : bool;
  cfg_RootCAs : option (list Certificate_t);
  cfg_Certificates : list KeyPair
}.

(** caPEM   – optional CA certificate(s) in PEM format;
    certPEM – optional client certificate in PEM format;
    keyPEM  – optional client private key in PEM format;
    insecureSkipVerify – true disables server name verification. *)
Definition getTLSConfigWithAllServerCertificates
  (caPEM certPEM keyPEM : string) (insecureSkipVerify : bool)
  : result TLSConfig :=
  let tlsConfig := mkTLSConfig insecureSkipVerify None [] in
  (* --- Handle CA certificates (optional) --- *)
  let handled : TLSConfig + error :=
    if Nat.ltb 0 (String.length caPEM) then
      let rootCAs := AppendCertsFromPEM caPEM in
      let ok := negb (Nat.eqb (length rootCAs) 0) in
      if negb ok then inr "failed parsing CA PEM file"
      else inl (mkTLSConfig (cfg_InsecureSkipVerify tlsConfig) (Some rootCAs)
                            (cfg_Certificates tlsConfig))
    else inl tlsConfig in
  match handled with
  | inr err => (None, Some err)
  | inl tlsConfig =>
      (* --- Handle client certificate (optional) --- *)
      if Nat.ltb 0 (String.length certPEM) && Nat.ltb 0 (String.length keyPEM) then
        match X509KeyPair certPEM keyPEM with
        | inr err => (None, Some err)
        | inl cert =>
            (Some (mkTLSConfig (cfg_InsecureSkipVerify tlsConfig)
                               (cfg_RootCAs tlsConfig) [cert]), None)
        end
      else (Some tlsConfig, None)
  end.
End TLS.

End ClientCertificates.

(* ================================================================== *)
(** * The resources' [Configure] *)
(* ================================================================== *)

Module resourceConfigure.
Section Configure.
Context `{!Libraries}.

(** [req.ProviderData], an [any]: nil, a [*mongo.Client], or a value of
    another type, of which [%T] prints the name. *)
Inductive ProviderData : Type :=
| DataNil
| DataClient (client : Client)
| DataOther (goType : string).

(** The resource ([r.client]) and the diagnostics of the response. *)
Record Configured : Type := mkConfigured {
  Diagnostics_of : Diagnostics;
  client_of : option Client
}.

#[global] Instance Configured_Response : Response Configured := {|
  resp_Diagnostics := Diagnostics_of;
  with_Diagnostics ds s := mkConfigured ds (client_of s)
|}.

(** [fmt.Sprintf("Expected *mongo.Client, got: %T. Please report this
    issue to the provider developers.", req.ProviderData)]. *)
Definition unexpected_type_detail (goType : string) : string :=
  "Expected *mongo.Client, got: " +:+ goType
    +:+ ". Please report this issue to the provider developers.".

(** Configure adds the provider configured client to the resource
    ([databaseResource.Configure]). *)
Definition databaseResource_Configure (ProviderData_of_req : ProviderData)
  : M Configured unit :=
  match ProviderData_of_req with
  | DataNil => Return
  | _ => mret tt
  end;;
  match ProviderData_of_req with
  | DataClient client =>
      modify (fun r => mkConfigured (Diagnostics_of r) (Some client))
  | DataOther goType =>
      Diagnostics_AddError "Unexpected Resource Configure Type"
        (unexpected_type_detail goType);;
      Return
  | DataNil => Return
  end.

(** Configure adds the provider configured client to the resource
    ([collectionResource.Configure]). *)
Definition collectionResource_Configure (ProviderData_of_req : ProviderData)
  : M Configured unit :=
  match ProviderData_of_req with
  | DataNil => Return
  | _ => mret tt
  end;;
  match ProviderData_of_req with
  | DataClient client =>
      modify (fun r => mkConfigured (Diagnostics_of r) (Some client))
  | DataOther goType =>
      Diagnostics_AddError "Unexpected Resource Configure Type"
        (unexpected_type_detail goType);;
      Return
  | DataNil => Return
  end.

(** The framework hands [resp.ResourceData] of the provider to the
    resources as [req.ProviderData]. *)
Definition ProviderData_of (ResourceData : option Client) : ProviderData :=
  match ResourceData with
  | Some client => DataClient client
  | None => DataNil
  end.

(** [Metadata] of the provider and of the two resources: the type names. *)
Definition provider_TypeName : string := "mongodb".

Definition databaseResource_TypeName (ProviderTypeName : string) : string :=
  ProviderTypeName +:+ "_database".

Definition collectionResource_TypeName (ProviderTypeName : string) : string :=
  ProviderTypeName +:+ "_collection".
End Configure.
End resourceConfigure.

(* ================================================================== *)
(** * The resources' [Schema] *)
(* ================================================================== *)

Module resourceSchema.

(** What the schemas say of an attribute. *)
Record Flags : Type := mkFlags {
  Description : string;
  Required : bool;
  Optional : bool;
  Computed : bool;
  (** [stringplanmodifier.RequiresReplace()] among the plan modifiers. *)
  RequiresReplace : bool;
  DeprecationMessage : string
}.

(** [schema.StringAttribute], and [schema.SingleNestedAttribute] with
    string attributes inside. *)
Inductive Attribute : Type :=
| StringAttribute (flags : Flags)
| SingleNestedAttribute (flags : Flags) (attributes : list (string * Flags)).

Definition flags_of (a : Attribute) : Flags :=
  match a with
  | StringAttribute f => f
  | SingleNestedAttribute f _ => f
  end.

(** [databaseResource.Schema]. *)
Definition databaseResource_Schema : gmap string Attribute :=
  <["name" := StringAttribute
      (mkFlags "Name of the database to create." true false false true "")]>
  (<["id" := StringAttribute
      (mkFlags "" false false true false "Just there for compatibility reasons")]>
   ∅).

(** [collectionResource.Schema]. *)
Definition collectionResource_Schema : gmap string Attribute :=
  <["database" := StringAttribute
      (mkFlags "Name of the database where to create the collection."
               true false false true "")]>
  (<["name" := StringAttribute
      (mkFlags "Name of the collection to create." true false false true "")]>
   (<["validation" := SingleNestedAttribute
       (mkFlags "Collection validation rules." false true false false "")
       [("validator",
         mkFlags "JSON schema validation rules for the collection."
                 true false false false "")]]>
    (<["id" := StringAttribute
        (mkFlags "" false false true false "Just there for compatibility reasons")]>
     ∅))).

(** An attribute the configuration can set and whose change does not
    replace the resource: a change of it is an in-place update. *)
Definition updatable (a : Attribute) : bool :=
  (Required (flags_of a) || Optional (flags_of a))
  && negb (RequiresReplace (flags_of a)).

End resourceSchema.

(* ================================================================== *)
(** * The methods of the database and collection resources *)
(* ================================================================== *)

(** The five methods of the two resources that are in the package, with
    their requests. *)
Inductive Method : Type :=
| DatabaseCreate_ (req : Decoded databaseResource.databaseResourceModel)
| DatabaseRead_ (req : Decoded databaseResource.databaseResourceModel)
| DatabaseUpdate_ (req : UpdateRequest)
| DatabaseDelete_ (req : Decoded databaseResource.databaseResourceModel)
| DatabaseImportState_ (req : ImportStateRequest)
| CollectionCreate_ (req : Decoded collectionResource.collectionResourceModel)
| CollectionRead_ (req : Decoded collectionResource.collectionResourceModel)
| CollectionUpdate_ (req : UpdateRequest)
| CollectionDelete_ (req : Decoded collectionResource.collectionResourceModel)
| CollectionImportState_ (req : ImportStateRequest).

(** The diagnostics the conversion of the request gave. *)
Definition converted (m : Method) : Diagnostics :=
  match m with
  | DatabaseCreate_ req | DatabaseRead_ req | DatabaseDelete_ req =>
      decode_diags req
  | CollectionCreate_ req | CollectionRead_ req | CollectionDelete_ req =>
      decode_diags req
  | _ => []
  end.

Definition is_listing (e : Event) : bool :=
  match e with
  | Remote (CallListDatabaseNames _) _ => true
  | Remote (CallListCollectionNames _ _) _ => true
  | _ => false
  end.

Section Methods.
Context {R : Type} `{!MongoClient R}.

Definition call_method (m : Method) : M (Exec R) unit :=
  match m with
  | DatabaseCreate_ req => databaseResource.Create req
  | DatabaseRead_ req => databaseResource.Read req
  | DatabaseUpdate_ req => databaseResource.Update req
  | DatabaseDelete_ req => databaseResource.Delete req
  | DatabaseImportState_ req => databaseResource.ImportState req
  | CollectionCreate_ req => collectionResource.Create req
  | CollectionRead_ req => collectionResource.Read req
  | CollectionUpdate_ req => collectionResource.Update req
  | CollectionDelete_ req => collectionResource.Delete req
  | CollectionImportState_ req => collectionResource.ImportState req
  end.
End Methods.

(** The schema a method's resource declares. *)
Definition schema_of (m : Method) : gmap string resourceSchema.Attribute :=
  match m with
  | DatabaseCreate_ _ | DatabaseRead_ _ | DatabaseUpdate_ _
  | DatabaseDelete_ _ | DatabaseImportState_ _ =>
      resourceSchema.databaseResource_Schema
  | CollectionCreate_ _ | CollectionRead_ _ | CollectionUpdate_ _
  | CollectionDelete_ _ | CollectionImportState_ _ =>
      resourceSchema.collectionResource_Schema
  end.

(** The attributes a step of a method writes. *)
Definition written (e : Event) : gset string :=
  match e with
  | Remote _ _ => ∅
  | StateSet st => dom st
  | StateSetAttribute p _ => {[p]}
  end.

(* ================================================================== *)
(** * provider.go: what [Configure] does not read *)
(* ================================================================== *)

(** The configuration with other values for the attributes that only the
    URI built from [host] reads. *)
Definition with_host_arguments
  (port replica_set : types_String) (ssl direct retrywrites : types_Bool)
  (config : mongodbProvider.mongodbProviderModel)
  : mongodbProvider.mongodbProviderModel :=
  mongodbProvider.mkModel
    (mongodbProvider.Host config) port (mongodbProvider.Certificate config)
    (mongodbProvider.Username config) (mongodbProvider.Password config)
    (mongodbProvider.AuthDatabase config) replica_set
    (mongodbProvider.InsecureSkipVerify config) ssl direct retrywrites
    (mongodbProvider.Proxy config) (mongodbProvider.Url config).

Definition is_connect `{!Libraries} (s : mongodbProvider.Step) : bool :=
  match s with
  | mongodbProvider.StepConnect _ => true
  | _ => false
  end.

(* ================================================================== *)
(** * More stand-ins *)
(* ================================================================== *)

Module FakeTLS.

(** Key pairs whose certificate and key are equal strings. *)
#[global] Instance key_pairs : ClientCertificates.KeyPairs := {|
  ClientCertificates.KeyPair := string;
  ClientCertificates.X509KeyPair cert key :=
    if String.eqb cert key then inl cert
    else inr "tls: private key does not match public key"
|}.

Definition fr : collationOptions.collation :=
  collationOptions.mkCollation "fr" (Some false) None (Some 2%Z)
    None None None None (Some true).

Definition collection_with_validator : collectionResource.collectionResourceModel :=
  collectionResource.mkModel "terraform_test_db" "test_collection_with_validation"
    (Some (collectionResource.mkValidation "{}")) StringUnknown.

Definition collection_plain : collectionResource.collectionResourceModel :=
  collectionResource.mkModel "terraform_test_db" "test_collection" None StringUnknown.

Definition holding (database name : string) : Fake.Server :=
  Fake.mkServer [(database, name)] (fun _ => false).

(** A [mongo.Connect] that reaches no server. *)
Definition refuse (opts : ClientOptions) : Client + error :=
  inr "server selection timeout".

Definition database_new : databaseResource.databaseResourceModel :=
  databaseResource.mkModel "test_db_new" StringUnknown.

(** A collection in a database whose name holds a dot. *)
Definition collection_dotted : collectionResource.collectionResourceModel :=
  collectionResource.mkModel "my.db" "events" None StringUnknown.

(** A state read back with an [id] that is out of date. *)
Definition collection_stale : collectionResource.collectionResourceModel :=
  collectionResource.mkModel "terraform_test_db" "test_collection_with_validation"
    (Some (collectionResource.mkValidation "{}")) (StringValue "stale").

Definition conversion_failed : Diagnostic :=
  NewErrorDiagnostic "Value Conversion Error" "unhandled null value".

End FakeTLS.

(* ================================================================== *)
(** * Facts about [Split] *)
(* ================================================================== *)

Lemma Split_no_sep s sep :
  contains_byte sep s = false -> Split s sep = [s].
Proof.
  induction s as [|x r IH]; simpl; [reflexivity|].
  intros H. apply orb_false_iff in H as [Hx Hr].
  rewrite Hx, (IH Hr). reflexivity.
Qed.

Lemma Split_app_sep a b sep :
  contains_byte sep a = false ->
  Split (a +:+ String sep b) sep = a :: Split b sep.
Proof.
  induction a as [|x r IH]; simpl.
  - intros _. rewrite Ascii.eqb_refl. reflexivity.
  - intros H. apply orb_false_iff in H as [Hx Hr].
    rewrite Hx, (IH Hr). reflexivity.
Qed.

Lemma Split_two a b :
  contains_byte dot a = false -> contains_byte dot b = false ->
  Split (a +:+ "." +:+ b) dot = [a; b].
Proof.
  intros Ha Hb.
  change ("." +:+ b) with (String dot b).
  rewrite (Split_app_sep _ _ _ Ha), (Split_no_sep _ _ Hb). reflexivity.
Qed.

Lemma Split_three a b c :
  contains_byte dot a = false -> contains_byte dot b = false ->
  contains_byte dot c = false ->
  Split (a +:+ "." +:+ b +:+ "." +:+ c) dot = [a; b; c].
Proof.
  intros Ha Hb Hc.
  change ("." +:+ b +:+ "." +:+ c) with (String dot (b +:+ "." +:+ c)).
  rewrite (Split_app_sep _ _ _ Ha), (Split_two _ _ Hb Hc). reflexivity.
Qed.

(* ================================================================== *)
(** * The identifier codec *)
(* ================================================================== *)

(** C4.  Identifier codec round trip and segment count.  For strings
    [a], [b] (and [c]) without ['.'] (empty or not), [parseCollectionId]
    of the dot-joined identifier gives back [{database: a, collection: b}]
    and [parseIndexId] gives back the three segments; and for any input
    whose split on ['.'] has not exactly 2 (collection) or 3 (index)
    segments the parse returns its error and no segments. *)
Theorem identifier_codec_round_trip_and_segment_count :
  (forall a b : string,
      a <> "" -> b <> "" ->
      contains_byte dot a = false -> contains_byte dot b = false ->
      parseCollectionId (collectionIdString a b)
      = (Some (mkCollectionId a b), None))
  /\ (forall a b c : string,
      a <> "" -> b <> "" -> c <> "" ->
      contains_byte dot a = false -> contains_byte dot b = false ->
      contains_byte dot c = false ->
      parseIndexId (a +:+ "." +:+ b +:+ "." +:+ c)
      = (Some (mkIndexId a b c), None))
  /\ (forall id : string,
      length (Split id dot) <> 2%nat ->
      parseCollectionId id = (None, Some (err_collection_id id)))
  /\ (forall path : string,
      length (Split path dot) <> 3%nat ->
      parseIndexId path = (None, Some err_index_id)).
Proof.
  repeat split.
  - intros a b _ _ Ha Hb. unfold parseCollectionId, collectionIdString.
    rewrite (Split_two _ _ Ha Hb). reflexivity.
  - intros a b c _ _ _ Ha Hb Hc. unfold parseIndexId.
    rewrite (Split_three _ _ _ Ha Hb Hc). reflexivity.
  - intros id Hlen. unfold parseCollectionId.
    destruct (Split id dot) as [|p0 [|p1 [|p2 rest]]]; simpl in Hlen;
      try reflexivity; congruence.
  - intros path Hlen. unfold parseIndexId.
    destruct (Split path dot) as [|p0 [|p1 [|p2 [|p3 rest]]]]; simpl in Hlen;
      try reflexivity; congruence.
Qed.

(** The codec on the identifiers of the tests: ["db.collection"] decodes,
    ["dbcollection"] and ["db.collection.extra"] do not. *)
Lemma identifier_codec_round_trip_and_segment_count_witness :
  parseCollectionId "db.collection" = (Some (mkCollectionId "db" "collection"), None)
  /\ parseIndexId "db.collection.by_name"
     = (Some (mkIndexId "db" "collection" "by_name"), None)
  /\ parseCollectionId "dbcollection"
     = (None, Some "invalid id format: dbcollection")
  /\ parseCollectionId "db.collection.extra"
     = (None, Some "invalid id format: db.collection.extra")
  /\ parseIndexId "db.collection" = (None, Some err_index_id).
Proof.
  destruct identifier_codec_round_trip_and_segment_count
    as (Hcol & Hidx & Hcol_bad & Hidx_bad).
  split; [|split; [|split; [|split]]].
  - apply (Hcol "db" "collection"); [discriminate|discriminate|reflexivity|reflexivity].
  - apply (Hidx "db" "collection" "by_name");
      [discriminate|discriminate|discriminate|reflexivity|reflexivity|reflexivity].
  - apply (Hcol_bad "dbcollection"). simpl. lia.
  - apply (Hcol_bad "db.collection.extra"). simpl. lia.
  - apply (Hidx_bad "db.collection"). simpl. lia.
Defined.

(* ================================================================== *)
(** * The sort-direction translators *)
(* ================================================================== *)

(** C8, as the code has it.  Sort-direction translation.  To the remote
    representation: ["asc"] gives [1], ["desc"] gives [-1] (boxed as Go
    [int]), any other string passes through unchanged.  Back: the 32-bit
    integer (Go [int32], the type the function tests for and its error
    message names) [1] gives ["asc"], [-1] gives ["desc"], any other
    [int32] value is an error; any string passes through unchanged; a
    value of any other dynamic type, the integers of type [int] and
    [int64] among them, is an error whatever its value; in particular
    the [int32] [2] is an error. *)
Theorem sort_direction_translation :
  convertToMongoIndexType "asc" = GoInt 1
  /\ convertToMongoIndexType "desc" = GoInt (-1)
  /\ (forall s : string, s <> "asc" -> s <> "desc" ->
        convertToMongoIndexType s = GoString s)
  /\ convertToTfIndexType (GoInt32 1) = ("asc", None)
  /\ convertToTfIndexType (GoInt32 (-1)) = ("desc", None)
  /\ (forall n : Z, n <> 1%Z -> n <> (-1)%Z ->
        convertToTfIndexType (GoInt32 n) = ("", Some err_int_value))
  /\ (forall s : string, convertToTfIndexType (GoString s) = (s, None))
  /\ (forall v : GoValue,
        (forall n, v <> GoInt32 n) -> (forall s, v <> GoString s) ->
        convertToTfIndexType v = ("", Some err_int_or_string))
  /\ (exists err, convertToTfIndexType (GoInt32 2) = ("", Some err)).
Proof.
  repeat split; try reflexivity.
  - intros s Hasc Hdesc. unfold convertToMongoIndexType.
    destruct (String.eqb_spec s "asc") as [->|_]; [congruence|].
    destruct (String.eqb_spec s "desc") as [->|_]; [congruence|].
    reflexivity.
  - intros n H1 H2. unfold convertToTfIndexType.
    destruct (Z.eqb_spec n 1); [congruence|].
    destruct (Z.eqb_spec n (-1)); [congruence|]. reflexivity.
  - intros v Hint Hstr. destruct v; try reflexivity.
    + exfalso. eapply Hint. reflexivity.
    + exfalso. eapply Hstr. reflexivity.
  - exists err_int_value. reflexivity.
Qed.

(** The claim of C8 as it was stated fails for the integers that are not
    of type [int32]: the [int] [1], which is what the translation of
    ["asc"] gives, and the [int64] [-1] are not translated back but
    rejected. *)
Lemma convertToTfIndexType_rejects_other_integers :
  convertToTfIndexType (GoInt 1) = ("", Some err_int_or_string)
  /\ convertToTfIndexType (GoInt 1) <> ("asc", None)
  /\ convertToTfIndexType (convertToMongoIndexType "asc")
     = ("", Some err_int_or_string)
  /\ convertToTfIndexType (GoInt64 (-1)) = ("", Some err_int_or_string)
  /\ convertToTfIndexType (GoInt64 (-1)) <> ("desc", None).
Proof. repeat split; try reflexivity; discriminate. Qed.

(** The translators on a text index, on [3] and on a 64-bit [1]. *)
Lemma sort_direction_translation_witness :
  convertToMongoIndexType "text" = GoString "text"
  /\ convertToTfIndexType (GoInt32 3) = ("", Some err_int_value)
  /\ convertToTfIndexType (GoInt64 1) = ("", Some err_int_or_string).
Proof.
  destruct sort_direction_translation
    as (_ & _ & Hother & _ & _ & Hint & _ & Hrest & _).
  split; [|split].
  - apply (Hother "text"); discriminate.
  - apply (Hint 3%Z); lia.
  - apply (Hrest (GoInt64 1)); discriminate.
Defined.

(* ================================================================== *)
(** * Facts about diagnostics *)
(* ================================================================== *)

Lemma Contains_In ds d : Contains ds d = true <-> In d ds.
Proof.
  unfold Contains. rewrite existsb_exists. split.
  - intros (x & Hx & Heq). apply bool_decide_eq_true in Heq. congruence.
  - intros Hin. exists d. split; [assumption|]. apply bool_decide_eq_true. reflexivity.
Qed.

Lemma Append_nil_r ds : Append ds [] = ds.
Proof. reflexivity. Qed.

Lemma Append_cons ds d new :
  Append ds (d :: new) = Append (if Contains ds d then ds else ds ++ [d]) new.
Proof. reflexivity. Qed.

Lemma In_Append d ds new : In d (Append ds new) <-> In d ds \/ In d new.
Proof.
  revert ds. induction new as [|x new IH]; intros ds.
  - rewrite Append_nil_r. simpl. tauto.
  - rewrite Append_cons, IH. simpl.
    destruct (Contains ds x) eqn:Hc.
    + apply Contains_In in Hc. split; [tauto|].
      intros [H|[->|H]]; tauto.
    + rewrite in_app_iff. simpl. tauto.
Qed.

Lemma HasError_In ds : HasError ds = true <-> exists d, In d ds /\ is_error d = true.
Proof. unfold HasError. apply existsb_exists. Qed.

Lemma HasError_Append ds new :
  HasError (Append ds new) = HasError ds || HasError new.
Proof.
  apply eq_true_iff_eq. rewrite orb_true_iff, !HasError_In. split.
  - intros (d & Hin & He). apply In_Append in Hin as [Hin|Hin]; eauto.
  - intros [(d & Hin & He)|(d & Hin & He)]; exists d; rewrite In_Append; tauto.
Qed.

Lemma HasError_Append_nil ds : HasError (Append [] ds) = HasError ds.
Proof. rewrite HasError_Append. reflexivity. Qed.

Lemma HasError_Append_error ds d :
  is_error d = true -> HasError (Append ds [d]) = true.
Proof.
  intros He. rewrite HasError_Append. simpl. rewrite He.
  rewrite orb_true_r. reflexivity.
Qed.

(** Unfolding of the method notation, and evaluation up to the tests on
    diagnostics and strings. *)
Ltac munfold :=
  unfold exec, return_if_error, Diagnostics_AddError,
    Diagnostics_AddAttributeError, Diagnostics_Append, Diagnostics_HasError,
    when_, modify, gets, Return, mbind, M_bind, mret, M_ret.

Ltac msimpl :=
  cbn -[Append HasError mongodbProvider.connectionURI unexpected_detail
        collectionIdString databaseResource.marker Nat.eqb].


(* ================================================================== *)
(** * The connection resolver: what [Configure] does, case by case *)
(* ================================================================== *)

Section ConfigureFacts.
Context `{!Libraries}.
Variable mongo_Connect : ClientOptions -> Client + error.
Variable resolve : string -> result Dialer.

Import mongodbProvider.

Local Abbreviation configure req :=
  (exec (Configure mongo_Connect resolve req) fresh).

(** The diagnostics of the conversion, as [Append] keeps them. *)
Local Abbreviation seen req := (Append [] (decode_diags req)).

Ltac configure_start Hd :=
  unfold Configure, step, set_client; munfold; msimpl;
  rewrite HasError_Append_nil, Hd.

Ltac configure_past_check req Hd Hone :=
  configure_start Hd;
  let Hu := fresh "Hu" in
  let Hh := fresh "Hh" in
  unfold one_of_host_and_url in Hone;
  destruct (String.eqb_spec (ValueString (Url (target req))) "") as [Hu|Hu];
  destruct (String.eqb_spec (ValueString (Host (target req))) "") as [Hh|Hh];
  try (exfalso; tauto);
  msimpl; rewrite HasError_Append_nil, Hd.

(** With neither [url] nor [host], [Configure] stops at the check. *)
Lemma Configure_missing (req : Decoded mongodbProviderModel) :
  HasError (decode_diags req) = false ->
  ValueString (Url (target req)) = "" ->
  ValueString (Host (target req)) = "" ->
  configure req =
  mkResponse (Append (seen req) [missing_host_or_url]) None None [].
Proof.
  intros Hd Hu Hh. configure_start Hd. rewrite Hu, Hh. reflexivity.
Qed.

(** With both, too. *)
Lemma Configure_conflicting (req : Decoded mongodbProviderModel) :
  HasError (decode_diags req) = false ->
  ValueString (Url (target req)) <> "" ->
  ValueString (Host (target req)) <> "" ->
  configure req =
  mkResponse (Append (seen req) [conflicting_host_and_url]) None None [].
Proof.
  intros Hd Hu Hh. configure_start Hd.
  apply String.eqb_neq in Hu, Hh. rewrite Hu, Hh. reflexivity.
Qed.

(** Past the check, a failure of [proxyDialer] ends [Configure]. *)
Lemma Configure_proxy_error (req : Decoded mongodbProviderModel) dialer err :
  HasError (decode_diags req) = false ->
  one_of_host_and_url (target req) ->
  resolve (ValueString (Proxy (target req))) = (dialer, Some err) ->
  configure req =
  mkResponse (Append (seen req) [proxy_dialer_error err]) None None
             [StepProxyDialer (ValueString (Proxy (target req)))].
Proof.
  intros Hd Hone Hr. configure_past_check req Hd Hone; rewrite Hr; reflexivity.
Qed.

(** Past the check and the dialer, without a certificate: the connection
    attempt, with the plain options. *)
Lemma Configure_without_certificate (req : Decoded mongodbProviderModel) dialer :
  HasError (decode_diags req) = false ->
  one_of_host_and_url (target req) ->
  resolve (ValueString (Proxy (target req))) = (dialer, None) ->
  ValueString (Certificate (target req)) = "" ->
  let config := target req in
  let opts := clientOptions config (connectionURI config) dialer in
  let done := [StepProxyDialer (ValueString (Proxy config)); StepConnect opts] in
  configure req =
  match mongo_Connect opts with
  | inl client => mkResponse (seen req) (Some client) (Some client) done
  | inr err => mkResponse (Append (seen req) [client_error err]) None None done
  end.
Proof.
  intros Hd Hone Hr Hc. configure_past_check req Hd Hone; rewrite Hr, Hc; msimpl;
    destruct (mongo_Connect _); reflexivity.
Qed.

(** With a certificate: the TLS configuration is built; a bundle without
    a certificate ends [Configure], else the connection is attempted with
    the configuration applied. *)
Lemma Configure_with_certificate (req : Decoded mongodbProviderModel) dialer :
  HasError (decode_diags req) = false ->
  one_of_host_and_url (target req) ->
  resolve (ValueString (Proxy (target req))) = (dialer, None) ->
  ValueString (Certificate (target req)) <> "" ->
  let config := target req in
  let ca := ValueString (Certificate config) in
  let verify := ValueBool (InsecureSkipVerify config) in
  let tlsConfig := mkTLSConfig verify (AppendCertsFromPEM ca) in
  let opts :=
    SetTLSConfig (Some tlsConfig) (clientOptions config (connectionURI config) dialer) in
  let built := [StepProxyDialer (ValueString (Proxy config)); StepTLSConfig ca verify] in
  configure req =
  if Nat.eqb (length (AppendCertsFromPEM ca)) 0 then
    mkResponse (Append (seen req) [certificate_error "Failed parsing pem file"])
               None None built
  else
    match mongo_Connect opts with
    | inl client =>
        mkResponse (seen req) (Some client) (Some client) (built ++ [StepConnect opts])
    | inr err =>
        mkResponse (Append (seen req) [client_error err]) None None
                   (built ++ [StepConnect opts])
    end.
Proof.
  intros Hd Hone Hr Hc. apply String.eqb_neq in Hc.
  configure_past_check req Hd Hone; rewrite Hr, Hc; msimpl;
    unfold getTLSConfigWithAllServerCertificates;
    destruct (ValueBool (InsecureSkipVerify (target req)));
    destruct (Nat.eqb (length (AppendCertsFromPEM _)) 0); msimpl;
    try reflexivity; destruct (mongo_Connect _); reflexivity.
Qed.

(** When the conversion of the configuration has failed, nothing is done. *)
Lemma Configure_decode_error (req : Decoded mongodbProviderModel) :
  HasError (decode_diags req) = true ->
  configure req = mkResponse (seen req) None None [].
Proof.
  intros Hd. unfold Configure, step, set_client; munfold; msimpl.
  rewrite HasError_Append_nil, Hd. reflexivity.
Qed.
End ConfigureFacts.


Section ConfigureSteps.
Context `{!Libraries}.
Variable mongo_Connect : ClientOptions -> Client + error.
Variable resolve : string -> result Dialer.

Import mongodbProvider.

Local Abbreviation configure req :=
  (exec (Configure mongo_Connect resolve req) fresh).

(** The three ways [Configure] ends before the dialer is resolved. *)
Lemma Configure_stops_early (req : Decoded mongodbProviderModel) :
  HasError (decode_diags req) = true
  \/ ~ one_of_host_and_url (target req) ->
  steps (configure req) = []
  /\ DataSourceData (configure req) = None
  /\ ResourceData (configure req) = None.
Proof.
  intros [Hd|Hone].
  - rewrite (Configure_decode_error _ _ _ Hd). auto.
  - destruct (HasError (decode_diags req)) eqn:Hd.
    { rewrite (Configure_decode_error _ _ _ Hd). auto. }
    unfold one_of_host_and_url in Hone.
    destruct (String.eqb_spec (ValueString (Url (target req))) "") as [Hu|Hu];
      destruct (String.eqb_spec (ValueString (Host (target req))) "") as [Hh|Hh];
      try (exfalso; tauto).
    + rewrite (Configure_missing _ _ _ Hd Hu Hh). auto.
    + rewrite (Configure_conflicting _ _ _ Hd Hu Hh). auto.
Qed.

Lemma one_of_host_and_url_dec (config : mongodbProviderModel) :
  one_of_host_and_url config \/ ~ one_of_host_and_url config.
Proof.
  unfold one_of_host_and_url.
  destruct (String.eqb_spec (ValueString (Url config)) "");
    destruct (String.eqb_spec (ValueString (Host config)) ""); tauto.
Qed.

(** Every connection attempt of [Configure] is made with the options
    built from the configuration: the URI of [connectionURI], the resolved
    dialer, and a TLS configuration exactly when there is a certificate. *)
Lemma Configure_connect_step (req : Decoded mongodbProviderModel) opts :
  In (StepConnect opts) (steps (configure req)) ->
  let config := target req in
  let ca := ValueString (Certificate config) in
  let plain :=
    clientOptions config (connectionURI config)
                  (fst (resolve (ValueString (Proxy config)))) in
  opts =
  if String.eqb ca "" then plain
  else SetTLSConfig
         (Some (mkTLSConfig (ValueBool (InsecureSkipVerify config))
                            (AppendCertsFromPEM ca)))
         plain.
Proof.
  intros Hin. cbv zeta.
  destruct (HasError (decode_diags req)) eqn:Hd.
  { rewrite (proj1 (Configure_stops_early req (or_introl Hd))) in Hin.
    destruct Hin. }
  destruct (one_of_host_and_url_dec (target req)) as [Hone|Hone].
  2:{ rewrite (proj1 (Configure_stops_early req (or_intror Hone))) in Hin.
      destruct Hin. }
  destruct (resolve (ValueString (Proxy (target req)))) as [dialer [err|]] eqn:Hr.
  { rewrite (Configure_proxy_error _ _ _ _ _ Hd Hone Hr) in Hin.
    simpl in Hin. destruct Hin as [Hin|[]]. discriminate. }
  simpl fst.
  destruct (String.eqb_spec (ValueString (Certificate (target req))) "") as [Hc|Hc].
  - rewrite (Configure_without_certificate _ _ _ _ Hd Hone Hr Hc) in Hin.
    destruct (mongo_Connect _); simpl in Hin;
      destruct Hin as [Hin|[Hin|[]]]; congruence.
  - rewrite (Configure_with_certificate _ _ _ _ Hd Hone Hr Hc) in Hin.
    destruct (Nat.eqb _ 0).
    + simpl in Hin. destruct Hin as [Hin|[Hin|[]]]; discriminate.
    + destruct (mongo_Connect _); simpl in Hin;
        destruct Hin as [Hin|[Hin|[Hin|[]]]]; congruence.
Qed.
End ConfigureSteps.


Lemma In_seen_or_new (ds : Diagnostics) (x d : Diagnostic) :
  In d (Append (Append [] ds) [x]) ->
  mongodbProvider.isConfigurationError x = false ->
  mongodbProvider.isConfigurationError d = true ->
  In d ds.
Proof.
  intros Hin Hx Hd. apply In_Append in Hin as [Hin|[->|[]]].
  - apply In_Append in Hin as [[]|Hin]. exact Hin.
  - congruence.
Qed.

Lemma In_seen (ds : Diagnostics) (d : Diagnostic) :
  In d (Append [] ds) -> In d ds.
Proof. intros Hin. apply In_Append in Hin as [[]|Hin]. exact Hin. Qed.

(* ================================================================== *)
(** * The connection resolver: the claims *)
(* ================================================================== *)

Section ConfigureClaims.
Context `{!Libraries}.
Variable mongo_Connect : ClientOptions -> Client + error.
Variable resolve : string -> result Dialer.

Import mongodbProvider.

Local Abbreviation configure req :=
  (exec (Configure mongo_Connect resolve req) fresh).

(** C1.  For a configuration with neither [url] nor [host] set, or with
    both, [Configure] adds the attribute error ["Missing host or url"],
    respectively ["Conflicting host and url"], and returns before the
    proxy dialer is resolved, the TLS configuration built or the
    connection attempted: no step is taken and no client is set.  With
    exactly one of the two set, a diagnostic with one of these titles in
    the response can only be one the conversion of the configuration had
    already given: the check adds none. *)
Theorem configure_checks_host_and_url (req : Decoded mongodbProviderModel) :
  HasError (decode_diags req) = false ->
  let config := target req in
  let out := configure req in
  (ValueString (Url config) = "" -> ValueString (Host config) = "" ->
     Diagnostics_of out = Append (Append [] (decode_diags req)) [missing_host_or_url]
     /\ HasError (Diagnostics_of out) = true
     /\ steps out = [] /\ DataSourceData out = None /\ ResourceData out = None)
  /\ (ValueString (Url config) <> "" -> ValueString (Host config) <> "" ->
     Diagnostics_of out = Append (Append [] (decode_diags req)) [conflicting_host_and_url]
     /\ HasError (Diagnostics_of out) = true
     /\ steps out = [] /\ DataSourceData out = None /\ ResourceData out = None)
  /\ (one_of_host_and_url config ->
     forall d, In d (Diagnostics_of out) ->
               isConfigurationError d = true -> In d (decode_diags req)).
Proof.
  intros Hd config out. subst config out. split; [|split].
  - intros Hu Hh. rewrite (Configure_missing _ _ _ Hd Hu Hh). simpl.
    repeat split. apply HasError_Append_error. reflexivity.
  - intros Hu Hh. rewrite (Configure_conflicting _ _ _ Hd Hu Hh). simpl.
    repeat split. apply HasError_Append_error. reflexivity.
  - intros Hone d Hin Hconf.
    destruct (resolve (ValueString (Proxy (target req)))) as [dialer [err|]] eqn:Hr.
    { rewrite (Configure_proxy_error _ _ _ _ _ Hd Hone Hr) in Hin.
      exact (In_seen_or_new _ _ _ Hin eq_refl Hconf). }
    destruct (String.eqb_spec (ValueString (Certificate (target req))) "") as [Hc|Hc].
    + rewrite (Configure_without_certificate _ _ _ _ Hd Hone Hr Hc) in Hin.
      destruct (mongo_Connect _); simpl in Hin.
      * exact (In_seen _ _ Hin).
      * exact (In_seen_or_new _ _ _ Hin eq_refl Hconf).
    + rewrite (Configure_with_certificate _ _ _ _ Hd Hone Hr Hc) in Hin.
      destruct (Nat.eqb _ 0); [|destruct (mongo_Connect _)]; simpl in Hin.
      * exact (In_seen_or_new _ _ _ Hin eq_refl Hconf).
      * exact (In_seen _ _ Hin).
      * exact (In_seen_or_new _ _ _ Hin eq_refl Hconf).
Qed.

(** C2.  When [url] is absent, the URI [Configure] builds, and connects
    with, is ["mongodb://" + host + ":" + port] followed by ["/?"] and
    the arguments of the specification joined with ['&']:
    [retrywrites=<bool>] always, then [ssl=true] iff [ssl], then
    [replicaSet=<value>] iff [replica_set] is not empty and [direct] is
    false, then [connect=direct] iff [direct].  With [direct] set the
    arguments are [retrywrites], possibly [ssl=true], and
    [connect=direct]: no [replicaSet], whatever [replica_set] is. *)
Theorem connection_uri_assembly (req : Decoded mongodbProviderModel) :
  let config := target req in
  let host := ValueString (Host config) in
  let port := ValueString (Port config) in
  let retrywrites := ValueBool (RetryWrites config) in
  let ssl := ValueBool (SSL config) in
  let direct := ValueBool (Direct config) in
  let replica_set := ValueString (ReplicaSet config) in
  ValueString (Url config) = "" ->
  connectionURI config
  = spec_uri host port (spec_arguments retrywrites ssl direct replica_set)
  /\ (forall opts, In (StepConnect opts) (steps (configure req)) ->
        opt_URI opts
        = spec_uri host port (spec_arguments retrywrites ssl direct replica_set))
  /\ (direct = true ->
      spec_arguments retrywrites ssl direct replica_set
      = ["retrywrites=" +:+ FormatBool retrywrites]
          ++ (if ssl then ["ssl=true"] else []) ++ ["connect=direct"]).
Proof.
  intros config host port retrywrites ssl direct replica_set Hu.
  assert (connectionURI config
          = spec_uri host port (spec_arguments retrywrites ssl direct replica_set))
    as Huri.
  { unfold connectionURI, spec_uri, spec_arguments, addArgs.
    fold host port retrywrites ssl direct replica_set. rewrite Hu.
    destruct retrywrites, ssl, direct, (String.eqb replica_set ""); reflexivity. }
  split; [exact Huri|split].
  - intros opts Hin. rewrite <- Huri.
    rewrite (Configure_connect_step _ _ _ _ Hin).
    destruct (String.eqb _ ""); reflexivity.
  - intros ->. unfold spec_arguments. rewrite andb_false_r. reflexivity.
Qed.
End ConfigureClaims.


Section ProxyAndTLS.
Context `{!Libraries}.
Variable mongo_Connect : ClientOptions -> Client + error.

Import mongodbProvider.

(** C3.  The proxy resolution step, in the revision of [utils.go] that
    tests for the empty string.  An empty proxy string is no proxy and no
    error: [proxyDialer] returns [(nil, nil)], and [Configure] connects
    without a dialer.  A proxy string [url.Parse] cannot parse, or whose
    URL [proxy.FromURL] rejects (an unsupported scheme), makes
    [proxyDialer] return that error and no dialer; [Configure] then adds
    the error ["Unable to create proxy dialer"] carrying it and returns:
    no TLS configuration is built, no connection attempted, no client
    set. *)
Theorem proxy_resolution :
  Guarded.proxyDialer "" = (None, None)
  /\ (forall s err,
        s <> "" -> url_Parse s = inr err ->
        Guarded.proxyDialer s = (None, Some err))
  /\ (forall s proxyURL err,
        s <> "" -> url_Parse s = inl proxyURL -> proxy_FromURL proxyURL = inr err ->
        Guarded.proxyDialer s = (None, Some err))
  /\ (forall (req : Decoded mongodbProviderModel) dialer err,
        HasError (decode_diags req) = false ->
        one_of_host_and_url (target req) ->
        Guarded.proxyDialer (ValueString (Proxy (target req))) = (dialer, Some err) ->
        let out := exec (Configure mongo_Connect Guarded.proxyDialer req) fresh in
        Diagnostics_of out
        = Append (Append [] (decode_diags req)) [proxy_dialer_error err]
        /\ HasError (Diagnostics_of out) = true
        /\ steps out = [StepProxyDialer (ValueString (Proxy (target req)))]
        /\ DataSourceData out = None /\ ResourceData out = None)
  /\ (forall (req : Decoded mongodbProviderModel) opts,
        ValueString (Proxy (target req)) = "" ->
        In (StepConnect opts)
           (steps (exec (Configure mongo_Connect Guarded.proxyDialer req) fresh)) ->
        opt_Dialer opts = None).
Proof.
  split; [reflexivity|]. split; [|split; [|split]].
  - intros s err Hs Hparse. unfold Guarded.proxyDialer.
    apply String.eqb_neq in Hs. rewrite Hs, Hparse. reflexivity.
  - intros s proxyURL err Hs Hparse Hfrom. unfold Guarded.proxyDialer.
    apply String.eqb_neq in Hs. rewrite Hs, Hparse, Hfrom. reflexivity.
  - intros req dialer err Hd Hone Hr out. subst out.
    rewrite (Configure_proxy_error _ _ _ _ _ Hd Hone Hr). simpl.
    repeat split. apply HasError_Append_error. reflexivity.
  - intros req opts Hp Hin.
    rewrite (Configure_connect_step _ _ _ _ Hin), Hp.
    destruct (String.eqb _ ""); reflexivity.
Qed.

(** [proxyDialer] has no case for the empty string: it is parsed and
    handed to [proxy.FromURL] like any other. *)
Remark proxyDialer_empty_not_special :
  proxyDialer ""
  = match url_Parse "" with
    | inr err => (None, Some err)
    | inl proxyURL =>
        match proxy_FromURL proxyURL with
        | inr err => (None, Some err)
        | inl d => (Some d, None)
        end
    end.
Proof. reflexivity. Qed.

(** The two revisions of [proxyDialer] agree on every other string. *)
Remark proxyDialer_revisions_agree s :
  s <> "" -> proxyDialer s = Guarded.proxyDialer s.
Proof.
  intros Hs. unfold Guarded.proxyDialer, proxyDialer.
  apply String.eqb_neq in Hs. rewrite Hs. reflexivity.
Qed.

(** The earlier revision of [utils.go], which has no test for the empty
    string.  With libraries for which [url.Parse] parses the empty string
    to a URL that [proxy.FromURL] rejects, its [proxyDialer] returns that
    error on the empty string, and a [Configure] that runs with it adds
    the error ["Unable to create proxy dialer"] for a configuration that
    names no proxy; the revision with the test returns [(nil, nil)] on
    the same input. *)
Theorem proxyDialer_rejects_empty_proxy
  (proxyURL : URL) (err : error) (req : Decoded mongodbProviderModel) :
  url_Parse "" = inl proxyURL ->
  proxy_FromURL proxyURL = inr err ->
  HasError (decode_diags req) = false ->
  one_of_host_and_url (target req) ->
  ValueString (Proxy (target req)) = "" ->
  let out := exec (Configure mongo_Connect proxyDialer req) fresh in
  proxyDialer "" = (None, Some err)
  /\ Guarded.proxyDialer "" = (None, None)
  /\ Diagnostics_of out
     = Append (Append [] (decode_diags req)) [proxy_dialer_error err]
  /\ HasError (Diagnostics_of out) = true
  /\ steps out = [StepProxyDialer ""]
  /\ DataSourceData out = None /\ ResourceData out = None.
Proof.
  intros Hparse Hfrom Hd Hone Hp out.
  assert (proxyDialer "" = (None, Some err)) as Hr.
  { unfold proxyDialer. rewrite Hparse, Hfrom. reflexivity. }
  split; [exact Hr|]. split; [reflexivity|].
  subst out. rewrite <- Hp in Hr.
  rewrite (Configure_proxy_error _ _ _ _ _ Hd Hone Hr), Hp. simpl.
  repeat split. apply HasError_Append_error. reflexivity.
Qed.

Variable resolve : string -> result Dialer.

Local Abbreviation configure req :=
  (exec (Configure mongo_Connect resolve req) fresh).

End ProxyAndTLS.


(* ================================================================== *)
(** * The resource state machines *)
(* ================================================================== *)

Ltac resource_unfold :=
  unfold call, State_Set, State_SetAttribute, start; munfold; msimpl.

Section ResourceClaims.
Context {R : Type} `{!MongoClient R}.

(** C6.  Database Create.  It first creates the marker collection
    [_terraform_created] in the named database and then drops it.  If the
    creation fails, Create adds the error ["Unable to create database"]
    and returns; if the drop fails, Create adds the error ["Unable to
    clean up dummy collection"] and returns, the server staying as the
    successful creation and the failed drop left it; in both cases no
    state is written.  When both steps succeed the state is set to the
    plan with [id] equal to the database name. *)
Theorem database_create_marker_then_drop
  (req : Decoded databaseResource.databaseResourceModel) (st : tfState) (r : R) :
  HasError (decode_diags req) = false ->
  let name := databaseResource.Name (target req) in
  let create := CallCreateCollection name databaseResource.marker None in
  let drop := CallDropCollection name databaseResource.marker in
  let seen := Append [] (decode_diags req) in
  let out := exec (databaseResource.Create req) (start st r) in
  let created := invoke create r in
  let dropped := invoke drop (snd created) in
  let new_state :=
    databaseResource.to_state (databaseResource.mkModel name (StringValue name)) in
  (forall err, reply_err (fst created) = Some err ->
     out = mkExec (Append seen [databaseResource.create_error err]) st (snd created)
                  [Remote create (fst created)]
     /\ HasError (Diagnostics_of out) = true)
  /\ (reply_err (fst created) = None ->
      (forall err, reply_err (fst dropped) = Some err ->
         out = mkExec (Append seen [databaseResource.cleanup_error err]) st (snd dropped)
                      [Remote create (fst created); Remote drop (fst dropped)]
         /\ HasError (Diagnostics_of out) = true)
      /\ (reply_err (fst dropped) = None ->
         out = mkExec seen new_state (snd dropped)
                      [Remote create (fst created); Remote drop (fst dropped);
                       StateSet new_state]
         /\ HasError (Diagnostics_of out) = false
         /\ State out !! "id" = Some (AString name)
         /\ State out !! "name" = Some (AString name))).
Proof.
  intros Hd name create drop seen out created dropped new_state.
  subst out. unfold databaseResource.Create. resource_unfold.
  rewrite HasError_Append_nil, Hd. msimpl.
  fold name create. fold created.
  destruct created as [[names1 err1] r1] eqn:Hc. msimpl.
  split.
  - intros err ->. msimpl. split; [reflexivity|].
    apply HasError_Append_error. reflexivity.
  - intros ->. msimpl. fold drop. subst dropped. simpl snd.
    destruct (invoke drop r1) as [[names2 err2] r2] eqn:Hdrop. msimpl.
    split.
    + intros err ->. msimpl. split; [reflexivity|].
      apply HasError_Append_error. reflexivity.
    + intros ->. msimpl. rewrite HasError_Append_nil, Hd. msimpl.
      fold name. fold new_state. fold seen.
      split; [reflexivity|]. split; [subst seen; rewrite HasError_Append_nil; exact Hd|].
      subst new_state. unfold databaseResource.to_state. simpl.
      split; [apply lookup_insert_eq|].
      rewrite lookup_insert_ne by discriminate. apply lookup_insert_eq.
Qed.
End ResourceClaims.


Section ResourceClaims2.
Context {R : Type} `{!MongoClient R}.

(** C5.  Update is not supported.  For every resource kind and every
    Update request, whatever it carries, Update adds exactly one error
    diagnostic, titled ["Updates not supported"], makes no call on the
    server and leaves the state as it was. *)
Theorem update_not_supported (k : ResourceKind) (req : UpdateRequest)
  (st : tfState) (r : R) :
  let out := exec (Update k req) (start st r) in
  (exists detail,
      Diagnostics_of out = [NewErrorDiagnostic "Updates not supported" detail])
  /\ HasError (Diagnostics_of out) = true
  /\ trace out = []
  /\ server out = r
  /\ State out = st.
Proof.
  destruct k; simpl; (split; [eexists; reflexivity|repeat split]).
Qed.

(** Import of a collection, for an identifier with two segments. *)
Lemma collection_import_two (a b : string) (st : tfState) (r : R) (id : string) :
  Split id dot = [a; b] ->
  exec (collectionResource.ImportState (mkImportStateRequest id)) (start st r)
  = mkExec [] (<["name" := AString b]> (<["database" := AString a]> st)) r
           [StateSetAttribute "database" (AString a);
            StateSetAttribute "name" (AString b)].
Proof.
  intros Hs. unfold collectionResource.ImportState, parseCollectionId. simpl ID.
  rewrite Hs. reflexivity.
Qed.

(** Import of a collection, for any other identifier. *)
Lemma collection_import_malformed (st : tfState) (r : R) (id : string) :
  length (Split id dot) <> 2%nat ->
  exec (collectionResource.ImportState (mkImportStateRequest id)) (start st r)
  = mkExec [collectionResource.invalid_id_error (err_collection_id id)] st r [].
Proof.
  intros Hlen. unfold collectionResource.ImportState, parseCollectionId. simpl ID.
  destruct (Split id dot) as [|p0 [|p1 [|p2 rest]]]; simpl in Hlen;
    try reflexivity; congruence.
Qed.

(** Import of an index, for an identifier with three segments. *)
Lemma index_import_three (a b c : string) (st : tfState) (r : R) (id : string) :
  Split id dot = [a; b; c] ->
  exec (indexResource.ImportState (mkImportStateRequest id)) (start st r)
  = mkExec []
      (<["name" := AString c]>
         (<["collection" := AString b]> (<["database" := AString a]> st)))
      r
      [StateSetAttribute "database" (AString a);
       StateSetAttribute "collection" (AString b);
       StateSetAttribute "name" (AString c)].
Proof.
  intros Hs. unfold indexResource.ImportState, parseIndexId. simpl ID.
  rewrite Hs. reflexivity.
Qed.

(** Import of an index, for any other identifier. *)
Lemma index_import_malformed (st : tfState) (r : R) (id : string) :
  length (Split id dot) <> 3%nat ->
  exec (indexResource.ImportState (mkImportStateRequest id)) (start st r)
  = mkExec [indexResource.invalid_id_error err_index_id] st r [].
Proof.
  intros Hlen. unfold indexResource.ImportState, parseIndexId. simpl ID.
  destruct (Split id dot) as [|p0 [|p1 [|p2 [|p3 rest]]]]; simpl in Hlen;
    try reflexivity; congruence.
Qed.

(** C7, as the code has it.  Import of a collection decodes the
    identifier with [parseCollectionId]: when the split on ['.'] has not
    exactly two segments it adds the error ["Invalid id format. Should be
    <database>.<collection>."] and writes nothing; otherwise it writes the
    attributes [database] and [name], and nothing else, so that an empty
    state holds exactly these two.  Import of a database decodes nothing:
    whatever the identifier, it writes it to [name], and nothing else,
    without any diagnostic.  Import of an index decodes the identifier
    with [parseIndexId]: when the split has not exactly three segments it
    adds the error ["Invalid id format. Should be
    <database>.<collection>.<index_name>."] carrying the decoder's error,
    which names the same pattern, and writes nothing; otherwise it writes
    the attributes [database], [collection] and [name], and nothing else.
    None of the three makes a call on the server. *)
Theorem import_decodes_collection_and_passes_database (id : string)
  (st : tfState) (r : R) :
  let req := mkImportStateRequest id in
  let col := exec (collectionResource.ImportState req) (start st r) in
  let db := exec (databaseResource.ImportState req) (start st r) in
  let idx := exec (indexResource.ImportState req) (start st r) in
  (length (Split id dot) <> expected_segments KindCollection ->
     Diagnostics_of col = [collectionResource.invalid_id_error (err_collection_id id)]
     /\ HasError (Diagnostics_of col) = true
     /\ State col = st /\ trace col = [] /\ server col = r)
  /\ (forall a b, Split id dot = [a; b] ->
     Diagnostics_of col = []
     /\ State col = <["name" := AString b]> (<["database" := AString a]> st)
     /\ (st = ∅ -> dom (State col) = ({["database"; "name"]} : gset string))
     /\ existsb is_remote (trace col) = false /\ server col = r)
  /\ (Diagnostics_of db = []
     /\ State db = <["name" := AString id]> st
     /\ (st = ∅ -> dom (State db) = ({["name"]} : gset string))
     /\ existsb is_remote (trace db) = false /\ server db = r)
  /\ (length (Split id dot) <> expected_segments KindIndex ->
     parseIndexId id = (None, Some err_index_id))
  /\ (length (Split id dot) <> expected_segments KindIndex ->
     Diagnostics_of idx = [indexResource.invalid_id_error err_index_id]
     /\ HasError (Diagnostics_of idx) = true
     /\ State idx = st /\ trace idx = [] /\ server idx = r)
  /\ (forall a b c, Split id dot = [a; b; c] ->
     Diagnostics_of idx = []
     /\ State idx
        = <["name" := AString c]>
            (<["collection" := AString b]> (<["database" := AString a]> st))
     /\ (st = ∅ ->
         dom (State idx) = ({["database"; "collection"; "name"]} : gset string))
     /\ existsb is_remote (trace idx) = false /\ server idx = r).
Proof.
  intros req col db idx. subst req col db idx.
  split; [|split; [|split; [|split; [|split]]]].
  - intros Hlen. rewrite (collection_import_malformed _ _ _ Hlen). simpl.
    repeat split.
  - intros a b Hs. rewrite (collection_import_two _ _ _ _ _ Hs). simpl.
    repeat split. intros ->. rewrite !dom_insert_L, dom_empty_L. set_solver.
  - simpl. repeat split. intros ->. rewrite dom_insert_L, dom_empty_L. set_solver.
  - intros Hlen. unfold parseIndexId.
    destruct (Split id dot) as [|p0 [|p1 [|p2 [|p3 rest]]]]; simpl in Hlen;
      try reflexivity; congruence.
  - intros Hlen. rewrite (index_import_malformed _ _ _ Hlen). simpl.
    repeat split.
  - intros a b c Hs. rewrite (index_import_three _ _ _ _ _ _ Hs). simpl.
    repeat split. intros ->. rewrite !dom_insert_L, dom_empty_L. set_solver.
Qed.

(** C9.  No state on a failed remote step.  For Create and Read of every
    resource kind: when a call on the server has returned an error, the
    response holds an error diagnostic, the failed call is the last thing
    the method did, and the state was not written: it is the state the
    method started from.  So a state is written only when every call,
    the drop of the marker collection of a database included, has
    returned without error. *)
Theorem no_state_written_after_remote_error (op : Operation)
  (st : tfState) (r : R) :
  let out := exec (perform op) (start st r) in
  (existsb remote_failed (trace out) = true ->
     HasError (Diagnostics_of out) = true
     /\ State out = st
     /\ existsb writes_state (trace out) = false
     /\ exists done c rep err,
          trace out = done ++ [Remote c rep] /\ reply_err rep = Some err)
  /\ (existsb writes_state (trace out) = true ->
     existsb remote_failed (trace out) = false).
Proof.
  assert (forall out : Exec R,
    (existsb remote_failed (trace out) = true ->
       HasError (Diagnostics_of out) = true
       /\ State out = st
       /\ existsb writes_state (trace out) = false
       /\ exists done c rep err,
            trace out = done ++ [Remote c rep] /\ reply_err rep = Some err) ->
    (existsb remote_failed (trace out) = true ->
       HasError (Diagnostics_of out) = true
       /\ State out = st
       /\ existsb writes_state (trace out) = false
       /\ exists done c rep err,
            trace out = done ++ [Remote c rep] /\ reply_err rep = Some err)
    /\ (existsb writes_state (trace out) = true ->
       existsb remote_failed (trace out) = false)) as Hboth.
  { intros out Hfail. split; [exact Hfail|]. intros Hw.
    destruct (existsb remote_failed (trace out)); [|reflexivity].
    destruct (Hfail eq_refl) as (_ & _ & Hno & _). congruence. }
  intros out. apply Hboth. subst out. clear Hboth.
  destruct op as [req|req|req|req|req|req];
    unfold perform, databaseResource.Create, databaseResource.Read,
      collectionResource.Create, collectionResource.Read,
      indexResource.Create, indexResource.Read;
    resource_unfold;
    repeat first
      [ progress msimpl
      | match goal with
        | |- context [invoke ?c ?s] => destruct (invoke c s) as [[? [?|]] ?]
        | |- context [if HasError ?d then _ else _] => destruct (HasError d)
        | |- context [Nat.eqb (length ?l) 0] => destruct (Nat.eqb (length l) 0)
        end ];
    intros Hfail; simpl in Hfail; try discriminate;
    (split; [apply HasError_Append_error; reflexivity|]);
    (split; [reflexivity|]); (split; [reflexivity|]);
    first [ exists []; do 3 eexists; split; reflexivity
          | eexists [_]; do 3 eexists; split; reflexivity ].
Qed.
End ResourceClaims2.

(* ================================================================== *)
(** * The claims on examples *)
(* ================================================================== *)

(** [Configure] on an empty configuration, on one with both [host] and
    [url], and on the configuration of the tests. *)
Lemma configure_checks_host_and_url_witness :
  mongodbProvider.Diagnostics_of
    (exec (mongodbProvider.Configure Fake.connect Guarded.proxyDialer
             (mkDecoded Fake.empty_config [])) mongodbProvider.fresh)
  = [mongodbProvider.missing_host_or_url]
  /\ mongodbProvider.steps
       (exec (mongodbProvider.Configure Fake.connect Guarded.proxyDialer
                (mkDecoded Fake.conflicting_config [])) mongodbProvider.fresh)
     = []
  /\ forall d,
       In d (mongodbProvider.Diagnostics_of
               (exec (mongodbProvider.Configure Fake.connect Guarded.proxyDialer
                        (mkDecoded Fake.by_host [])) mongodbProvider.fresh)) ->
       mongodbProvider.isConfigurationError d = true -> False.
Proof.
  split; [|split].
  - destruct (configure_checks_host_and_url Fake.connect Guarded.proxyDialer
                (mkDecoded Fake.empty_config []) eq_refl) as (Hmissing & _ & _).
    exact (proj1 (Hmissing eq_refl eq_refl)).
  - destruct (configure_checks_host_and_url Fake.connect Guarded.proxyDialer
                (mkDecoded Fake.conflicting_config []) eq_refl) as (_ & Hboth & _).
    refine (proj1 (proj2 (proj2 (Hboth _ _)))); discriminate.
  - destruct (configure_checks_host_and_url Fake.connect Guarded.proxyDialer
                (mkDecoded Fake.by_host []) eq_refl) as (_ & _ & Hone).
    intros d Hin Hd. refine (Hone _ d Hin Hd).
    split; [intros _; discriminate|intros _; reflexivity].
Defined.

(** The URI of the configuration of the tests, and of one with [direct]
    next to a replica set. *)
Lemma connection_uri_assembly_witness :
  mongodbProvider.connectionURI Fake.by_host
  = "mongodb://localhost:27017/?retrywrites=false"
  /\ mongodbProvider.connectionURI Fake.direct_with_replica_set
     = "mongodb://localhost:27017/?retrywrites=true&ssl=true&connect=direct".
Proof.
  split.
  - exact (proj1 (connection_uri_assembly Fake.connect Guarded.proxyDialer
                    (mkDecoded Fake.by_host []) eq_refl)).
  - exact (proj1 (connection_uri_assembly Fake.connect Guarded.proxyDialer
                    (mkDecoded Fake.direct_with_replica_set []) eq_refl)).
Defined.

(** [Guarded.proxyDialer] on the empty string, on a string that does not
    parse and on a proxy with the [http] scheme, and [Configure] on the
    latter. *)
Lemma proxy_resolution_witness :
  Guarded.proxyDialer "" = (None, None)
  /\ Guarded.proxyDialer "bad proxy" = (None, Some "invalid character in host name")
  /\ Guarded.proxyDialer "http://proxy:8080" = (None, Some "proxy: unknown scheme")
  /\ mongodbProvider.Diagnostics_of
       (exec (mongodbProvider.Configure Fake.connect Guarded.proxyDialer
                (mkDecoded (Fake.with_proxy "http://proxy:8080") []))
             mongodbProvider.fresh)
     = [mongodbProvider.proxy_dialer_error "proxy: unknown scheme"].
Proof.
  destruct (proxy_resolution Fake.connect)
    as (Hempty & Hparse & Hscheme & Hconfigure & _).
  split; [exact Hempty|]. split; [|split].
  - apply (Hparse "bad proxy"); [discriminate|reflexivity].
  - apply (Hscheme "http://proxy:8080" "http://proxy:8080");
      [discriminate|reflexivity|reflexivity].
  - refine (proj1 (Hconfigure (mkDecoded (Fake.with_proxy "http://proxy:8080") [])
                     None "proxy: unknown scheme" eq_refl _ eq_refl)).
    split; [intros _; discriminate|intros _; reflexivity].
Defined.

(** [Configure] on the configuration of the tests, which names no proxy,
    with [proxyDialer] and libraries that take the empty string for a URL
    without a scheme. *)
Lemma proxyDialer_rejects_empty_proxy_witness :
  proxyDialer "" = (None, Some "proxy: unknown scheme")
  /\ mongodbProvider.Diagnostics_of
       (exec (mongodbProvider.Configure Fake.connect proxyDialer
                (mkDecoded Fake.by_host [])) mongodbProvider.fresh)
     = [mongodbProvider.proxy_dialer_error "proxy: unknown scheme"]
  /\ mongodbProvider.steps
       (exec (mongodbProvider.Configure Fake.connect proxyDialer
                (mkDecoded Fake.by_host [])) mongodbProvider.fresh)
     = [mongodbProvider.StepProxyDialer ""].
Proof.
  assert (mongodbProvider.one_of_host_and_url Fake.by_host) as Hone.
  { split; [intros _; discriminate|intros _; reflexivity]. }
  destruct (proxyDialer_rejects_empty_proxy Fake.connect
              "" "proxy: unknown scheme" (mkDecoded Fake.by_host [])
              eq_refl eq_refl eq_refl Hone eq_refl)
    as (Hdialer & _ & Hdiags & _ & Hsteps & _).
  split; [exact Hdialer|]. split; [exact Hdiags|exact Hsteps].
Defined.


(** Database Create of [test_db_new] on a server that is up, and on one
    that refuses to drop. *)
Lemma database_create_marker_then_drop_witness :
  State (exec (databaseResource.Create
                 (mkDecoded (databaseResource.mkModel "test_db_new" StringUnknown) []))
              (start ∅ Fake.up)) !! "id"
  = Some (AString "test_db_new")
  /\ HasError
       (Diagnostics_of
          (exec (databaseResource.Create
                   (mkDecoded (databaseResource.mkModel "test_db_new" StringUnknown) []))
                (start ∅ Fake.no_drop)))
     = true.
Proof.
  split.
  - destruct (database_create_marker_then_drop
                (mkDecoded (databaseResource.mkModel "test_db_new" StringUnknown) [])
                ∅ Fake.up eq_refl) as (_ & Hcreated).
    destruct (Hcreated eq_refl) as (_ & Hdropped).
    exact (proj1 (proj2 (proj2 (Hdropped eq_refl)))).
  - destruct (database_create_marker_then_drop
                (mkDecoded (databaseResource.mkModel "test_db_new" StringUnknown) [])
                ∅ Fake.no_drop eq_refl) as (_ & Hcreated).
    destruct (Hcreated eq_refl) as (Hdrop_failed & _).
    exact (proj2 (Hdrop_failed "server unreachable" eq_refl)).
Defined.

(** Import of the collection of the tests, of an identifier without a
    dot, and of an index by an identifier with three and with two
    segments. *)
Lemma import_decodes_collection_and_passes_database_witness :
  State (exec (collectionResource.ImportState
                 (mkImportStateRequest "terraform_test_db.test_collection"))
              (start ∅ Fake.up))
  = <["name" := AString "test_collection"]>
      (<["database" := AString "terraform_test_db"]> ∅)
  /\ HasError
       (Diagnostics_of
          (exec (collectionResource.ImportState (mkImportStateRequest "dbcollection"))
                (start ∅ Fake.up)))
     = true
  /\ State (exec (indexResource.ImportState
                    (mkImportStateRequest "terraform_test_db.test_collection.name_1"))
                 (start ∅ Fake.up))
     = <["name" := AString "name_1"]>
         (<["collection" := AString "test_collection"]>
            (<["database" := AString "terraform_test_db"]> ∅))
  /\ Diagnostics_of
       (exec (indexResource.ImportState
                (mkImportStateRequest "terraform_test_db.test_collection"))
             (start ∅ Fake.up))
     = [indexResource.invalid_id_error err_index_id].
Proof.
  split; [|split; [|split]].
  3:{ destruct (import_decodes_collection_and_passes_database
                  "terraform_test_db.test_collection.name_1" ∅ Fake.up)
        as (_ & _ & _ & _ & _ & Hok).
      exact (proj1 (proj2 (Hok "terraform_test_db" "test_collection" "name_1"
                              eq_refl))). }
  3:{ destruct (import_decodes_collection_and_passes_database
                  "terraform_test_db.test_collection" ∅ Fake.up)
        as (_ & _ & _ & _ & Hbad & _).
      refine (proj1 (Hbad _)). simpl. lia. }
  - destruct (import_decodes_collection_and_passes_database
                "terraform_test_db.test_collection" ∅ Fake.up) as (_ & Hok & _).
    exact (proj1 (proj2 (Hok "terraform_test_db" "test_collection" eq_refl))).
  - destruct (import_decodes_collection_and_passes_database
                "dbcollection" ∅ Fake.up) as (Hbad & _).
    refine (proj1 (proj2 (Hbad _))). simpl. lia.
Defined.

(** The claim of C7 as it was stated fails for the database kind: an
    identifier with two segments, where the database identifier has one,
    is imported without any diagnostic, as the name of the database. *)
Lemma database_import_does_not_count_segments :
  length (Split "db.collection" dot) <> expected_segments KindDatabase
  /\ Diagnostics_of
       (exec (databaseResource.ImportState (mkImportStateRequest "db.collection"))
             (start ∅ Fake.up))
     = []
  /\ State
       (exec (databaseResource.ImportState (mkImportStateRequest "db.collection"))
             (start ∅ Fake.up))
     = <["name" := AString "db.collection"]> ∅
  /\ ~ (forall id : string,
          length (Split id dot) <> expected_segments KindDatabase ->
          HasError
            (Diagnostics_of
               (exec (databaseResource.ImportState (mkImportStateRequest id))
                     (start ∅ Fake.up)))
          = true).
Proof.
  split; [simpl; lia|]. split; [reflexivity|]. split; [reflexivity|].
  intros Hclaim. specialize (Hclaim "db.collection"). simpl in Hclaim.
  assert (2%nat <> 1%nat) as Hne by lia. specialize (Hclaim Hne). discriminate.
Qed.

(** Database Create on a server that refuses to drop the marker
    collection: the state stays empty. *)
Lemma no_state_written_after_remote_error_witness :
  State (exec (perform
                 (DatabaseCreate
                    (mkDecoded (databaseResource.mkModel "test_db_new" StringUnknown) [])))
              (start ∅ Fake.no_drop))
  = ∅.
Proof.
  destruct (no_state_written_after_remote_error
              (DatabaseCreate
                 (mkDecoded (databaseResource.mkModel "test_db_new" StringUnknown) []))
              ∅ Fake.no_drop) as (Hfailed & _).
  exact (proj1 (proj2 (Hfailed eq_refl))).
Defined.

(* ================================================================== *)
(** * More on the identifier codec *)
(* ================================================================== *)

Lemma length_Split s sep : length (Split s sep) = S (count_byte sep s).
Proof.
  induction s as [|x r IH]; simpl; [reflexivity|].
  destruct (Ascii.eqb x sep); simpl.
  - rewrite IH. reflexivity.
  - destruct (Split r sep) as [|h t]; simpl in *; lia.
Qed.

Lemma contains_byte_count sep s :
  contains_byte sep s = false <-> count_byte sep s = 0%nat.
Proof.
  induction s as [|x r IH]; simpl; [tauto|].
  destruct (Ascii.eqb x sep); simpl; [split; [discriminate|lia]|exact IH].
Qed.

Lemma count_byte_app sep a b :
  count_byte sep (a +:+ b) = (count_byte sep a + count_byte sep b)%nat.
Proof. induction a as [|x r IH]; simpl; [reflexivity|]. rewrite IH. lia. Qed.

Lemma Join_cons_byte x h l sep :
  Join (String x h :: l) sep = String x (Join (h :: l) sep).
Proof. destruct l; reflexivity. Qed.

(** Joining what [Split] gives with the separator gives the string back. *)
Lemma Join_Split s sep : Join (Split s sep) (String sep EmptyString) = s.
Proof.
  induction s as [|x r IH]; [reflexivity|].
  pose proof (length_Split r sep) as Hl.
  cbn [Split]. destruct (Ascii.eqb_spec x sep) as [->|Hne].
  - destruct (Split r sep) as [|h t]; [discriminate|].
    change (Join (EmptyString :: h :: t) (String sep EmptyString))
      with (String sep (Join (h :: t) (String sep EmptyString))).
    rewrite IH. reflexivity.
  - destruct (Split r sep) as [|h t]; [discriminate|].
    rewrite Join_cons_byte, IH. reflexivity.
Qed.

(** No segment holds the separator. *)
Lemma Split_segments s sep x :
  In x (Split s sep) -> contains_byte sep x = false.
Proof.
  revert x. induction s as [|c r IH]; simpl; intros x Hin.
  - destruct Hin as [<-|[]]. reflexivity.
  - destruct (Ascii.eqb c sep) eqn:Hc.
    + destruct Hin as [<-|Hin]; [reflexivity|auto].
    + destruct (Split r sep) as [|h t]; simpl in Hin.
      * destruct Hin as [<-|[]]. simpl. rewrite Hc. reflexivity.
      * destruct Hin as [<-|Hin].
        -- simpl. rewrite Hc. simpl. apply IH. left. reflexivity.
        -- apply IH. right. exact Hin.
Qed.

Lemma parseCollectionId_other_count (id : string) :
  count_byte dot id <> 1%nat ->
  parseCollectionId id = (None, Some (err_collection_id id)).
Proof.
  intros Hcount. pose proof (length_Split id dot) as Hlen. unfold parseCollectionId.
  destruct (Split id dot) as [|p0 [|p1 [|p2 rest]]]; simpl in Hlen;
    try reflexivity. lia.
Qed.

(** [parseCollectionId] by the number of dots.  An identifier decodes iff
    it holds exactly one ['.'], empty segments included; the two
    segments it gives hold no dot and, joined again as [Create] joins
    them, give the identifier back.  With any other number of dots the
    result is the error and no segments. *)
Theorem parseCollectionId_by_dots (id : string) :
  (count_byte dot id = 1%nat ->
     exists c, parseCollectionId id = (Some c, None)
       /\ collectionIdString (col_database c) (col_collection c) = id
       /\ contains_byte dot (col_database c) = false
       /\ contains_byte dot (col_collection c) = false)
  /\ (count_byte dot id <> 1%nat ->
     parseCollectionId id = (None, Some (err_collection_id id))).
Proof.
  pose proof (length_Split id dot) as Hlen.
  pose proof (Join_Split id dot) as Hjoin.
  pose proof (Split_segments id dot) as Hseg.
  unfold parseCollectionId. split; intros Hcount.
  - destruct (Split id dot) as [|p0 [|p1 [|p2 rest]]]; simpl in Hlen; try lia.
    exists (mkCollectionId p0 p1). simpl. repeat split.
    + exact Hjoin.
    + apply Hseg. simpl. tauto.
    + apply Hseg. simpl. tauto.
  - destruct (Split id dot) as [|p0 [|p1 [|p2 rest]]]; simpl in Hlen;
      try reflexivity. lia.
Qed.

(** [parseIndexId] by the number of dots: an identifier decodes iff it
    holds exactly two; the three segments hold no dot and give the
    identifier back when joined with dots. *)
Theorem parseIndexId_by_dots (path : string) :
  (count_byte dot path = 2%nat ->
     exists i, parseIndexId path = (Some i, None)
       /\ idx_database i +:+ "." +:+ idx_collection i +:+ "." +:+ idx_indexName i
          = path
       /\ contains_byte dot (idx_database i) = false
       /\ contains_byte dot (idx_collection i) = false
       /\ contains_byte dot (idx_indexName i) = false)
  /\ (count_byte dot path <> 2%nat ->
     parseIndexId path = (None, Some err_index_id)).
Proof.
  pose proof (length_Split path dot) as Hlen.
  pose proof (Join_Split path dot) as Hjoin.
  pose proof (Split_segments path dot) as Hseg.
  unfold parseIndexId. split; intros Hcount.
  - destruct (Split path dot) as [|p0 [|p1 [|p2 [|p3 rest]]]]; simpl in Hlen; try lia.
    exists (mkIndexId p0 p1 p2). simpl. repeat split.
    + exact Hjoin.
    + apply Hseg. simpl. tauto.
    + apply Hseg. simpl. tauto.
    + apply Hseg. simpl. tauto.
  - destruct (Split path dot) as [|p0 [|p1 [|p2 [|p3 rest]]]]; simpl in Hlen;
      try reflexivity. lia.
Qed.

(** The identifier [Create] stores for a collection decodes back iff
    neither name holds a dot: then to the two names; else the identifier
    has more than two segments and [parseCollectionId] rejects it. *)
Theorem created_identifier_decodes_iff_no_dot (database collection : string) :
  (contains_byte dot database = false /\ contains_byte dot collection = false ->
     parseCollectionId (collectionIdString database collection)
     = (Some (mkCollectionId database collection), None))
  /\ (contains_byte dot database = true \/ contains_byte dot collection = true ->
     parseCollectionId (collectionIdString database collection)
     = (None, Some (err_collection_id (collectionIdString database collection)))).
Proof.
  split.
  - intros [Hd Hc]. unfold parseCollectionId, collectionIdString.
    rewrite (Split_two _ _ Hd Hc). reflexivity.
  - intros Hdot.
    apply parseCollectionId_other_count.
    unfold collectionIdString. rewrite !count_byte_app. simpl.
    assert (count_byte dot database <> 0%nat \/ count_byte dot collection <> 0%nat).
    { destruct Hdot as [H|H]; [left|right]; intros H0;
        apply contains_byte_count in H0; congruence. }
    lia.
Qed.

(* ================================================================== *)
(** * More on the translators and on [addArgs] *)
(* ================================================================== *)

(** The two direction translators composed.  A declared index type comes
    back unchanged from [convertToTfIndexType] after
    [convertToMongoIndexType] iff it is neither ["asc"] nor ["desc"]
    (["text"], ["2dsphere"], ["hashed"], ...); for these two the value
    handed back is the Go [int] the first function made, which the second
    rejects. *)
Theorem index_type_there_and_back (indexType : string) :
  (indexType <> "asc" /\ indexType <> "desc" ->
     convertToTfIndexType (convertToMongoIndexType indexType) = (indexType, None))
  /\ (indexType = "asc" \/ indexType = "desc" ->
     convertToTfIndexType (convertToMongoIndexType indexType)
     = ("", Some err_int_or_string)).
Proof.
  split.
  - intros [Hasc Hdesc]. unfold convertToMongoIndexType.
    destruct (String.eqb_spec indexType "asc"); [congruence|].
    destruct (String.eqb_spec indexType "desc"); [congruence|]. reflexivity.
  - intros [->| ->]; reflexivity.
Qed.

(** What comes back from the server without error, and what it is sent
    as again: a string other than ["asc"] and ["desc"] is sent as it
    came; the [int32] [1] and [-1], and also the strings ["asc"] and
    ["desc"], are sent as the Go [int] [1] and [-1]. *)
Theorem index_type_back_and_there (v : GoValue) (s : string) :
  convertToTfIndexType v = (s, None) ->
  (v = GoString s /\ s <> "asc" /\ s <> "desc"
     /\ convertToMongoIndexType s = v)
  \/ ((v = GoInt32 1 \/ v = GoString "asc")
      /\ s = "asc" /\ convertToMongoIndexType s = GoInt 1)
  \/ ((v = GoInt32 (-1) \/ v = GoString "desc")
      /\ s = "desc" /\ convertToMongoIndexType s = GoInt (-1)).
Proof.
  destruct v as [| | |n| | |t]; simpl; try discriminate.
  - destruct (Z.eqb_spec n 1) as [->|]; [intros [= <-]; right; left; auto|].
    destruct (Z.eqb_spec n (-1)) as [->|]; [intros [= <-]; right; right; auto|].
    discriminate.
  - intros [= ->]. unfold convertToMongoIndexType.
    destruct (String.eqb_spec s "asc") as [->|Hasc]; [right; left; auto|].
    destruct (String.eqb_spec s "desc") as [->|Hdesc]; [right; right; auto|].
    left. auto.
Qed.

Lemma append_assoc (a b c : string) : (a +:+ b) +:+ c = a +:+ (b +:+ c).
Proof.
  induction a as [|x a IH]; [reflexivity|].
  change (String x ((a +:+ b) +:+ c) = String x (a +:+ (b +:+ c))).
  f_equal. exact IH.
Qed.

Lemma Join_snoc_pair (x y : string) (rest : list string) (sep : string) :
  Join ((x +:+ sep +:+ y) :: rest) sep = Join (x :: y :: rest) sep.
Proof.
  destruct rest as [|z rest]; [reflexivity|].
  change (Join ((x +:+ sep +:+ y) :: z :: rest) sep)
    with ((x +:+ sep +:+ y) +:+ sep +:+ Join (z :: rest) sep).
  change (Join (x :: y :: z :: rest) sep)
    with (x +:+ sep +:+ y +:+ sep +:+ Join (z :: rest) sep).
  rewrite !append_assoc. reflexivity.
Qed.

Lemma fold_addArgs (prefix x : string) (rest : list string) :
  prefix <> "" ->
  fold_left addArgs rest (prefix +:+ x) = prefix +:+ Join (x :: rest) "&".
Proof.
  intros Hp. revert x. induction rest as [|y rest IH]; intros x.
  - reflexivity.
  - cbn [fold_left]. unfold addArgs at 2.
    destruct (String.eqb_spec (prefix +:+ x) "") as [He|_].
    { destruct prefix; [congruence|discriminate]. }
    cbn [negb]. rewrite append_assoc.
    rewrite IH, Join_snoc_pair. reflexivity.
Qed.

(** [addArgs] over a list of arguments, from the empty string: the first
    argument is put behind ["/?"], each further one behind ['&'], in the
    order given; so the arguments are never empty once one is added. *)
Theorem addArgs_joins_arguments (first : string) (rest : list string) :
  fold_left addArgs (first :: rest) "" = "/?" +:+ Join (first :: rest) "&"
  /\ fold_left addArgs (first :: rest) "" <> "".
Proof.
  assert (fold_left addArgs (first :: rest) "" = "/?" +:+ Join (first :: rest) "&")
    as Heq.
  { cbn [fold_left]. change (addArgs "" first) with ("/?" +:+ first).
    apply fold_addArgs. discriminate. }
  split; [exact Heq|]. rewrite Heq. discriminate.
Qed.

(* ================================================================== *)
(** * More on the connection resolver *)
(* ================================================================== *)

Section ConfigureMore.
Context `{!Libraries}.
Variable mongo_Connect : ClientOptions -> Client + error.
Variable resolve : string -> result Dialer.

Import mongodbProvider.

Local Abbreviation configure req :=
  (exec (Configure mongo_Connect resolve req) fresh).

(** How [Configure] ends, for every request.  Either the response holds
    an error and no client, or no diagnostic was added and
    [DataSourceData] and [ResourceData] hold the one client that the
    last step, the connection attempt, returned.  The steps come in the
    order proxy dialer, TLS configuration, connection, each at most
    once: there is no second connection attempt. *)
Theorem configure_outcome (req : Decoded mongodbProviderModel) :
  let out := configure req in
  let config := target req in
  DataSourceData out = ResourceData out
  /\ ((ResourceData out = None /\ HasError (Diagnostics_of out) = true)
      \/ (exists client opts,
            ResourceData out = Some client
            /\ mongo_Connect opts = inl client
            /\ last (steps out) = Some (StepConnect opts)
            /\ Diagnostics_of out = Append [] (decode_diags req)
            /\ HasError (Diagnostics_of out) = false))
  /\ (steps out = []
      \/ exists tls conn,
           steps out = StepProxyDialer (ValueString (Proxy config)) :: tls ++ conn
           /\ (tls = []
               \/ tls = [StepTLSConfig (ValueString (Certificate config))
                                       (ValueBool (InsecureSkipVerify config))])
           /\ (conn = [] \/ exists opts, conn = [StepConnect opts]))
  /\ length (List.filter is_connect (steps out)) <= 1.
Proof.
  cbv zeta.
  destruct (HasError (decode_diags req)) eqn:Hd.
  { rewrite (Configure_decode_error _ _ _ Hd). cbn -[Append HasError].
    rewrite HasError_Append_nil, Hd. repeat split; auto. }
  destruct (String.eqb_spec (ValueString (Url (target req))) "") as [Hu|Hu];
    destruct (String.eqb_spec (ValueString (Host (target req))) "") as [Hh|Hh].
  { rewrite (Configure_missing _ _ _ Hd Hu Hh). cbn -[Append HasError].
    rewrite HasError_Append_error by reflexivity. repeat split; auto. }
  3:{ rewrite (Configure_conflicting _ _ _ Hd Hu Hh). cbn -[Append HasError].
      rewrite HasError_Append_error by reflexivity. repeat split; auto. }
  all: assert (one_of_host_and_url (target req)) as Hone
      by (unfold one_of_host_and_url; tauto).
  all: destruct (resolve (ValueString (Proxy (target req))))
         as [dialer [err|]] eqn:Hr.
  1,3: rewrite (Configure_proxy_error _ _ _ _ _ Hd Hone Hr); cbn -[Append HasError];
       rewrite HasError_Append_error by reflexivity;
       (split; [reflexivity|]); (split; [left; auto|]);
       (split; [right; exists [], []; auto|]); lia.
  all: destruct (String.eqb_spec (ValueString (Certificate (target req))) "")
         as [Hc|Hc].
  1,3: rewrite (Configure_without_certificate _ _ _ _ Hd Hone Hr Hc);
       destruct (mongo_Connect _) as [client|err] eqn:Hconn; cbn -[Append HasError];
       [ rewrite HasError_Append_nil, Hd;
         (split; [reflexivity|]);
         (split; [right; exists client; eexists; (split; [reflexivity|]);
                  (split; [exact Hconn|]); (split; [reflexivity|]); split; reflexivity|]);
         (split; [right; exists [], [StepConnect
                    (clientOptions (target req) (connectionURI (target req)) dialer)];
                  repeat split; eauto|]); lia
       | rewrite HasError_Append_error by reflexivity;
         (split; [reflexivity|]); (split; [left; auto|]);
         (split; [right; exists [], [StepConnect
                    (clientOptions (target req) (connectionURI (target req)) dialer)];
                  repeat split; eauto|]); lia ].
  all: rewrite (Configure_with_certificate _ _ _ _ Hd Hone Hr Hc);
       destruct (Nat.eqb _ 0);
       [ cbn -[Append HasError]; rewrite HasError_Append_error by reflexivity;
         (split; [reflexivity|]); (split; [left; auto|]);
         (split; [right; eexists [_], []; repeat split; auto|]); lia
       | destruct (mongo_Connect _) as [client|err] eqn:Hconn; cbn -[Append HasError];
         [ rewrite HasError_Append_nil, Hd;
           (split; [reflexivity|]);
           (split; [right; exists client; eexists; (split; [reflexivity|]);
                  (split; [exact Hconn|]); (split; [reflexivity|]); split; reflexivity|]);
           (split; [right; eexists [_], [_]; repeat split; eauto|]); lia
         | rewrite HasError_Append_error by reflexivity;
           (split; [reflexivity|]); (split; [left; auto|]);
           (split; [right; eexists [_], [_]; repeat split; eauto|]); lia ] ].
Qed.

Lemma connectionURI_url (config : mongodbProviderModel) :
  ValueString (Url config) <> "" -> connectionURI config = ValueString (Url config).
Proof.
  intros Hu. unfold connectionURI. apply String.eqb_neq in Hu. rewrite Hu. reflexivity.
Qed.

(** With a [url], the URI is the [url] as it is, and [port],
    [replica_set], [ssl], [direct] and [retrywrites] are not read:
    whatever they hold, [Configure] does the same. *)
Theorem configure_with_url_ignores_host_arguments
  (req : Decoded mongodbProviderModel)
  (port replica_set : types_String) (ssl direct retrywrites : types_Bool) :
  ValueString (Url (target req)) <> "" ->
  connectionURI (target req) = ValueString (Url (target req))
  /\ configure (mkDecoded
                  (with_host_arguments port replica_set ssl direct retrywrites
                                       (target req))
                  (decode_diags req))
     = configure req.
Proof.
  intros Hu. split; [exact (connectionURI_url _ Hu)|].
  unfold Configure, step, set_client. munfold. msimpl.
  rewrite (connectionURI_url (target req) Hu).
  rewrite (connectionURI_url
             (with_host_arguments port replica_set ssl direct retrywrites (target req)))
    by exact Hu.
  reflexivity.
Qed.

Lemma configure_connection_attempt_pre (req : Decoded mongodbProviderModel)
  (opts : ClientOptions) :
  In (StepConnect opts) (steps (configure req)) ->
  HasError (decode_diags req) = false
  /\ one_of_host_and_url (target req)
  /\ snd (resolve (ValueString (Proxy (target req)))) = None
  /\ (ValueString (Certificate (target req)) <> "" ->
      AppendCertsFromPEM (ValueString (Certificate (target req))) <> []).
Proof.
  intros Hin.
  destruct (HasError (decode_diags req)) eqn:Hd.
  { rewrite (proj1 (Configure_stops_early _ _ req (or_introl Hd))) in Hin.
    destruct Hin. }
  destruct (one_of_host_and_url_dec (target req)) as [Hone|Hone].
  2:{ rewrite (proj1 (Configure_stops_early _ _ req (or_intror Hone))) in Hin.
      destruct Hin. }
  destruct (resolve (ValueString (Proxy (target req)))) as [dialer [err|]] eqn:Hr.
  { rewrite (Configure_proxy_error _ _ _ _ _ Hd Hone Hr) in Hin.
    destruct Hin as [Hin|[]]. discriminate. }
  split; [reflexivity|]. split; [exact Hone|]. split; [reflexivity|].
  intros Hc Hnil.
  rewrite (Configure_with_certificate _ _ _ _ Hd Hone Hr Hc), Hnil in Hin.
  cbn in Hin. destruct Hin as [Hin|[Hin|[]]]; discriminate.
Qed.

(** What a connection attempt of [Configure] implies and carries.  It is
    made only when the conversion gave no error, exactly one of [url] and
    [host] is set, [proxyDialer] returned no error and, with a
    certificate, some certificate was parsed from it.  Its options carry
    the credential made of [auth_database], [username] and [password] as
    they are (empty ones too, and also next to a [url]), server API
    version 1, the dialer [proxyDialer] returned, and with a [url] that
    URL as the URI. *)
Theorem configure_connection_attempt (req : Decoded mongodbProviderModel)
  (opts : ClientOptions) :
  In (StepConnect opts) (steps (configure req)) ->
  let config := target req in
  (HasError (decode_diags req) = false
   /\ one_of_host_and_url config
   /\ snd (resolve (ValueString (Proxy config))) = None
   /\ (ValueString (Certificate config) <> "" ->
       AppendCertsFromPEM (ValueString (Certificate config)) <> []))
  /\ opt_Auth opts
     = mkCredential (ValueString (AuthDatabase config))
                    (ValueString (Username config))
                    (ValueString (Password config))
  /\ opt_ServerAPIVersion opts = "1"
  /\ opt_Dialer opts = fst (resolve (ValueString (Proxy config)))
  /\ (ValueString (Url config) <> "" -> opt_URI opts = ValueString (Url config)).
Proof.
  intros Hin. cbv zeta. split.
  - exact (configure_connection_attempt_pre req opts Hin).
  - rewrite (Configure_connect_step _ _ _ _ Hin).
    destruct (String.eqb _ ""); cbn; repeat split;
      intros Hu; apply connectionURI_url; exact Hu.
Qed.

(** A certificate from which no certificate can be parsed.  The TLS
    helper returns its error next to the configuration it had begun, and
    [Configure] adds the error ["Unable to read certificate"] and returns:
    the dialer was resolved, but no connection is attempted and no client
    set. *)
Theorem configure_unreadable_certificate (req : Decoded mongodbProviderModel)
  (dialer : option Dialer) :
  HasError (decode_diags req) = false ->
  one_of_host_and_url (target req) ->
  resolve (ValueString (Proxy (target req))) = (dialer, None) ->
  ValueString (Certificate (target req)) <> "" ->
  AppendCertsFromPEM (ValueString (Certificate (target req))) = [] ->
  let config := target req in
  let ca := ValueString (Certificate config) in
  let verify := ValueBool (InsecureSkipVerify config) in
  getTLSConfigWithAllServerCertificates ca verify
  = (Some (mkTLSConfig verify []), Some "Failed parsing pem file")
  /\ configure req
     = mkResponse
         (Append (Append [] (decode_diags req))
                 [certificate_error "Failed parsing pem file"])
         None None
         [StepProxyDialer (ValueString (Proxy config)); StepTLSConfig ca verify]
  /\ HasError (Diagnostics_of (configure req)) = true.
Proof.
  intros Hd Hone Hr Hc Hnil. cbv zeta.
  assert (configure req
          = mkResponse
              (Append (Append [] (decode_diags req))
                      [certificate_error "Failed parsing pem file"])
              None None
              [StepProxyDialer (ValueString (Proxy (target req)));
               StepTLSConfig (ValueString (Certificate (target req)))
                             (ValueBool (InsecureSkipVerify (target req)))]) as Hout.
  { rewrite (Configure_with_certificate _ _ _ _ Hd Hone Hr Hc), Hnil. reflexivity. }
  split; [|split; [exact Hout|]].
  - unfold getTLSConfigWithAllServerCertificates. rewrite Hnil. reflexivity.
  - rewrite Hout. apply HasError_Append_error. reflexivity.
Qed.

(** A failed connection attempt.  When [mongo.Connect] returns an error
    for the options [Configure] built, the response holds the error
    ["Unable to Create MongoDB Client"] carrying it, and no client. *)
Theorem configure_connection_failure (req : Decoded mongodbProviderModel)
  (opts : ClientOptions) (err : error) :
  In (StepConnect opts) (steps (configure req)) ->
  mongo_Connect opts = inr err ->
  Diagnostics_of (configure req)
  = Append (Append [] (decode_diags req)) [client_error err]
  /\ HasError (Diagnostics_of (configure req)) = true
  /\ DataSourceData (configure req) = None
  /\ ResourceData (configure req) = None.
Proof.
  intros Hin Hconn.
  destruct (configure_connection_attempt_pre req opts Hin) as (Hd & Hone & Hr & Hcert).
  pose proof (Configure_connect_step _ _ _ _ Hin) as Hopts. cbv zeta in Hopts.
  destruct (resolve (ValueString (Proxy (target req)))) as [dialer derr] eqn:Hres.
  simpl in Hr, Hopts. subst derr.
  destruct (String.eqb_spec (ValueString (Certificate (target req))) "") as [Hc|Hc].
  - rewrite (Configure_without_certificate _ _ _ _ Hd Hone Hres Hc).
    rewrite <- Hopts, Hconn. cbn -[Append HasError].
    repeat split. apply HasError_Append_error. reflexivity.
  - rewrite (Configure_with_certificate _ _ _ _ Hd Hone Hres Hc).
    specialize (Hcert Hc).
    destruct (AppendCertsFromPEM (ValueString (Certificate (target req))))
      as [|c cs] eqn:Hpem; [congruence|].
    cbn [length Nat.eqb]. rewrite <- Hopts, Hconn. cbn -[Append HasError].
    repeat split. apply HasError_Append_error. reflexivity.
Qed.
End ConfigureMore.

(* ================================================================== *)
(** * The TLS helper with a client certificate *)
(* ================================================================== *)

Section ClientCertificateFacts.
Context `{!Libraries} `{!ClientCertificates.KeyPairs}.

Import ClientCertificates.

Lemma ltb_length_nonempty (s : string) :
  Nat.ltb 0 (String.length s) = negb (String.eqb s "").
Proof. destruct s; reflexivity. Qed.

(** The TLS helper of the revision with a client certificate.  It returns
    either a configuration or an error, never both.  A CA bundle that is
    not empty and from which no certificate is parsed is an error;
    without a CA bundle the configuration has no pool of its own
    ([RootCAs] stays nil).  The client certificate is loaded only when
    certificate and key are both there, and a failure to load it is the
    helper's error; with only one of the two the configuration has no
    client certificate and the one given is not looked at.  The
    configuration always carries [InsecureSkipVerify] as passed. *)
Theorem tls_config_with_client_certificate
  (caPEM certPEM keyPEM : string) (insecureSkipVerify : bool) :
  let out := getTLSConfigWithAllServerCertificates caPEM certPEM keyPEM
               insecureSkipVerify in
  let roots := AppendCertsFromPEM caPEM in
  ((exists tlsConfig, out = (Some tlsConfig, None))
   \/ (exists err, out = (None, Some err)))
  /\ (caPEM <> "" -> roots = [] ->
      out = (None, Some "failed parsing CA PEM file"))
  /\ (forall tlsConfig, out = (Some tlsConfig, None) ->
      cfg_InsecureSkipVerify tlsConfig = insecureSkipVerify
      /\ cfg_RootCAs tlsConfig = (if String.eqb caPEM "" then None else Some roots)
      /\ (caPEM <> "" -> roots <> [])
      /\ (certPEM = "" \/ keyPEM = "" -> cfg_Certificates tlsConfig = [])
      /\ (certPEM <> "" -> keyPEM <> "" ->
          exists cert, X509KeyPair certPEM keyPEM = inl cert
                       /\ cfg_Certificates tlsConfig = [cert]))
  /\ (forall err, certPEM <> "" -> keyPEM <> "" -> (caPEM = "" \/ roots <> []) ->
      X509KeyPair certPEM keyPEM = inr err -> out = (None, Some err))
  /\ (forall otherKey,
      getTLSConfigWithAllServerCertificates caPEM "" otherKey insecureSkipVerify
      = getTLSConfigWithAllServerCertificates caPEM "" "" insecureSkipVerify)
  /\ (forall otherCert,
      getTLSConfigWithAllServerCertificates caPEM otherCert "" insecureSkipVerify
      = getTLSConfigWithAllServerCertificates caPEM "" "" insecureSkipVerify).
Proof.
  cbv zeta. unfold getTLSConfigWithAllServerCertificates.
  rewrite !ltb_length_nonempty.
  split; [|split; [|split; [|split; [|split]]]].
  - destruct (String.eqb caPEM ""); cbn [negb];
      [|destruct (Nat.eqb (length (AppendCertsFromPEM caPEM)) 0); cbn [negb]];
      try (right; eexists; reflexivity);
      (destruct (negb (String.eqb certPEM "") && negb (String.eqb keyPEM ""));
       [destruct (X509KeyPair certPEM keyPEM)|]);
      try (left; eexists; reflexivity); right; eexists; reflexivity.
  - intros Hca Hroots. apply String.eqb_neq in Hca. rewrite Hca, Hroots. reflexivity.
  - intros tlsConfig.
    destruct (String.eqb_spec caPEM "") as [Hca|Hca]; cbn [negb];
      [|destruct (AppendCertsFromPEM caPEM) as [|c cs] eqn:Hroots;
        cbn [length Nat.eqb negb]; [discriminate|]];
      (destruct (String.eqb_spec certPEM "") as [Hcert|Hcert];
       destruct (String.eqb_spec keyPEM "") as [Hkey|Hkey]; cbn [negb andb];
       [| | |destruct (X509KeyPair certPEM keyPEM) as [cert|err] eqn:Hpair;
             [|discriminate]]);
      intros [= <-]; cbn;
      (split; [reflexivity|]); (split; [reflexivity|]);
      (split; [first [tauto|congruence|intros; discriminate]|]);
      (split;
       [first [ reflexivity | congruence | tauto
              | intros [?|?]; congruence | intros; reflexivity ]
       |first [ tauto | congruence
              | intros; exists cert; split; reflexivity ]]).
  - intros err Hcert Hkey Hca Hpair.
    apply String.eqb_neq in Hcert, Hkey. rewrite Hcert, Hkey, Hpair. cbn [negb andb].
    destruct (String.eqb_spec caPEM "") as [Hc|Hc]; cbn [negb]; [reflexivity|].
    destruct Hca as [Hca|Hca]; [congruence|].
    destruct (AppendCertsFromPEM caPEM); [congruence|]. reflexivity.
  - intros otherKey. cbn [String.eqb negb andb]. reflexivity.
  - intros otherCert. cbn [String.eqb negb andb]. rewrite andb_false_r. reflexivity.
Qed.

End ClientCertificateFacts.

Section TLSRevisions.
Context `{!Libraries} `{!ClientCertificates.KeyPairs}.

(** The two revisions of the TLS helper, on a CA bundle that is not empty
    and without client certificate or key.  They succeed together, and
    then with the same [InsecureSkipVerify] and the same certificates in
    the pool; when no certificate is parsed the earlier one returns the
    configuration it had begun next to its error, the later one nothing
    but its error. *)
Theorem tls_helper_revisions (caPEM : string) (verify : bool) :
  caPEM <> "" ->
  let earlier := getTLSConfigWithAllServerCertificates caPEM verify in
  let later := ClientCertificates.getTLSConfigWithAllServerCertificates caPEM "" "" verify in
  (AppendCertsFromPEM caPEM <> [] ->
     earlier = (Some (mkTLSConfig verify (AppendCertsFromPEM caPEM)), None)
     /\ later = (Some (ClientCertificates.mkTLSConfig verify (Some (AppendCertsFromPEM caPEM)) []), None))
  /\ (AppendCertsFromPEM caPEM = [] ->
     earlier = (Some (mkTLSConfig verify []), Some "Failed parsing pem file")
     /\ later = (None, Some "failed parsing CA PEM file")).
Proof.
  intros Hca. cbv zeta.
  unfold ClientCertificates.getTLSConfigWithAllServerCertificates,
    getTLSConfigWithAllServerCertificates.
  rewrite !ltb_length_nonempty. apply String.eqb_neq in Hca. rewrite Hca.
  cbn [negb String.eqb andb].
  split; intros Hroots.
  - destruct (AppendCertsFromPEM caPEM); [congruence|]. split; reflexivity.
  - rewrite Hroots. split; reflexivity.
Qed.
End TLSRevisions.

(* ================================================================== *)
(** * The collation translator *)
(* ================================================================== *)

Section CollationFacts.
Import collationOptions.

Lemma toMongoCollation_fields (co : collation) :
  toMongoCollation (Some co)
  = Some (mkOptionsCollation (Locale co)
            (default false (CaseLevel co)) (default "" (CaseFirst co))
            (default 0%Z (Strength co)) (default false (NumericOrdering co))
            (default "" (Alternate co)) (default "" (MaxVariable co))
            (default false (Normalization co)) (default false (Backwards co))).
Proof.
  destruct co as [l [?|] [?|] [?|] [?|] [?|] [?|] [?|] [?|]]; reflexivity.
Qed.

Lemma default_unless_zero {A : Type} (zero : A) (is_zero : A -> bool)
  (a b : option A) :
  (forall x, is_zero x = true <-> x = zero) ->
  default zero a = default zero b
  <-> unless_zero is_zero a = unless_zero is_zero b.
Proof.
  intros Hz. unfold unless_zero.
  assert (is_zero zero = true) as Hzero by (apply Hz; reflexivity).
  assert (forall x, is_zero x = false -> x <> zero) as Hnz.
  { intros x Hx ->. congruence. }
  destruct a as [x|], b as [y|]; simpl.
  - destruct (is_zero x) eqn:Hx, (is_zero y) eqn:Hy.
    + apply Hz in Hx, Hy. subst. tauto.
    + apply Hz in Hx. apply Hnz in Hy. split; [congruence|discriminate].
    + apply Hz in Hy. apply Hnz in Hx. split; [congruence|discriminate].
    + split; congruence.
  - destruct (is_zero x) eqn:Hx.
    + apply Hz in Hx. tauto.
    + apply Hnz in Hx. split; [congruence|discriminate].
  - destruct (is_zero y) eqn:Hy.
    + apply Hz in Hy. split; [reflexivity|congruence].
    + apply Hnz in Hy. split; [congruence|discriminate].
  - tauto.
Qed.

Lemma default_bool (a b : option bool) :
  default false a = default false b <-> unless_zero negb a = unless_zero negb b.
Proof. apply default_unless_zero. intros []; simpl; split; congruence. Qed.

Lemma default_string (a b : option string) :
  default "" a = default "" b
  <-> unless_zero (String.eqb "") a = unless_zero (String.eqb "") b.
Proof.
  apply default_unless_zero. intros x. rewrite String.eqb_eq. split; congruence.
Qed.

Lemma default_Z (a b : option Z) :
  default 0%Z a = default 0%Z b
  <-> unless_zero (Z.eqb 0) a = unless_zero (Z.eqb 0) b.
Proof.
  apply default_unless_zero. intros x. rewrite Z.eqb_eq. split; congruence.
Qed.

(** [toMongoCollation] gives nil exactly for a nil collation; for any
    other it copies [Locale] and every optional field that is there.  A
    field that is absent is left at the zero value of
    [options.Collation], so that the result cannot tell it from one set
    to [false], [""] or [0]: two collations translate to the same
    options iff they are equal once such fields are taken for absent. *)
Theorem toMongoCollation_absent_is_zero :
  (forall co, toMongoCollation co = None <-> co = None)
  /\ (forall co res, toMongoCollation (Some co) = Some res ->
        opt_Locale res = Locale co
        /\ (forall v, CaseLevel co = Some v -> opt_CaseLevel res = v)
        /\ (forall v, CaseFirst co = Some v -> opt_CaseFirst res = v)
        /\ (forall v, Strength co = Some v -> opt_Strength res = v)
        /\ (forall v, NumericOrdering co = Some v -> opt_NumericOrdering res = v)
        /\ (forall v, Alternate co = Some v -> opt_Alternate res = v)
        /\ (forall v, MaxVariable co = Some v -> opt_MaxVariable res = v)
        /\ (forall v, Normalization co = Some v -> opt_Normalization res = v)
        /\ (forall v, Backwards co = Some v -> opt_Backwards res = v))
  /\ (forall c1 c2,
        toMongoCollation (Some c1) = toMongoCollation (Some c2)
        <-> without_zeros c1 = without_zeros c2).
Proof.
  split; [|split].
  - intros [co|]; split; intros Heq; try reflexivity; try discriminate Heq.
    all: rewrite toMongoCollation_fields in Heq; discriminate Heq.
  - intros co res. rewrite toMongoCollation_fields. intros [= <-]. cbn.
    repeat split; intros v ->; reflexivity.
  - intros c1 c2. rewrite !toMongoCollation_fields. unfold without_zeros. split.
    + intros [= Hl H1 H2 H3 H4 H5 H6 H7 H8].
      apply default_bool in H1, H4, H7, H8.
      apply default_string in H2, H5, H6. apply default_Z in H3.
      f_equal; first [exact Hl|exact H1|exact H2|exact H3|exact H4
                     |exact H5|exact H6|exact H7|exact H8].
    + intros [= Hl H1 H2 H3 H4 H5 H6 H7 H8].
      apply default_bool in H1, H4, H7, H8.
      apply default_string in H2, H5, H6. apply default_Z in H3.
      do 2 f_equal; first [exact Hl|exact H1|exact H2|exact H3|exact H4
                          |exact H5|exact H6|exact H7|exact H8].
Qed.
End CollationFacts.

(* ================================================================== *)
(** * The resources' [Configure] *)
(* ================================================================== *)

Section ResourceConfigureFacts.
Context `{!Libraries}.
Variable mongo_Connect : ClientOptions -> Client + error.
Variable resolve : string -> result Dialer.

Import resourceConfigure.

(** [Configure] of the two resources.  Without provider data it does
    nothing; with a [*mongo.Client] it stores it and adds no diagnostic;
    with a value of another type it adds the error ["Unexpected Resource
    Configure Type"] naming the type and keeps the client it had.  Handed
    what the provider's [Configure] left in [ResourceData], it never adds
    a diagnostic, and the resource then holds the client the provider
    connected, or none when the provider failed. *)
Theorem resource_configure_stores_client
  (data : ProviderData) (had : option Client)
  (req : Decoded mongodbProvider.mongodbProviderModel) :
  let database := exec (databaseResource_Configure data) (mkConfigured [] had) in
  let collection := exec (collectionResource_Configure data) (mkConfigured [] had) in
  let provided :=
    ProviderData_of
      (mongodbProvider.ResourceData
         (exec (mongodbProvider.Configure mongo_Connect resolve req)
               mongodbProvider.fresh)) in
  database = collection
  /\ database
     = match data with
       | DataNil => mkConfigured [] had
       | DataClient client => mkConfigured [] (Some client)
       | DataOther goType =>
           mkConfigured
             [NewErrorDiagnostic "Unexpected Resource Configure Type"
                (unexpected_type_detail goType)]
             had
       end
  /\ Diagnostics_of (exec (databaseResource_Configure provided) (mkConfigured [] None))
     = []
  /\ client_of (exec (databaseResource_Configure provided) (mkConfigured [] None))
     = mongodbProvider.ResourceData
         (exec (mongodbProvider.Configure mongo_Connect resolve req)
               mongodbProvider.fresh).
Proof.
  cbv zeta. split; [reflexivity|]. split; [destruct data; reflexivity|].
  destruct (mongodbProvider.ResourceData _); split; reflexivity.
Qed.
End ResourceConfigureFacts.

(* ================================================================== *)
(** * More on the resource state machines *)
(* ================================================================== *)

(** Case analysis on what the server answers and on the tests on
    diagnostics and listings. *)
Ltac method_steps :=
  repeat first
    [ progress msimpl
    | progress rewrite ?Append_nil_r, ?HasError_Append_nil
    | match goal with
      | |- context [invoke ?c ?s] => destruct (invoke c s) as [[? [?|]] ?]
      | |- context [if HasError ?d then _ else _] => destruct (HasError d) eqn:?
      | |- context [Nat.eqb (length ?l) 0] =>
          destruct l; cbn [length Nat.eqb]
      end ].

Section ResourceMore.
Context {R : Type} `{!MongoClient R}.

(** Collection Create.  One call on the server: the creation of the
    named collection in the named database, with the validator of the
    plan as it is, or without one when the plan has no validation.  If it
    fails, Create adds the error ["Unable to create collection"] and
    writes no state; else the state is the plan, validation included,
    with [id] set to [<database>.<name>]. *)
Theorem collection_create
  (req : Decoded collectionResource.collectionResourceModel)
  (st : tfState) (r : R) :
  HasError (decode_diags req) = false ->
  let plan := target req in
  let database := collectionResource.Database plan in
  let name := collectionResource.Name plan in
  let validator :=
    match collectionResource.Validation plan with
    | Some v => Some (collectionResource.Validator v)
    | None => None
    end in
  let create := CallCreateCollection database name validator in
  let created := invoke create r in
  let id := collectionIdString database name in
  let new_state :=
    collectionResource.to_state
      (collectionResource.mkModel database name
         (collectionResource.Validation plan) (StringValue id)) in
  let out := exec (collectionResource.Create req) (start st r) in
  (forall err, reply_err (fst created) = Some err ->
     out = mkExec
             (Append (Append [] (decode_diags req))
                [NewErrorDiagnostic "Unable to create collection"
                   (unexpected_detail
                      "An unexpected error occurred when creating collection. " err)])
             st (snd created) [Remote create (fst created)]
     /\ HasError (Diagnostics_of out) = true)
  /\ (reply_err (fst created) = None ->
      out = mkExec (Append [] (decode_diags req)) new_state (snd created)
                   [Remote create (fst created); StateSet new_state]
      /\ State out !! "id" = Some (AString id)
      /\ State out !! "database" = Some (AString database)
      /\ State out !! "name" = Some (AString name)
      /\ State out !! "validation"
         = match validator with
           | Some v => Some (AObject [("validator", v)])
           | None => None
           end).
Proof.
  intros Hd plan database name validator create created id new_state out.
  subst out. unfold collectionResource.Create. resource_unfold.
  rewrite HasError_Append_nil, Hd. msimpl.
  fold plan database name validator create. fold created.
  destruct created as [[names err0] r1] eqn:Hc. msimpl.
  split.
  - intros err ->. msimpl. split; [reflexivity|].
    apply HasError_Append_error. reflexivity.
  - intros ->. msimpl. rewrite ?Append_nil_r, ?HasError_Append_nil, ?Hd. msimpl.
    fold plan database name id. fold new_state.
    split; [reflexivity|].
    subst new_state validator. unfold collectionResource.to_state. simpl.
    destruct (collectionResource.Validation plan) as [v|]; simpl.
    + rewrite lookup_insert_eq.
      rewrite !(lookup_insert_ne _ "id") by discriminate.
      rewrite lookup_insert_eq.
      rewrite !(lookup_insert_ne _ "validation") by discriminate.
      rewrite (lookup_insert_ne _ "name" "database") by discriminate.
      rewrite !lookup_insert_eq. auto.
    + rewrite lookup_insert_eq.
      rewrite !(lookup_insert_ne _ "id") by discriminate.
      rewrite lookup_delete_eq.
      rewrite !lookup_delete_ne by discriminate.
      rewrite (lookup_insert_ne _ "name" "database") by discriminate.
      rewrite !lookup_insert_eq. auto.
Qed.

(** Database Read.  One call on the server, the listing of the database
    names filtered by the name of the state, and no other.  A failed
    listing adds the error ["Unable to list databases"], an empty one
    the error ["Database not found"]; in both cases the state stays as
    it was.  Any listing that is not empty counts as found, whatever
    names it holds: the state is then set to the name with [id] equal to
    it. *)
Theorem database_read
  (req : Decoded databaseResource.databaseResourceModel) (st : tfState) (r : R) :
  HasError (decode_diags req) = false ->
  let name := databaseResource.Name (target req) in
  let list := CallListDatabaseNames name in
  let listed := invoke list r in
  let new_state :=
    databaseResource.to_state (databaseResource.mkModel name (StringValue name)) in
  let out := exec (databaseResource.Read req) (start st r) in
  forallb (fun e => is_listing e || writes_state e) (trace out) = true
  /\ (forall err, reply_err (fst listed) = Some err ->
      out = mkExec
              (Append (Append [] (decode_diags req))
                 [NewErrorDiagnostic "Unable to list databases"
                    (unexpected_detail
                       "An unexpected error occurred when listing databases. " err)])
              st (snd listed) [Remote list (fst listed)])
  /\ (reply_err (fst listed) = None -> reply_names (fst listed) = [] ->
      out = mkExec
              (Append (Append [] (decode_diags req))
                 [NewErrorDiagnostic "Database not found"
                    ("Database " +:+ name +:+ " does not exist")])
              st (snd listed) [Remote list (fst listed)])
  /\ (reply_err (fst listed) = None -> reply_names (fst listed) <> [] ->
      out = mkExec (Append [] (decode_diags req)) new_state (snd listed)
                   [Remote list (fst listed); StateSet new_state]
      /\ State out !! "id" = Some (AString name)).
Proof.
  intros Hd name list listed new_state out.
  subst out. unfold databaseResource.Read. resource_unfold.
  rewrite HasError_Append_nil, Hd. msimpl.
  fold name list. fold listed.
  destruct listed as [[names [err0|]] r1] eqn:Hl; msimpl.
  - split; [reflexivity|]. split; [intros err [= ->]; reflexivity|].
    split; discriminate.
  - destruct names as [|n names]; cbn [length Nat.eqb]; msimpl.
    + split; [reflexivity|]. split; [discriminate|].
      split; [reflexivity|]. intros _ Hne. congruence.
    + rewrite ?Append_nil_r, ?HasError_Append_nil, ?Hd. msimpl.
      split; [reflexivity|]. split; [discriminate|].
      split; [discriminate|]. intros _ _. split; [reflexivity|].
      apply lookup_insert_eq.
Qed.

(** Collection Read.  One call on the server, the listing of the
    collection names of the database filtered by the name of the state,
    and no other.  A failed listing adds the error ["Unable to list
    collections"], an empty one the error ["Collection not found"], and
    the state stays as it was; any listing that is not empty counts as
    found, and the state is set to the state read, validation included,
    with [id] set to [<database>.<name>]. *)
Theorem collection_read
  (req : Decoded collectionResource.collectionResourceModel)
  (st : tfState) (r : R) :
  HasError (decode_diags req) = false ->
  let state := target req in
  let database := collectionResource.Database state in
  let name := collectionResource.Name state in
  let list := CallListCollectionNames database name in
  let listed := invoke list r in
  let id := collectionIdString database name in
  let new_state :=
    collectionResource.to_state
      (collectionResource.mkModel database name
         (collectionResource.Validation state) (StringValue id)) in
  let out := exec (collectionResource.Read req) (start st r) in
  forallb (fun e => is_listing e || writes_state e) (trace out) = true
  /\ (forall err, reply_err (fst listed) = Some err ->
      out = mkExec
              (Append (Append [] (decode_diags req))
                 [NewErrorDiagnostic "Unable to list collections"
                    (unexpected_detail
                       "An unexpected error occurred when listing collections. " err)])
              st (snd listed) [Remote list (fst listed)])
  /\ (reply_err (fst listed) = None -> reply_names (fst listed) = [] ->
      out = mkExec
              (Append (Append [] (decode_diags req))
                 [NewErrorDiagnostic "Collection not found"
                    ("Collection " +:+ id +:+ " does not exist")])
              st (snd listed) [Remote list (fst listed)])
  /\ (reply_err (fst listed) = None -> reply_names (fst listed) <> [] ->
      out = mkExec (Append [] (decode_diags req)) new_state (snd listed)
                   [Remote list (fst listed); StateSet new_state]
      /\ State out !! "id" = Some (AString id)).
Proof.
  intros Hd state database name list listed id new_state out.
  subst out. unfold collectionResource.Read. resource_unfold.
  rewrite HasError_Append_nil, Hd. msimpl.
  fold state database name list. fold listed.
  destruct listed as [[names [err0|]] r1] eqn:Hl; msimpl.
  - split; [reflexivity|]. split; [intros err [= ->]; reflexivity|].
    split; discriminate.
  - destruct names as [|n names]; cbn [length Nat.eqb]; msimpl.
    + split; [reflexivity|]. split; [discriminate|].
      split; [reflexivity|]. intros _ Hne. congruence.
    + rewrite ?Append_nil_r, ?HasError_Append_nil, ?Hd. msimpl.
      split; [reflexivity|]. split; [discriminate|].
      split; [discriminate|]. intros _ _. split; [reflexivity|].
      apply lookup_insert_eq.
Qed.

(** Database Delete.  One call on the server, the drop of the named
    database, whose answer alone decides: an error is reported as
    ["Unable to drop database"]; no error, no diagnostic.  Delete makes
    no test of its own that the database is there, and never writes the
    state. *)
Theorem database_delete
  (req : Decoded databaseResource.databaseResourceModel) (st : tfState) (r : R) :
  HasError (decode_diags req) = false ->
  let drop := CallDropDatabase (databaseResource.Name (target req)) in
  let dropped := invoke drop r in
  let out := exec (databaseResource.Delete req) (start st r) in
  trace out = [Remote drop (fst dropped)]
  /\ server out = snd dropped
  /\ State out = st
  /\ Diagnostics_of out
     = match reply_err (fst dropped) with
       | Some err =>
           Append (Append [] (decode_diags req))
             [NewErrorDiagnostic "Unable to drop database"
                (unexpected_detail
                   "An unexpected error occurred when dropping database. " err)]
       | None => Append [] (decode_diags req)
       end
  /\ (HasError (Diagnostics_of out) = true <-> reply_err (fst dropped) <> None).
Proof.
  intros Hd drop dropped out.
  subst out. unfold databaseResource.Delete. resource_unfold.
  rewrite HasError_Append_nil, Hd. msimpl. fold drop. fold dropped.
  destruct dropped as [[names [err0|]] r1]; msimpl; repeat split; try congruence.
  - intros _. apply HasError_Append_error. reflexivity.
  - rewrite HasError_Append_nil, Hd. discriminate.
Qed.

(** Collection Delete.  One call on the server, the drop of the named
    collection of the named database (not of the database), whose answer
    alone decides: an error is reported as ["Unable to drop
    collection"]; no error, no diagnostic.  Delete never writes the
    state. *)
Theorem collection_delete
  (req : Decoded collectionResource.collectionResourceModel)
  (st : tfState) (r : R) :
  HasError (decode_diags req) = false ->
  let drop :=
    CallDropCollection (collectionResource.Database (target req))
                       (collectionResource.Name (target req)) in
  let dropped := invoke drop r in
  let out := exec (collectionResource.Delete req) (start st r) in
  trace out = [Remote drop (fst dropped)]
  /\ server out = snd dropped
  /\ State out = st
  /\ Diagnostics_of out
     = match reply_err (fst dropped) with
       | Some err =>
           Append (Append [] (decode_diags req))
             [NewErrorDiagnostic "Unable to drop collection"
                (unexpected_detail
                   "An unexpected error occurred when dropping collection. " err)]
       | None => Append [] (decode_diags req)
       end
  /\ (HasError (Diagnostics_of out) = true <-> reply_err (fst dropped) <> None).
Proof.
  intros Hd drop dropped out.
  subst out. unfold collectionResource.Delete. resource_unfold.
  rewrite HasError_Append_nil, Hd. msimpl. fold drop. fold dropped.
  destruct dropped as [[names [err0|]] r1]; msimpl; repeat split; try congruence.
  - intros _. apply HasError_Append_error. reflexivity.
  - rewrite HasError_Append_nil, Hd. discriminate.
Qed.
End ResourceMore.

(* ================================================================== *)
(** * Create, Read and ImportState composed *)
(* ================================================================== *)

Section ResourceComposition.
Context {R : Type} `{!MongoClient R}.

(** Refresh after create.  When Create of a plan and Read of a state
    with the same database, name and validation both end without error,
    they have written the same state, whatever the [id] of the two
    requests, the states the two started from and the servers they ran
    against: Read computes [id] again from the names.  The same for a
    database and its name. *)
Theorem refresh_reproduces_created_state :
  (forall (plan state : Decoded collectionResource.collectionResourceModel)
          (st1 st2 : tfState) (r1 r2 : R),
     collectionResource.Database (target state)
       = collectionResource.Database (target plan) ->
     collectionResource.Name (target state)
       = collectionResource.Name (target plan) ->
     collectionResource.Validation (target state)
       = collectionResource.Validation (target plan) ->
     let created := exec (collectionResource.Create plan) (start st1 r1) in
     let read := exec (collectionResource.Read state) (start st2 r2) in
     HasError (Diagnostics_of created) = false ->
     HasError (Diagnostics_of read) = false ->
     State read = State created)
  /\ (forall (plan state : Decoded databaseResource.databaseResourceModel)
          (st1 st2 : tfState) (r1 r2 : R),
     databaseResource.Name (target state) = databaseResource.Name (target plan) ->
     let created := exec (databaseResource.Create plan) (start st1 r1) in
     let read := exec (databaseResource.Read state) (start st2 r2) in
     HasError (Diagnostics_of created) = false ->
     HasError (Diagnostics_of read) = false ->
     State read = State created).
Proof.
  split.
  - intros plan state st1 st2 r1 r2 Hdb Hname Hval created read.
    subst created read.
    unfold collectionResource.Create, collectionResource.Read. resource_unfold.
    rewrite Hdb, Hname, Hval.
    method_steps; intros Hc Hr;
      try (rewrite HasError_Append_error in Hc by reflexivity; discriminate);
      try (rewrite HasError_Append_error in Hr by reflexivity; discriminate);
      try congruence; reflexivity.
  - intros plan state st1 st2 r1 r2 Hname created read.
    subst created read.
    unfold databaseResource.Create, databaseResource.Read. resource_unfold.
    rewrite Hname.
    method_steps; intros Hc Hr;
      try (rewrite HasError_Append_error in Hc by reflexivity; discriminate);
      try (rewrite HasError_Append_error in Hr by reflexivity; discriminate);
      try congruence; reflexivity.
Qed.

(** Import of what Create made.  Take the [id] that a Create of a
    collection without error has stored.  ImportState of that [id] gives,
    when neither name holds a dot, the [database] and the [name] Create
    stored and nothing else ([validation] and [id] are not restored);
    when one of the names holds a dot it fails with the error of a
    malformed identifier and writes nothing: such a collection can be
    created and cannot be imported. *)
Theorem import_of_created_collection
  (plan : Decoded collectionResource.collectionResourceModel)
  (st : tfState) (r r' : R) (id : string) :
  let created := exec (collectionResource.Create plan) (start st r) in
  let imported :=
    exec (collectionResource.ImportState (mkImportStateRequest id)) (start ∅ r') in
  HasError (Diagnostics_of created) = false ->
  State created !! "id" = Some (AString id) ->
  if contains_byte dot (collectionResource.Database (target plan))
     || contains_byte dot (collectionResource.Name (target plan))
  then Diagnostics_of imported
         = [collectionResource.invalid_id_error (err_collection_id id)]
       /\ State imported = ∅ /\ trace imported = []
  else Diagnostics_of imported = []
       /\ State imported !! "database" = State created !! "database"
       /\ State imported !! "name" = State created !! "name"
       /\ dom (State imported) = ({["database"; "name"]} : gset string)
       /\ server imported = r'.
Proof.
  intros created imported Hc Hid.
  assert (id = collectionIdString (collectionResource.Database (target plan))
                                  (collectionResource.Name (target plan))
          /\ State created !! "database"
             = Some (AString (collectionResource.Database (target plan)))
          /\ State created !! "name"
             = Some (AString (collectionResource.Name (target plan))))
    as (-> & Hdb & Hname).
  { subst created. revert Hc Hid. clear imported.
    unfold collectionResource.Create. resource_unfold.
    method_steps; intros Hc Hid;
      try (rewrite HasError_Append_error in Hc by reflexivity; discriminate);
      try congruence.
    unfold collectionResource.to_state in *. simpl in *.
    rewrite lookup_insert_eq in Hid. injection Hid as <-.
    split; [reflexivity|].
    rewrite !(lookup_insert_ne _ "id") by discriminate.
    destruct (collectionResource.Validation (target plan)); simpl;
      rewrite ?(lookup_insert_ne _ "validation") by discriminate;
      rewrite ?lookup_delete_ne by discriminate;
      rewrite (lookup_insert_ne _ "name" "database") by discriminate;
      rewrite !lookup_insert_eq; split; reflexivity. }
  rewrite Hdb, Hname. subst imported. clear Hc Hid Hdb Hname created.
  set (database := collectionResource.Database (target plan)).
  set (name := collectionResource.Name (target plan)).
  destruct (contains_byte dot database) eqn:Hd; simpl.
  - rewrite collection_import_malformed; [repeat split|].
    rewrite length_Split. unfold collectionIdString.
    rewrite !count_byte_app. simpl.
    assert (count_byte dot database <> 0%nat)
      by (intros H0; apply contains_byte_count in H0; congruence).
    lia.
  - destruct (contains_byte dot name) eqn:Hn.
    + rewrite collection_import_malformed; [repeat split|].
      rewrite length_Split. unfold collectionIdString.
      rewrite !count_byte_app. simpl.
      assert (count_byte dot name <> 0%nat)
        by (intros H0; apply contains_byte_count in H0; congruence).
      lia.
    + rewrite (collection_import_two database name);
        [|unfold collectionIdString; apply Split_two; assumption].
      simpl. split; [reflexivity|].
      rewrite lookup_insert_ne by discriminate.
      rewrite !lookup_insert_eq. split; [reflexivity|]. split; [reflexivity|].
      split; [|reflexivity].
      rewrite !dom_insert_L, dom_empty_L. set_solver.
Qed.
End ResourceComposition.

(* ================================================================== *)
(** * All methods of the two resources, and their schemas *)
(* ================================================================== *)

Ltac unfold_methods :=
  unfold call_method,
    databaseResource.Create, databaseResource.Read, databaseResource.Update,
    databaseResource.Delete, databaseResource.ImportState,
    collectionResource.Create, collectionResource.Read, collectionResource.Update,
    collectionResource.Delete, collectionResource.ImportState, parseCollectionId.

Lemma database_state_keys (m : databaseResource.databaseResourceModel) name :
  is_Some (databaseResource.to_state m !! name) -> name = "id" \/ name = "name".
Proof.
  unfold databaseResource.to_state, put.
  destruct (attr_of_String (databaseResource.Id m));
    rewrite ?lookup_insert_is_Some, ?lookup_delete_is_Some,
      ?lookup_insert_is_Some;
    pose proof (lookup_empty_is_Some (M := gmap string) (A := attrValue) name);
    intuition.
Qed.

Lemma collection_state_keys (m : collectionResource.collectionResourceModel) name :
  is_Some (collectionResource.to_state m !! name) ->
  name = "id" \/ name = "validation" \/ name = "name" \/ name = "database".
Proof.
  unfold collectionResource.to_state, put.
  destruct (attr_of_String (collectionResource.Id m));
    destruct (collectionResource.attr_of_validation
                (collectionResource.Validation m));
    rewrite ?lookup_insert_is_Some, ?lookup_delete_is_Some,
      ?lookup_insert_is_Some, ?lookup_delete_is_Some,
      ?lookup_insert_is_Some;
    pose proof (lookup_empty_is_Some (M := gmap string) (A := attrValue) name);
    intuition.
Qed.

Lemma database_state_within_schema (m : databaseResource.databaseResourceModel) :
  written (StateSet (databaseResource.to_state m))
  ⊆ dom resourceSchema.databaseResource_Schema.
Proof.
  intros name Hname. cbn [written] in Hname.
  apply elem_of_dom in Hname. apply elem_of_dom.
  destruct (database_state_keys _ _ Hname) as [->| ->]; eexists; reflexivity.
Qed.

Lemma collection_state_within_schema
  (m : collectionResource.collectionResourceModel) :
  written (StateSet (collectionResource.to_state m))
  ⊆ dom resourceSchema.collectionResource_Schema.
Proof.
  intros name Hname. cbn [written] in Hname.
  apply elem_of_dom in Hname. apply elem_of_dom.
  destruct (collection_state_keys _ _ Hname) as [->|[->|[->| ->]]];
    eexists; reflexivity.
Qed.

Lemma lookup_put_ne tag v (st : tfState) name :
  tag <> name -> put tag v st !! name = st !! name.
Proof.
  intros Hne. destruct v; simpl;
    [apply lookup_insert_ne|apply lookup_delete_ne]; exact Hne.
Qed.

Lemma database_state_required (m : databaseResource.databaseResourceModel) name a :
  resourceSchema.databaseResource_Schema !! name = Some a ->
  resourceSchema.Required (resourceSchema.flags_of a) = true ->
  is_Some (databaseResource.to_state m !! name).
Proof.
  unfold resourceSchema.databaseResource_Schema. intros Ha Hreq.
  repeat (apply lookup_insert_Some in Ha; destruct Ha as [[<- <-]|[_ Ha]]);
    try discriminate; try (rewrite lookup_empty in Ha; discriminate).
  unfold databaseResource.to_state.
  rewrite lookup_put_ne by discriminate.
  rewrite lookup_insert_eq. eexists; reflexivity.
Qed.

Lemma collection_state_required
  (m : collectionResource.collectionResourceModel) name a :
  resourceSchema.collectionResource_Schema !! name = Some a ->
  resourceSchema.Required (resourceSchema.flags_of a) = true ->
  is_Some (collectionResource.to_state m !! name).
Proof.
  unfold resourceSchema.collectionResource_Schema. intros Ha Hreq.
  repeat (apply lookup_insert_Some in Ha; destruct Ha as [[<- <-]|[_ Ha]]);
    try discriminate; try (rewrite lookup_empty in Ha; discriminate);
    unfold collectionResource.to_state;
    rewrite !lookup_put_ne by discriminate;
    rewrite ?(lookup_insert_ne _ "name" "database") by discriminate;
    rewrite lookup_insert_eq; eexists; reflexivity.
Qed.

Section AllMethods.
Context {R : Type} `{!MongoClient R}.

(** The ten methods and the response.  A response that holds an error
    has the state the method started from, and no write to the state was
    made; when the conversion of the request has given an error, the
    method has done nothing at all: no call on the server; and a response
    without error holds the diagnostics of the conversion and no other:
    the methods add errors only, never a warning. *)
Theorem method_error_leaves_state (m : Method) (st : tfState) (r : R) :
  let out := exec (call_method m) (start st r) in
  (HasError (Diagnostics_of out) = true ->
     State out = st /\ existsb writes_state (trace out) = false)
  /\ (HasError (converted m) = true ->
     Diagnostics_of out = Append [] (converted m)
     /\ trace out = [] /\ server out = r)
  /\ (HasError (Diagnostics_of out) = false ->
     Diagnostics_of out = Append [] (converted m)).
Proof.
  intros out. subst out.
  destruct m as [req|req|req|req|req|req|req|req|req|req];
    unfold_methods; unfold converted;
    try destruct (Split (ID req) dot) as [|p0 [|p1 [|p2 rest]]];
    resource_unfold; method_steps;
    (split; [intros He|split; intros He]);
    try (rewrite HasError_Append_error in He by reflexivity);
    try (rewrite ?HasError_Append_nil in He);
    try discriminate; try congruence;
    repeat split; try reflexivity.
Qed.

(** The ten methods and the schema.  Every write a method makes to the
    state names attributes of the schema of its resource only.  A whole
    state written (by Create and Read) holds every required attribute of
    the schema, and its computed [id] is a known string, never left
    unknown. *)
Theorem method_writes_within_schema (m : Method) (st : tfState) (r : R) (e : Event) :
  In e (trace (exec (call_method m) (start st r))) ->
  written e ⊆ dom (schema_of m)
  /\ forall new_state, e = StateSet new_state ->
       (exists id, new_state !! "id" = Some (AString id))
       /\ forall name a, schema_of m !! name = Some a ->
            resourceSchema.Required (resourceSchema.flags_of a) = true ->
            is_Some (new_state !! name).
Proof.
  destruct m as [req|req|req|req|req|req|req|req|req|req];
    unfold_methods;
    try destruct (Split (ID req) dot) as [|p0 [|p1 [|p2 rest]]];
    resource_unfold; method_steps; intros Hin;
    repeat (destruct Hin as [<-|Hin]); try contradiction;
    (split;
      [ first [ apply empty_subseteq
              | apply (database_state_within_schema
                         (databaseResource.mkModel _ (StringValue _)))
              | apply (collection_state_within_schema
                         (collectionResource.mkModel _ _ _ (StringValue _)))
              | cbn [written]; apply singleton_subseteq_l, elem_of_dom;
                eexists; reflexivity ]
      | intros new_state Hnew; try discriminate;
        injection Hnew as <-;
        (split; [eexists; apply lookup_insert_eq|]);
        intros name a Ha Hreq;
        first [ apply (database_state_required
                         (databaseResource.mkModel _ (StringValue _)) _ _ Ha Hreq)
              | apply (collection_state_required
                         (collectionResource.mkModel _ _ _ (StringValue _))
                         _ _ Ha Hreq) ] ]).
Qed.
End AllMethods.

Section SchemaFacts.
Import resourceSchema.

(** In-place updates.  Every attribute of the database schema that the
    configuration can set requires replacement, so no change of the
    configuration is an update in place.  In the collection schema this
    holds of [database] and [name] and not of [validation]: a changed
    [validation] is an update in place, the one request that reaches the
    [Update] of the collection resource.  [id] is computed in both and
    set by the provider only. *)
Theorem schema_in_place_updates (name : string) (a : Attribute) :
  (databaseResource_Schema !! name = Some a ->
     updatable a = false
     /\ (Computed (flags_of a) = true <-> name = "id")
     /\ (Required (flags_of a) = true <-> name = "name"))
  /\ (collectionResource_Schema !! name = Some a ->
     (updatable a = true <-> name = "validation")
     /\ (Computed (flags_of a) = true <-> name = "id")
     /\ (Required (flags_of a) = true <-> name = "database" \/ name = "name")).
Proof.
  unfold databaseResource_Schema, collectionResource_Schema.
  split; intros Ha;
    repeat (apply lookup_insert_Some in Ha;
            destruct Ha as [[<- <-]|[? Ha]]);
    try (rewrite lookup_empty in Ha; discriminate);
    simpl; repeat split; intros; try discriminate; try reflexivity;
    try congruence; try (intuition congruence).
Qed.
End SchemaFacts.

(* ================================================================== *)
(** * The further facts on examples *)
(* ================================================================== *)

(** The identifier of the tests, and one with three segments. *)
Lemma parseCollectionId_by_dots_witness :
  (exists c, parseCollectionId "terraform_test_db.test_collection" = (Some c, None)
     /\ collectionIdString (col_database c) (col_collection c)
        = "terraform_test_db.test_collection"
     /\ contains_byte dot (col_database c) = false
     /\ contains_byte dot (col_collection c) = false)
  /\ parseCollectionId "a.b.c" = (None, Some (err_collection_id "a.b.c")).
Proof.
  split.
  - exact (proj1 (parseCollectionId_by_dots "terraform_test_db.test_collection")
                 eq_refl).
  - refine (proj2 (parseCollectionId_by_dots "a.b.c") _).
    intros H. vm_compute in H. discriminate H.
Defined.

Lemma parseIndexId_by_dots_witness :
  (exists i, parseIndexId "db.coll.name_1" = (Some i, None)
     /\ idx_database i +:+ "." +:+ idx_collection i +:+ "." +:+ idx_indexName i
        = "db.coll.name_1"
     /\ contains_byte dot (idx_database i) = false
     /\ contains_byte dot (idx_collection i) = false
     /\ contains_byte dot (idx_indexName i) = false)
  /\ parseIndexId "db.coll" = (None, Some err_index_id).
Proof.
  split.
  - exact (proj1 (parseIndexId_by_dots "db.coll.name_1") eq_refl).
  - refine (proj2 (parseIndexId_by_dots "db.coll") _).
    intros H. vm_compute in H. discriminate H.
Defined.

(** The collection of the tests, and one in a database [my.db]. *)
Lemma created_identifier_decodes_iff_no_dot_witness :
  parseCollectionId (collectionIdString "terraform_test_db" "test_collection")
  = (Some (mkCollectionId "terraform_test_db" "test_collection"), None)
  /\ parseCollectionId (collectionIdString "my.db" "events")
     = (None, Some (err_collection_id (collectionIdString "my.db" "events"))).
Proof.
  split.
  - exact (proj1 (created_identifier_decodes_iff_no_dot
                    "terraform_test_db" "test_collection")
                 (conj eq_refl eq_refl)).
  - exact (proj2 (created_identifier_decodes_iff_no_dot "my.db" "events")
                 (or_introl eq_refl)).
Defined.

Lemma index_type_there_and_back_witness :
  convertToTfIndexType (convertToMongoIndexType "2dsphere") = ("2dsphere", None)
  /\ convertToTfIndexType (convertToMongoIndexType "desc")
     = ("", Some err_int_or_string).
Proof.
  split.
  - refine (proj1 (index_type_there_and_back "2dsphere") _).
    split; discriminate.
  - exact (proj2 (index_type_there_and_back "desc") (or_intror eq_refl)).
Defined.

Lemma index_type_back_and_there_witness :
  (GoInt32 (-1) = GoString "desc" /\ "desc" <> "asc" /\ "desc" <> "desc"
     /\ convertToMongoIndexType "desc" = GoInt32 (-1))
  \/ ((GoInt32 (-1) = GoInt32 1 \/ GoInt32 (-1) = GoString "asc")
      /\ "desc" = "asc" /\ convertToMongoIndexType "desc" = GoInt 1)
  \/ ((GoInt32 (-1) = GoInt32 (-1) \/ GoInt32 (-1) = GoString "desc")
      /\ "desc" = "desc" /\ convertToMongoIndexType "desc" = GoInt (-1)).
Proof.
  exact (index_type_back_and_there (GoInt32 (-1)) "desc" eq_refl).
Defined.

(** A configuration with a [url], and with other values for the
    attributes of a [host]. *)
Lemma configure_with_url_ignores_host_arguments_witness :
  mongodbProvider.connectionURI Fake.by_url = "mongodb://localhost:27017"
  /\ exec (mongodbProvider.Configure Fake.connect Guarded.proxyDialer
             (mkDecoded
                (with_host_arguments (StringValue "27018") (StringValue "rs0")
                   (BoolValue true) (BoolValue true) (BoolValue false) Fake.by_url)
                []))
          mongodbProvider.fresh
     = exec (mongodbProvider.Configure Fake.connect Guarded.proxyDialer
               (mkDecoded Fake.by_url []))
            mongodbProvider.fresh.
Proof.
  refine (configure_with_url_ignores_host_arguments Fake.connect Guarded.proxyDialer
            (mkDecoded Fake.by_url [])
            (StringValue "27018") (StringValue "rs0")
            (BoolValue true) (BoolValue true) (BoolValue false) _).
  discriminate.
Defined.

(** The connection attempt of the configuration of the tests. *)
Lemma configure_connection_attempt_witness :
  exists opts,
    In (mongodbProvider.StepConnect opts)
       (mongodbProvider.steps
          (exec (mongodbProvider.Configure Fake.connect Guarded.proxyDialer
                   (mkDecoded Fake.by_host []))
                mongodbProvider.fresh))
    /\ opt_Auth opts = mkCredential "" "test" "test"
    /\ opt_ServerAPIVersion opts = "1"
    /\ opt_Dialer opts = None.
Proof.
  lazymatch eval cbv in
    (last (mongodbProvider.steps
             (exec (mongodbProvider.Configure Fake.connect Guarded.proxyDialer
                      (mkDecoded Fake.by_host []))
                   mongodbProvider.fresh)))
  with
  | Some (mongodbProvider.StepConnect ?o) =>
      exists o;
      pose proof (configure_connection_attempt Fake.connect Guarded.proxyDialer
                    (mkDecoded Fake.by_host []) o
                    (or_intror (or_introl eq_refl))) as H
  end.
  destruct H as (_ & Hauth & Hapi & Hdialer & _).
  split; [right; left; reflexivity|].
  split; [exact Hauth|]. split; [exact Hapi|exact Hdialer].
Defined.

(** A certificate that holds no PEM block. *)
Lemma configure_unreadable_certificate_witness :
  HasError
    (mongodbProvider.Diagnostics_of
       (exec (mongodbProvider.Configure Fake.connect Guarded.proxyDialer
                (mkDecoded (Fake.with_certificate "not a certificate" false) []))
             mongodbProvider.fresh))
  = true.
Proof.
  refine (proj2 (proj2
            (configure_unreadable_certificate Fake.connect Guarded.proxyDialer
               (mkDecoded (Fake.with_certificate "not a certificate" false) [])
               None eq_refl _ eq_refl _ eq_refl))).
  - split; [intros _; discriminate|intros _; reflexivity].
  - discriminate.
Defined.

(** The configuration of the tests when no server is reached. *)
Lemma configure_connection_failure_witness :
  mongodbProvider.Diagnostics_of
    (exec (mongodbProvider.Configure FakeTLS.refuse Guarded.proxyDialer
             (mkDecoded Fake.by_host []))
          mongodbProvider.fresh)
  = [mongodbProvider.client_error "server selection timeout"]
  /\ mongodbProvider.ResourceData
       (exec (mongodbProvider.Configure FakeTLS.refuse Guarded.proxyDialer
                (mkDecoded Fake.by_host []))
             mongodbProvider.fresh)
     = None.
Proof.
  lazymatch eval cbv in
    (last (mongodbProvider.steps
             (exec (mongodbProvider.Configure FakeTLS.refuse Guarded.proxyDialer
                      (mkDecoded Fake.by_host []))
                   mongodbProvider.fresh)))
  with
  | Some (mongodbProvider.StepConnect ?o) =>
      pose proof (configure_connection_failure FakeTLS.refuse Guarded.proxyDialer
                    (mkDecoded Fake.by_host []) o "server selection timeout"
                    (or_intror (or_introl eq_refl)) eq_refl) as H
  end.
  destruct H as (Hdiags & _ & _ & Hdata).
  split; [exact Hdiags|exact Hdata].
Defined.

(** A CA bundle from which nothing is parsed, and a client certificate
    next to the bundle of the tests. *)
Lemma tls_config_with_client_certificate_witness :
  ClientCertificates.getTLSConfigWithAllServerCertificates
    "not a certificate" "" "" false
  = (None, Some "failed parsing CA PEM file")
  /\ ClientCertificates.getTLSConfigWithAllServerCertificates
       Fake.pem "client" "other key" true
     = (None, Some "tls: private key does not match public key")
  /\ exists cert,
       ClientCertificates.X509KeyPair "client" "client" = inl cert
       /\ ClientCertificates.cfg_Certificates
            (ClientCertificates.mkTLSConfig true (Some [Fake.pem]) ["client"])
          = [cert].
Proof.
  split; [|split].
  - destruct (tls_config_with_client_certificate "not a certificate" "" "" false)
      as (_ & Hbundle & _).
    refine (Hbundle _ eq_refl). discriminate.
  - destruct (tls_config_with_client_certificate Fake.pem "client" "other key" true)
      as (_ & _ & _ & Hpair & _).
    refine (Hpair "tls: private key does not match public key" _ _ _ eq_refl).
    + discriminate.
    + discriminate.
    + right. discriminate.
  - destruct (tls_config_with_client_certificate Fake.pem "client" "client" true)
      as (_ & _ & Hconfig & _).
    destruct (Hconfig (@ClientCertificates.mkTLSConfig Fake.libraries FakeTLS.key_pairs
                         true (Some [Fake.pem]) ["client"])
                      eq_refl) as (_ & _ & _ & _ & Hcert).
    refine (Hcert _ _); discriminate.
Defined.

(** The two revisions on the bundle of the tests. *)
Lemma tls_helper_revisions_witness :
  getTLSConfigWithAllServerCertificates Fake.pem false
  = (Some (mkTLSConfig false [Fake.pem]), None)
  /\ ClientCertificates.getTLSConfigWithAllServerCertificates Fake.pem "" "" false
     = (Some (ClientCertificates.mkTLSConfig false (Some [Fake.pem]) []), None).
Proof.
  refine (proj1 (tls_helper_revisions Fake.pem false _) _); discriminate.
Defined.

(** A French collation with [CaseLevel] set to [false]: the options are
    those of the collation without it. *)
Lemma toMongoCollation_absent_is_zero_witness :
  collationOptions.toMongoCollation (Some FakeTLS.fr)
  = collationOptions.toMongoCollation
      (Some (collationOptions.without_zeros FakeTLS.fr))
  /\ collationOptions.CaseLevel (collationOptions.without_zeros FakeTLS.fr) = None.
Proof.
  split; [|reflexivity].
  destruct toMongoCollation_absent_is_zero as (_ & _ & Hsame).
  exact (proj2 (Hsame FakeTLS.fr (collationOptions.without_zeros FakeTLS.fr)) eq_refl).
Defined.

(** Create of the collection with a validator of the tests, on a server
    that is up and on one that is down. *)
Lemma collection_create_witness :
  State (exec (collectionResource.Create
                 (mkDecoded FakeTLS.collection_with_validator []))
              (start ∅ Fake.up)) !! "validation"
  = Some (AObject [("validator", "{}")])
  /\ HasError
       (Diagnostics_of
          (exec (collectionResource.Create
                   (mkDecoded FakeTLS.collection_with_validator []))
                (start ∅ Fake.down)))
     = true.
Proof.
  split.
  - destruct (collection_create (mkDecoded FakeTLS.collection_with_validator [])
                ∅ Fake.up eq_refl) as (_ & Hcreated).
    exact (proj2 (proj2 (proj2 (proj2 (Hcreated eq_refl))))).
  - destruct (collection_create (mkDecoded FakeTLS.collection_with_validator [])
                ∅ Fake.down eq_refl) as (Hfailed & _).
    exact (proj2 (Hfailed "server unreachable" eq_refl)).
Defined.

(** Read of a database on a server that holds it, and on one that does
    not. *)
Lemma database_read_witness :
  State (exec (databaseResource.Read (mkDecoded FakeTLS.database_new []))
              (start ∅ (FakeTLS.holding "test_db_new" "users"))) !! "id"
  = Some (AString "test_db_new")
  /\ exec (databaseResource.Read (mkDecoded FakeTLS.database_new []))
          (start ∅ Fake.up)
     = mkExec [NewErrorDiagnostic "Database not found"
                 "Database test_db_new does not exist"]
              ∅ Fake.up
              [Remote (CallListDatabaseNames "test_db_new") (mkReply [] None)].
Proof.
  split.
  - destruct (database_read (mkDecoded FakeTLS.database_new [])
                ∅ (FakeTLS.holding "test_db_new" "users") eq_refl)
      as (_ & _ & _ & Hfound).
    refine (proj2 (Hfound eq_refl _)). discriminate.
  - destruct (database_read (mkDecoded FakeTLS.database_new []) ∅ Fake.up eq_refl)
      as (_ & _ & Hmissing & _).
    exact (Hmissing eq_refl eq_refl).
Defined.

(** Read of a collection on a server that holds it, and on one that is
    down. *)
Lemma collection_read_witness :
  State (exec (collectionResource.Read (mkDecoded FakeTLS.collection_plain []))
              (start ∅ (FakeTLS.holding "terraform_test_db" "test_collection")))
    !! "id"
  = Some (AString "terraform_test_db.test_collection")
  /\ State (exec (collectionResource.Read (mkDecoded FakeTLS.collection_plain []))
                 (start ∅ Fake.down))
     = ∅.
Proof.
  split.
  - destruct (collection_read (mkDecoded FakeTLS.collection_plain [])
                ∅ (FakeTLS.holding "terraform_test_db" "test_collection") eq_refl)
      as (_ & _ & _ & Hfound).
    refine (proj2 (Hfound eq_refl _)). discriminate.
  - destruct (collection_read (mkDecoded FakeTLS.collection_plain []) ∅ Fake.down
                eq_refl) as (_ & Hfailed & _).
    exact (f_equal State (Hfailed "server unreachable" eq_refl)).
Defined.

(** Delete of a database on a server that is down. *)
Lemma database_delete_witness :
  HasError
    (Diagnostics_of
       (exec (databaseResource.Delete (mkDecoded FakeTLS.database_new []))
             (start ∅ Fake.down)))
  = true.
Proof.
  destruct (database_delete (mkDecoded FakeTLS.database_new []) ∅ Fake.down eq_refl)
    as (_ & _ & _ & _ & Herror).
  refine (proj2 Herror _). discriminate.
Defined.

(** Delete of a collection on a server that holds it. *)
Lemma collection_delete_witness :
  trace (exec (collectionResource.Delete (mkDecoded FakeTLS.collection_plain []))
              (start ∅ (FakeTLS.holding "terraform_test_db" "test_collection")))
  = [Remote (CallDropCollection "terraform_test_db" "test_collection")
            (mkReply [] None)]
  /\ Fake.collections
       (server
          (exec (collectionResource.Delete (mkDecoded FakeTLS.collection_plain []))
                (start ∅ (FakeTLS.holding "terraform_test_db" "test_collection"))))
     = [].
Proof.
  destruct (collection_delete (mkDecoded FakeTLS.collection_plain [])
              ∅ (FakeTLS.holding "terraform_test_db" "test_collection") eq_refl)
    as (Htrace & Hserver & _).
  split; [exact Htrace|]. rewrite Hserver. reflexivity.
Defined.

(** Create of the collection with a validator, and Read of it from a
    state whose [id] is out of date. *)
Lemma refresh_reproduces_created_state_witness :
  State (exec (collectionResource.Read (mkDecoded FakeTLS.collection_stale []))
              (start ∅ (FakeTLS.holding "terraform_test_db"
                                        "test_collection_with_validation")))
  = State (exec (collectionResource.Create
                   (mkDecoded FakeTLS.collection_with_validator []))
                (start ∅ Fake.up)).
Proof.
  exact (proj1 refresh_reproduces_created_state
           (mkDecoded FakeTLS.collection_with_validator [])
           (mkDecoded FakeTLS.collection_stale [])
           ∅ ∅ Fake.up
           (FakeTLS.holding "terraform_test_db" "test_collection_with_validation")
           eq_refl eq_refl eq_refl eq_refl eq_refl).
Defined.

(** Import of the collection of the tests after its creation, and of one
    created in a database [my.db]. *)
Lemma import_of_created_collection_witness :
  State (exec (collectionResource.ImportState
                 (mkImportStateRequest "terraform_test_db.test_collection"))
              (start ∅ Fake.up)) !! "name"
  = Some (AString "test_collection")
  /\ Diagnostics_of
       (exec (collectionResource.ImportState (mkImportStateRequest "my.db.events"))
             (start ∅ Fake.up))
     = [collectionResource.invalid_id_error (err_collection_id "my.db.events")].
Proof.
  split.
  - pose proof (import_of_created_collection
                  (mkDecoded FakeTLS.collection_plain []) ∅ Fake.up Fake.up
                  "terraform_test_db.test_collection" eq_refl eq_refl) as H.
    exact (proj1 (proj2 (proj2 H))).
  - pose proof (import_of_created_collection
                  (mkDecoded FakeTLS.collection_dotted []) ∅ Fake.up Fake.up
                  "my.db.events" eq_refl eq_refl) as H.
    exact (proj1 H).
Defined.

(** An update of a collection, and a Create whose plan did not convert. *)
Lemma method_error_leaves_state_witness :
  State (exec (call_method (CollectionUpdate_ (mkUpdateRequest ∅ ∅ ∅)))
              (start (<["name" := AString "test_collection"]> ∅) Fake.up))
  = <["name" := AString "test_collection"]> ∅
  /\ trace (exec (call_method
                    (DatabaseCreate_
                       (mkDecoded FakeTLS.database_new [FakeTLS.conversion_failed])))
                 (start ∅ Fake.up))
     = [].
Proof.
  split.
  - destruct (method_error_leaves_state (CollectionUpdate_ (mkUpdateRequest ∅ ∅ ∅))
                (<["name" := AString "test_collection"]> ∅) Fake.up)
      as (Herror & _).
    exact (proj1 (Herror eq_refl)).
  - destruct (method_error_leaves_state
                (DatabaseCreate_
                   (mkDecoded FakeTLS.database_new [FakeTLS.conversion_failed]))
                ∅ Fake.up) as (_ & Hconverted & _).
    exact (proj1 (proj2 (Hconverted eq_refl))).
Defined.

(** The first write of the import of a collection, and the state a
    Create of a database writes. *)
Lemma method_writes_within_schema_witness :
  written (StateSetAttribute "database" (AString "terraform_test_db"))
  ⊆ dom resourceSchema.collectionResource_Schema
  /\ is_Some
       (databaseResource.to_state
          (databaseResource.mkModel "test_db_new" (StringValue "test_db_new"))
        !! "name").
Proof.
  split.
  - exact (proj1 (method_writes_within_schema
                    (CollectionImportState_
                       (mkImportStateRequest "terraform_test_db.test_collection"))
                    ∅ Fake.up
                    (StateSetAttribute "database" (AString "terraform_test_db"))
                    (or_introl eq_refl))).
  - assert (In (StateSet (databaseResource.to_state
                            (databaseResource.mkModel "test_db_new"
                               (StringValue "test_db_new"))))
               (trace (exec (call_method
                               (DatabaseCreate_ (mkDecoded FakeTLS.database_new [])))
                            (start ∅ Fake.up)))) as Hin
      by (right; right; left; reflexivity).
    destruct (method_writes_within_schema
                (DatabaseCreate_ (mkDecoded FakeTLS.database_new []))
                ∅ Fake.up _ Hin) as (_ & Hstate).
    destruct (Hstate _ eq_refl) as (_ & Hrequired).
    refine (Hrequired "name" _ eq_refl _). reflexivity.
Defined.

(** The [validation] of a collection, and the [name] of a database. *)
Lemma schema_in_place_updates_witness :
  match resourceSchema.collectionResource_Schema !! "validation" with
  | Some a => resourceSchema.updatable a = true
  | None => False
  end
  /\ match resourceSchema.databaseResource_Schema !! "name" with
     | Some a => resourceSchema.updatable a = false
     | None => False
     end.
Proof.
  split.
  - destruct (resourceSchema.collectionResource_Schema !! "validation")
      as [a|] eqn:Ha; [|discriminate Ha].
    exact (proj2 (proj1 (proj2 (schema_in_place_updates "validation" a) Ha)) eq_refl).
  - destruct (resourceSchema.databaseResource_Schema !! "name")
      as [a|] eqn:Ha; [|discriminate Ha].
    exact (proj1 (proj1 (schema_in_place_updates "name" a) Ha)).
Defined.
